(** * ArchAI backend: the floor-plan pipeline of [backend/server.py]

    A shallow embedding of the four pipeline functions of the server,

      - [generate_floor_plan_ai]   (provider call, fallback, fence stripping),
      - [generate_svg_from_layout] (the SVG renderer),
      - [check_compliance]         (the rule evaluator),
      - [estimate_materials]       (the bill of quantities),

    together with the fragment of the Python runtime they run on, and of
    the routes that call them ([generate_floor_plans], [select_plan] and
    [upload_dxf] with [parse_dxf_file]), whose record store and drawing
    library are given from outside.

    Conventions of the embedding.
      - A Python [str] is a Rocq [string] holding its UTF-8 encoding.
      - A Python [int] is a [Z]; a Python [float] is a primitive binary64
        [float], with the IEEE operations of the kernel.
      - A call that can raise returns a [result]: [Ok v] or [Raise e].
      - Values decoded from JSON are dynamically typed ([value]); a [dict]
        is an association list in insertion order with distinct keys.
      - Provider calls are the only effects of the pipeline; they are
        threaded through a state-and-error monad that records every
        outbound call.  The routes record their operations on the store
        in the same way. *)

From Stdlib Require Import ZArith List String Ascii Bool Lia.
From Stdlib Require Floats.PrimFloat Floats.SpecFloat Floats.FloatOps.
From Stdlib Require DecimalString.
Import ListNotations.

Local Open Scope string_scope.
Local Open Scope Z_scope.

Set Warnings "-inexact-float,-register-all".

(* ================================================================== *)
(** * The Python runtime fragment *)
(* ================================================================== *)

Module Py.

(** ** Exceptions and results *)

(** The exception classes the pipeline can meet.  All of them derive from
    [Exception], so an [except Exception] clause catches each of them.
    [NotModelled] marks the few runtime behaviours left outside the
    embedding (named where they occur); no statement is made about them. *)
Inductive exn : Type :=
| KeyError
| IndexError
| TypeError
| ValueError
| AttributeError
| OverflowError
| ZeroDivisionError
| RecursionError
| JSONDecodeError
| ValidationError
| ProviderError (what : string)
| HTTPException (status_code : Z) (detail : string)
| NotModelled (what : string).

Inductive result (A : Type) : Type :=
| Ok (a : A)
| Raise (e : exn).
Arguments Ok {A} a.
Arguments Raise {A} e.

Definition bind {A B : Type} (r : result A) (k : A -> result B) : result B :=
  match r with
  | Ok a => k a
  | Raise e => Raise e
  end.

Declare Scope py_scope.
Delimit Scope py_scope with py.
Notation "x <- r ;; k" := (bind r (fun x => k))
  (at level 61, r at next level, right associativity) : py_scope.
Notation "' p <- r ;; k" := (bind r (fun p => k))
  (at level 61, p pattern, r at next level, right associativity) : py_scope.
Local Open Scope py_scope.

(** [mapM f xs]: a list comprehension whose body can raise; the first
    exception, in list order, is the one that propagates. *)
Fixpoint mapM {A B : Type} (f : A -> result B) (xs : list A) : result (list B) :=
  match xs with
  | [] => Ok []
  | x :: xs' => y <- f x ;; ys <- mapM f xs' ;; Ok (y :: ys)
  end.

(** ** Strings *)

(** [startswith p s]: [s.startswith(p)]. *)
Fixpoint startswith (p s : string) : bool :=
  match p, s with
  | EmptyString, _ => true
  | String a p', String b s' => Ascii.eqb a b && startswith p' s'
  | String _ _, EmptyString => false
  end.

(** [contains sub s]: [sub in s]. *)
Fixpoint contains (sub s : string) : bool :=
  startswith sub s ||
  match s with
  | EmptyString => false
  | String _ s' => contains sub s'
  end.

(** [split_from sep skip s]: the pieces of [s.split(sep)] for a non-empty
    [sep], scanning left to right; [skip] counts the characters of a
    separator just matched that are still to be dropped. *)
Fixpoint split_from (sep : string) (skip : nat) (s : string) : list string :=
  match s with
  | EmptyString => [EmptyString]
  | String c s' =>
      match skip with
      | S k => split_from sep k s'
      | O =>
          if startswith sep s
          then EmptyString :: split_from sep (Nat.pred (String.length sep)) s'
          else match split_from sep O s' with
               | piece :: pieces => String c piece :: pieces
               | [] => [String c EmptyString]
               end
      end
  end.

Definition split (sep s : string) : list string := split_from sep O s.

(** [xs[i]] on a list, for a non-negative literal index. *)
Definition list_index {A : Type} (xs : list A) (i : nat) : result A :=
  match nth_error xs i with
  | Some x => Ok x
  | None => Raise IndexError
  end.

(** [xs[i]] for a run-time [int] index: negative indices count from the
    end, anything out of range raises [IndexError]. *)
Definition list_getitem {A : Type} (xs : list A) (i : Z) : result A :=
  let n := Z.of_nat (List.length xs) in
  let j := if i <? 0 then i + n else i in
  if (0 <=? j) && (j <? n) then list_index xs (Z.to_nat j) else Raise IndexError.

(** The ASCII characters [str.isspace] accepts: TAB, LF, VT, FF, CR, the
    separators FS, GS, RS, US, and SPACE. *)
Definition is_space_ascii (c : ascii) : bool :=
  let n := N_of_ascii c in
  ((9 <=? n) && (n <=? 13) || (28 <=? n) && (n <=? 32))%N.

(** The non-ASCII code points [str.isspace] accepts, as UTF-8 sequences:
    U+0085, U+00A0, U+1680, U+2000..U+200A, U+2028, U+2029, U+202F,
    U+205F, U+3000. *)
Definition byte (n : N) : ascii := ascii_of_N n.

Definition bytes (ns : list N) : string :=
  fold_right (fun n s => String (byte n) s) EmptyString ns.

Definition unicode_spaces : list string :=
  map bytes
    [ [194; 133]; [194; 160]; [225; 154; 128];
      [226; 128; 128]; [226; 128; 129]; [226; 128; 130]; [226; 128; 131];
      [226; 128; 132]; [226; 128; 133]; [226; 128; 134]; [226; 128; 135];
      [226; 128; 136]; [226; 128; 137]; [226; 128; 138];
      [226; 128; 168]; [226; 128; 169]; [226; 128; 175];
      [226; 129; 159]; [227; 128; 128] ]%N.

(** [space_prefix s]: the number of bytes of the white-space character [s]
    starts with, [0] when it starts with none. *)
Definition space_prefix (s : string) : nat :=
  match s with
  | EmptyString => O
  | String c _ =>
      if is_space_ascii c then 1%nat
      else match find (fun w => startswith w s) unicode_spaces with
           | Some w => String.length w
           | None => O
           end
  end.

Fixpoint drop (n : nat) (s : string) : string :=
  match n, s with
  | O, _ => s
  | S k, String _ s' => drop k s'
  | S _, EmptyString => EmptyString
  end.

(** [lstrip_from skip s]: [s.lstrip()], scanning left to right; [skip]
    counts the bytes of a white-space character just met that are still
    to be dropped. *)
Fixpoint lstrip_from (skip : nat) (s : string) : string :=
  match s with
  | EmptyString => EmptyString
  | String c s' =>
      match skip with
      | S k => lstrip_from k s'
      | O =>
          match space_prefix s with
          | O => s
          | S k => lstrip_from k s'
          end
      end
  end.

Definition lstrip (s : string) : string := lstrip_from O s.

(** [rstrip s]: [s.rstrip()]: the string is cut at the first position from
    which only white space follows. *)
Fixpoint rstrip (s : string) : string :=
  match s with
  | EmptyString => EmptyString
  | String c s' =>
      if (lstrip s =? EmptyString)%string then EmptyString
      else String c (rstrip s')
  end.

(** [strip s]: [s.strip()]. *)
Definition strip (s : string) : string := rstrip (lstrip s).

(** [lower s]: [s.lower()], as far as the ASCII characters of the result
    go.  An ASCII capital becomes its small letter; U+0130 becomes [i]
    followed by U+0307 and U+212A becomes [k]: these are the only code
    points beyond ASCII whose lower-case form holds an ASCII character.
    The other code points are kept as they are; the result is only ever
    searched for an ASCII word. *)
Definition lower_ascii (c : ascii) : ascii :=
  let n := N_of_ascii c in
  if ((65 <=? n) && (n <=? 90))%N then ascii_of_N (n + 32) else c.

Definition capital_i_dotted : string := bytes [196; 176]%N.
Definition kelvin_sign : string := bytes [226; 132; 170]%N.
Definition small_i_dotted : string := bytes [105; 204; 135]%N.

Fixpoint lower_from (skip : nat) (s : string) : string :=
  match s with
  | EmptyString => EmptyString
  | String c s' =>
      match skip with
      | S k => lower_from k s'
      | O =>
          if startswith capital_i_dotted s then small_i_dotted ++ lower_from 1 s'
          else if startswith kelvin_sign s then String "k" (lower_from 2 s')
          else String (lower_ascii c) (lower_from 0 s')
      end
  end.

Definition lower (s : string) : string := lower_from O s.

(** [''.join(parts)]. *)
Definition join (parts : list string) : string :=
  fold_right String.append EmptyString parts.

(** ** Numbers *)

Abbreviation float := PrimFloat.float.

(** [decimal z]: [str(z)] for an [int]. *)
Definition decimal (z : Z) : string :=
  DecimalString.NilZero.string_of_int (Z.to_int z).

(** [float(z)]: the nearest binary64 value, ties to even; [OverflowError]
    when that value is not finite. *)
Definition float_of_int (z : Z) : result float :=
  match SpecFloat.binary_normalize 53 1024 z 0 false with
  | SpecFloat.S754_infinity _ => Raise OverflowError
  | sf => Ok (FloatOps.SF2Prim sf)
  end.

(** [round_ratio neg p q]: the binary64 value nearest to [p / q] (ties to
    even) with sign [neg]; an infinity when the quotient overflows. *)
Definition round_ratio (neg : bool) (p q : positive) : SpecFloat.spec_float :=
  let '(mz, ez, lz) := SpecFloat.SFdiv_core_binary 53 1024 (Zpos p) 0 (Zpos q) 0 in
  SpecFloat.binary_round_aux 53 1024 neg mz ez lz.

(** [a / b] on two [int]s: true division, correctly rounded. *)
Definition int_truediv (a b : Z) : result float :=
  if b =? 0 then Raise ZeroDivisionError
  else
    let neg := xorb (a <? 0) (b <? 0) in
    match Z.abs a, Z.abs b with
    | Zpos p, Zpos q =>
        match round_ratio neg p q with
        | SpecFloat.S754_infinity _ => Raise OverflowError
        | sf => Ok (FloatOps.SF2Prim sf)
        end
    | _, _ => Ok (if neg then PrimFloat.neg_zero else PrimFloat.zero)
    end.

(** [a / b] on two [float]s. *)
Definition float_truediv (a b : float) : result float :=
  if PrimFloat.eqb b PrimFloat.zero then Raise ZeroDivisionError
  else Ok (PrimFloat.div a b).

(** Exact comparison of an [int] with a [float], as Python compares mixed
    operands; [None] when the float is a NaN. *)
Definition compare_int_float (z : Z) (f : float) : option comparison :=
  match FloatOps.Prim2SF f with
  | SpecFloat.S754_nan => None
  | SpecFloat.S754_infinity s => Some (if s then Gt else Lt)
  | SpecFloat.S754_zero _ => Some (z ?= 0)
  | SpecFloat.S754_finite s m e =>
      let fm := if s then Zneg m else Zpos m in
      Some (if 0 <=? e then z ?= fm * 2 ^ e else z * 2 ^ (- e) ?= fm)
  end.

(** *** Formatting floats *)

(** [round_half_even n d]: the integer nearest to [n / d], ties to even
    ([0 <= n], [0 < d]). *)
Definition round_half_even (n d : Z) : Z :=
  let q := n / d in
  match 2 * (n mod d) ?= d with
  | Lt => q
  | Gt => q + 1
  | Eq => if Z.even q then q else q + 1
  end.

(** [format(f, '.1f')]: the decimal expansion of the exact value of [f],
    correctly rounded to one place. *)
Definition float_format_1f (f : float) : string :=
  match FloatOps.Prim2SF f with
  | SpecFloat.S754_nan => "nan"
  | SpecFloat.S754_infinity s => if s then "-inf" else "inf"
  | SpecFloat.S754_zero s => if s then "-0.0" else "0.0"
  | SpecFloat.S754_finite s m e =>
      let tenths :=
        if 0 <=? e then Zpos m * 2 ^ e * 10
        else round_half_even (Zpos m * 10) (2 ^ (- e)) in
      (if s then "-" else "") ++ decimal (tenths / 10) ++ "." ++ decimal (tenths mod 10)
  end.

(** [pow10 n]: [10 ^ n] for [0 <= n], [1] otherwise. *)
Definition pow10 (n : Z) : Z := 10 ^ Z.max n 0.

(** [ilog10 fuel n0 V D]: the largest [n >= n0] with [10 ^ n <= V / D],
    looked for in at most [fuel] steps upwards from [n0]. *)
Fixpoint ilog10 (fuel : nat) (n : Z) (V D : Z) : Z :=
  match fuel with
  | O => n
  | S f =>
      if pow10 (n + 1) * D <=? V * pow10 (- (n + 1))
      then ilog10 f (n + 1) V D
      else n
  end.

(** [shortest fuel k ...]: the shortest decimal [c * 10 ^ n] that rounds
    to the float of exact value [V / D], whose rounding interval is
    [[(V - lo) / D, (V + hi) / D]] (closed when [closed]); of two
    candidates of equal length the nearer is taken.  [k] is the number of
    digits tried, [E] the decimal exponent of the value. *)
Fixpoint shortest (fuel : nat) (k : Z) (E V D lo hi : Z) (closed : bool) : Z * Z :=
  let n := E - (k - 1) in
  let N := V * pow10 (- n) in
  let M := D * pow10 n in
  let c := N / M in
  match fuel with
  | O => (c, n)
  | S f =>
      let below := N - c * M in
      let above := (c + 1) * M - N in
      let s := pow10 (- n) in
      let ok_below := if closed then below <=? lo * s else below <? lo * s in
      let ok_above := if closed then above <=? hi * s else above <? hi * s in
      if below =? 0 then (c, n)
      else if ok_below && ok_above then
        match below ?= above with
        | Lt => (c, n)
        | Gt => (c + 1, n)
        | Eq => if Z.even c then (c, n) else (c + 1, n)
        end
      else if ok_below then (c, n)
      else if ok_above then (c + 1, n)
      else shortest f (k + 1) E V D lo hi closed
  end.

(** [strip_zeros fuel c n]: trailing zeros of [c] moved into the exponent. *)
Fixpoint strip_zeros (fuel : nat) (c n : Z) : Z * Z :=
  match fuel with
  | O => (c, n)
  | S f => if (c mod 10 =? 0) && negb (c =? 0) then strip_zeros f (c / 10) (n + 1) else (c, n)
  end.

Definition zeros (n : Z) : string :=
  fold_right (fun _ s => String "0" s) EmptyString (repeat tt (Z.to_nat n)).

Definition take (n : nat) (s : string) : string := String.substring 0 n s.

(** [float_repr f]: [repr(f)] (which is also [str(f)]): the shortest
    decimal string that reads back as [f], in fixed notation when the
    decimal point falls within [-4 < decpt <= 16] and in exponent notation
    otherwise. *)
Definition float_repr (f : float) : string :=
  match FloatOps.Prim2SF f with
  | SpecFloat.S754_nan => "nan"
  | SpecFloat.S754_infinity s => if s then "-inf" else "inf"
  | SpecFloat.S754_zero s => if s then "-0.0" else "0.0"
  | SpecFloat.S754_finite s m e =>
      let g := 2 ^ Z.max e 0 in
      let V := 4 * Zpos m * g in
      let D := 4 * 2 ^ Z.max (- e) 0 in
      let hi := 2 * g in
      let lo := if (Zpos m =? 2 ^ 52) && (-1074 <? e) then g else 2 * g in
      let E0 := ((Z.log2 V - Z.log2 D - 1) * 1233) / 4096 - 1 in
      let E := ilog10 6 E0 V D in
      let '(c0, n0) := shortest 17 1 E V D lo hi (Z.even (Zpos m)) in
      let '(c, n) := strip_zeros 20 c0 n0 in
      let ds := decimal c in
      let nd := Z.of_nat (String.length ds) in
      let decpt := nd + n in
      (if s then "-" else "") ++
      (if (16 <? decpt) || (decpt <? -3) then
         let x := decpt - 1 in
         take 1 ds ++
         (if 1 <? nd then "." ++ drop 1 ds else "") ++
         "e" ++ (if x <? 0 then "-" else "+") ++
         (if Z.abs x <? 10 then "0" else "") ++ decimal (Z.abs x)
       else if decpt <=? 0 then "0." ++ zeros (- decpt) ++ ds
       else if nd <=? decpt then ds ++ zeros (decpt - nd) ++ ".0"
       else take (Z.to_nat decpt) ds ++ "." ++ drop (Z.to_nat decpt) ds)
  end.

(** ** Dynamically typed values *)

(** The values [json.loads] produces, and the ones the pipeline computes
    from them.  A [dict] keeps its items in insertion order; its keys are
    strings and are pairwise distinct. *)
Inductive value : Type :=
| VNone
| VBool (b : bool)
| VInt (z : Z)
| VFloat (f : float)
| VStr (s : string)
| VList (xs : list value)
| VDict (items : list (string * value)).

Definition dict : Type := list (string * value).

(** [dict_lookup k d]: the value stored under [k], if any. *)
Fixpoint dict_lookup (k : string) (d : dict) : option value :=
  match d with
  | [] => None
  | (k', v) :: d' => if (k' =? k)%string then Some v else dict_lookup k d'
  end.

(** [d[k] = v]: an existing key keeps its place and takes the new value, a
    new key goes to the end. *)
Fixpoint dict_set (k : string) (v : value) (d : dict) : dict :=
  match d with
  | [] => [(k, v)]
  | (k', v') :: d' =>
      if (k' =? k)%string then (k', v) :: d' else (k', v') :: dict_set k v d'
  end.

(** [d[k]] on a dict. *)
Definition dict_getitem (d : dict) (k : string) : result value :=
  match dict_lookup k d with
  | Some v => Ok v
  | None => Raise KeyError
  end.

(** [d.get(k, default)] on a dict. *)
Definition dict_get (d : dict) (k : string) (default : value) : value :=
  match dict_lookup k d with
  | Some v => v
  | None => default
  end.

(** [v[k]] with a string key [k]: only a dict can be subscripted by a
    string; a list or a string wants an integer, the other types cannot be
    subscripted at all. *)
Definition py_getitem (v : value) (k : string) : result value :=
  match v with
  | VDict d => dict_getitem d k
  | _ => Raise TypeError
  end.

(** [v.get(k, default)]: only a dict has the method. *)
Definition py_get (v : value) (k : string) (default : value) : result value :=
  match v with
  | VDict d => Ok (dict_get d k default)
  | _ => Raise AttributeError
  end.

(** [v.lower()]: only a string has the method. *)
Definition py_lower (v : value) : result string :=
  match v with
  | VStr s => Ok (lower s)
  | _ => Raise AttributeError
  end.

(** [bool(v)]. *)
Definition truthy (v : value) : bool :=
  match v with
  | VNone => false
  | VBool b => b
  | VInt z => negb (z =? 0)
  | VFloat f => negb (PrimFloat.eqb f PrimFloat.zero)
  | VStr s => negb (s =? EmptyString)%string
  | VList xs => match xs with [] => false | _ => true end
  | VDict d => match d with [] => false | _ => true end
  end.

(** The characters of a string: a lead byte with the continuation bytes
    ([10xxxxxx]) that follow it. *)
Definition is_continuation (c : ascii) : bool :=
  let n := N_of_ascii c in ((128 <=? n) && (n <? 192))%N.

Fixpoint utf8_split (s : string) : string * list string :=
  match s with
  | EmptyString => (EmptyString, [])
  | String c s' =>
      let '(pending, cs) := utf8_split s' in
      if is_continuation c then (String c pending, cs)
      else (EmptyString, String c pending :: cs)
  end.

Definition chars (s : string) : list string := snd (utf8_split s).

(** [iter(v)], run to the end: the items of a list, the characters of a
    string, the keys of a dict; the other types are not iterable. *)
Definition py_iter (v : value) : result (list value) :=
  match v with
  | VList xs => Ok xs
  | VStr s => Ok (map VStr (chars s))
  | VDict d => Ok (map (fun kv => VStr (fst kv)) d)
  | _ => Raise TypeError
  end.

(** *** Arithmetic *)

(** [bool] is a subclass of [int]: [True] and [False] count as [1] and [0]. *)
Inductive num : Type :=
| NInt (z : Z)
| NFloat (f : float).

Definition as_num (v : value) : option num :=
  match v with
  | VBool b => Some (NInt (if b then 1 else 0))
  | VInt z => Some (NInt z)
  | VFloat f => Some (NFloat f)
  | _ => None
  end.

Definition as_int (v : value) : option Z :=
  match as_num v with
  | Some (NInt z) => Some z
  | _ => None
  end.

Definition num_to_float (n : num) : result float :=
  match n with
  | NInt z => float_of_int z
  | NFloat f => Ok f
  end.

Definition num_add (a b : num) : result value :=
  match a, b with
  | NInt x, NInt y => Ok (VInt (x + y))
  | _, _ => x <- num_to_float a ;; y <- num_to_float b ;; Ok (VFloat (PrimFloat.add x y))
  end.

Definition num_mul (a b : num) : result value :=
  match a, b with
  | NInt x, NInt y => Ok (VInt (x * y))
  | _, _ => x <- num_to_float a ;; y <- num_to_float b ;; Ok (VFloat (PrimFloat.mul x y))
  end.

Definition num_truediv (a b : num) : result value :=
  match a, b with
  | NInt x, NInt y => q <- int_truediv x y ;; Ok (VFloat q)
  | _, _ =>
      x <- num_to_float a ;; y <- num_to_float b ;;
      q <- float_truediv x y ;; Ok (VFloat q)
  end.

(** [a > b] on numbers: exact, also between an [int] and a [float];
    false as soon as a NaN is involved. *)
Definition num_gt (a b : num) : bool :=
  match a, b with
  | NInt x, NInt y => y <? x
  | NInt x, NFloat g =>
      match compare_int_float x g with Some Gt => true | _ => false end
  | NFloat f, NInt y =>
      match compare_int_float y f with Some Lt => true | _ => false end
  | NFloat f, NFloat g => PrimFloat.ltb g f
  end.

Fixpoint str_repeat (n : nat) (s : string) : string :=
  match n with
  | O => EmptyString
  | S k => s ++ str_repeat k s
  end.

Fixpoint list_repeat {A : Type} (n : nat) (xs : list A) : list A :=
  match n with
  | O => []
  | S k => xs ++ list_repeat k xs
  end.

(** [v + w]. *)
Definition py_add (v w : value) : result value :=
  match as_num v, as_num w with
  | Some a, Some b => num_add a b
  | _, _ =>
      match v, w with
      | VStr s, VStr t => Ok (VStr (s ++ t))
      | VList xs, VList ys => Ok (VList (xs ++ ys))
      | _, _ => Raise TypeError
      end
  end.

(** [v * w]: a product of numbers, or a sequence repeated an [int] number
    of times. *)
Definition py_mul (v w : value) : result value :=
  match as_num v, as_num w with
  | Some a, Some b => num_mul a b
  | _, _ =>
      match v, as_int w, as_int v, w with
      | VStr s, Some n, _, _ => Ok (VStr (str_repeat (Z.to_nat n) s))
      | VList xs, Some n, _, _ => Ok (VList (list_repeat (Z.to_nat n) xs))
      | _, _, Some n, VStr s => Ok (VStr (str_repeat (Z.to_nat n) s))
      | _, _, Some n, VList xs => Ok (VList (list_repeat (Z.to_nat n) xs))
      | _, _, _, _ => Raise TypeError
      end
  end.

(** [v / w]. *)
Definition py_truediv (v w : value) : result value :=
  match as_num v, as_num w with
  | Some a, Some b => num_truediv a b
  | _, _ => Raise TypeError
  end.

(** [v > w].  Numbers compare with numbers and strings with strings (by
    code point, which is the byte order of UTF-8).  Two lists compare
    item by item in Python; that comparison is not modelled.  Every other
    pairing is a [TypeError]. *)
Definition py_gt (v w : value) : result bool :=
  match as_num v, as_num w with
  | Some a, Some b => Ok (num_gt a b)
  | _, _ =>
      match v, w with
      | VStr s, VStr t =>
          Ok (match String.compare s t with Gt => true | _ => false end)
      | VList _, VList _ => Raise (NotModelled "comparison of two lists")
      | _, _ => Raise TypeError
      end
  end.

(** [v < w], which is [w > v] on the types compared here. *)
Definition py_lt (v w : value) : result bool := py_gt w v.

(** [max(xs)]: the first of the greatest items; each item is compared
    with the running maximum by [item > maximum]. *)
Fixpoint py_max_from (m : value) (xs : list value) : result value :=
  match xs with
  | [] => Ok m
  | x :: xs' => b <- py_gt x m ;; py_max_from (if b then x else m) xs'
  end.

Definition py_max (xs : list value) : result value :=
  match xs with
  | [] => Raise ValueError
  | x :: xs' => py_max_from x xs'
  end.

(** *** Formatting *)

(** [str(v)], what an f-string field [{v}] inserts.  The text of a list
    or a dict (which quotes and escapes the strings inside) is not
    modelled. *)
Definition py_str (v : value) : result string :=
  match v with
  | VNone => Ok "None"
  | VBool b => Ok (if b then "True" else "False")
  | VInt z => Ok (decimal z)
  | VFloat f => Ok (float_repr f)
  | VStr s => Ok s
  | VList _ | VDict _ => Raise (NotModelled "str of a list or a dict")
  end.

(** [format(v, '.1f')], what an f-string field [{v:.1f}] inserts: an
    [int] (or [bool]) is converted to [float] first; a string does not
    know the format code; the other types take no format string. *)
Definition py_format_1f (v : value) : result string :=
  match v with
  | VFloat f => Ok (float_format_1f f)
  | VInt z => f <- float_of_int z ;; Ok (float_format_1f f)
  | VBool b => f <- float_of_int (if b then 1 else 0) ;; Ok (float_format_1f f)
  | VStr _ => Raise ValueError
  | VNone | VList _ | VDict _ => Raise TypeError
  end.

(** [q s]: [s] with every apostrophe turned into a double quote, so that
    the literals of the source, which are full of double quotes, can be
    written down legibly. *)
Definition dquote : ascii := ascii_of_N 34.

Fixpoint q (s : string) : string :=
  match s with
  | EmptyString => EmptyString
  | String c s' => String (if Ascii.eqb c "'" then dquote else c) (q s')
  end.

End Py.

(* ================================================================== *)
(** * The JSON decoder: [json.loads] *)
(* ================================================================== *)

(** The decoder of the standard library, as the pipeline uses it: default
    options, so the constants [NaN], [Infinity] and [-Infinity] are
    accepted, control characters inside strings are refused, and of two
    items with the same key the later value wins.  Every failure of the
    decoder is a [JSONDecodeError].  The recursion of the decoder is
    bounded by fuel, of which [loads] supplies twice the length of the
    text, more than any text uses up (lemma [loads_error]); the recursion
    limit of the interpreter is not modelled. *)
Module Json.

Import Py.
Local Open Scope py_scope.

Definition code (c : ascii) : N := N_of_ascii c.

Definition is_ws (c : ascii) : bool :=
  let n := code c in ((n =? 32) || (n =? 9) || (n =? 10) || (n =? 13))%N.

Fixpoint skip_ws (s : string) : string :=
  match s with
  | EmptyString => EmptyString
  | String c s' => if is_ws c then skip_ws s' else s
  end.

Definition is_digit (c : ascii) : bool :=
  let n := code c in ((48 <=? n) && (n <=? 57))%N.

(** [span_digits s]: the longest run of digits [s] starts with, and the
    rest. *)
Fixpoint span_digits (s : string) : string * string :=
  match s with
  | EmptyString => (EmptyString, EmptyString)
  | String c s' =>
      if is_digit c then let '(ds, rest) := span_digits s' in (String c ds, rest)
      else (EmptyString, s)
  end.

(** The number a run of digits denotes. *)
Fixpoint digits_value (acc : Z) (ds : string) : Z :=
  match ds with
  | EmptyString => acc
  | String c ds' => digits_value (10 * acc + Z.of_N (code c - 48)) ds'
  end.

(** The integer part of a number: [0], or a non-zero digit and the
    digits after it. *)
Definition span_integer (s : string) : option (string * string) :=
  match s with
  | String c s' =>
      if Ascii.eqb c "0" then Some ("0", s')
      else if is_digit c then
             let '(ds, rest) := span_digits s' in Some (String c ds, rest)
           else None
  | EmptyString => None
  end.

(** The fraction of a number: a point and at least one digit. *)
Definition span_frac (s : string) : option (string * string) :=
  match s with
  | String c s' =>
      if Ascii.eqb c "." then
        match span_digits s' with
        | (EmptyString, _) => None
        | (ds, rest) => Some (ds, rest)
        end
      else None
  | EmptyString => None
  end.

(** The exponent of a number: [e] or [E], an optional sign, and at least
    one digit. *)
Definition span_exp (s : string) : option (Z * string) :=
  match s with
  | String c s' =>
      if Ascii.eqb c "e" || Ascii.eqb c "E" then
        let '(neg, s'') :=
          match s' with
          | String d t =>
              if Ascii.eqb d "-" then (true, t)
              else if Ascii.eqb d "+" then (false, t)
              else (false, s')
          | EmptyString => (false, s')
          end in
        match span_digits s'' with
        | (EmptyString, _) => None
        | (ds, rest) =>
            Some (if neg then - digits_value 0 ds else digits_value 0 ds, rest)
        end
      else None
  | EmptyString => None
  end.

(** [float(text)] for the text of a JSON number with mantissa digits [m]
    (an integer), decimal exponent [e] and sign [neg]: the nearest
    [float], an infinity when the number is too large. *)
Definition float_of_decimal (neg : bool) (m e : Z) : float :=
  match m with
  | Zpos p =>
      FloatOps.SF2Prim
        (if 0 <=? e then round_ratio neg (p * Z.to_pos (10 ^ e)) 1
         else round_ratio neg p (Z.to_pos (10 ^ (- e))))
  | _ => if neg then PrimFloat.neg_zero else PrimFloat.zero
  end.

(** A number at the head of [s], if there is one. *)
Definition match_number (s : string) : option (value * string) :=
  let '(neg, s1) :=
    match s with
    | String c s' => if Ascii.eqb c "-" then (true, s') else (false, s)
    | EmptyString => (false, s)
    end in
  match span_integer s1 with
  | None => None
  | Some (int_ds, s2) =>
      let '(frac_ds, s3) :=
        match span_frac s2 with
        | Some (ds, rest) => (Some ds, rest)
        | None => (None, s2)
        end in
      let '(exp, s4) :=
        match span_exp s3 with
        | Some (x, rest) => (Some x, rest)
        | None => (None, s3)
        end in
      match frac_ds, exp with
      | None, None =>
          let n := digits_value 0 int_ds in
          Some (VInt (if neg then - n else n), s4)
      | _, _ =>
          let fd := match frac_ds with Some ds => ds | None => EmptyString end in
          let x := match exp with Some x => x | None => 0 end in
          let m := digits_value 0 (int_ds ++ fd) in
          Some (VFloat (float_of_decimal neg m (x - Z.of_nat (String.length fd))), s4)
      end
  end.

(** *** Strings *)

Definition hex_value (c : ascii) : option Z :=
  let n := code c in
  if ((48 <=? n) && (n <=? 57))%N then Some (Z.of_N (n - 48))
  else if ((97 <=? n) && (n <=? 102))%N then Some (Z.of_N (n - 87))
  else if ((65 <=? n) && (n <=? 70))%N then Some (Z.of_N (n - 55))
  else None.

Definition hex4 (a b c d : ascii) : option Z :=
  match hex_value a, hex_value b, hex_value c, hex_value d with
  | Some x, Some y, Some z, Some w => Some (((x * 16 + y) * 16 + z) * 16 + w)
  | _, _, _, _ => None
  end.

Definition chr (n : Z) : ascii := ascii_of_N (Z.to_N n).

(** The UTF-8 encoding of a code point (a lone surrogate is encoded like
    any other code point of its range). *)
Definition utf8_encode (cp : Z) : string :=
  if cp <? 128 then String (chr cp) EmptyString
  else if cp <? 2048 then
    String (chr (192 + cp / 64)) (String (chr (128 + cp mod 64)) EmptyString)
  else if cp <? 65536 then
    String (chr (224 + cp / 4096))
      (String (chr (128 + (cp / 64) mod 64))
         (String (chr (128 + cp mod 64)) EmptyString))
  else
    String (chr (240 + cp / 262144))
      (String (chr (128 + (cp / 4096) mod 64))
         (String (chr (128 + (cp / 64) mod 64))
            (String (chr (128 + cp mod 64)) EmptyString))).

(** The character a one-letter escape stands for. *)
Definition simple_escape (c : ascii) : option ascii :=
  if Ascii.eqb c dquote then Some dquote
  else if Ascii.eqb c "\" then Some "\"%char
  else if Ascii.eqb c "/" then Some "/"%char
  else if Ascii.eqb c "b" then Some (chr 8)
  else if Ascii.eqb c "f" then Some (chr 12)
  else if Ascii.eqb c "n" then Some (chr 10)
  else if Ascii.eqb c "r" then Some (chr 13)
  else if Ascii.eqb c "t" then Some (chr 9)
  else None.

Definition is_high_surrogate (cp : Z) : bool := (55296 <=? cp) && (cp <=? 56319).
Definition is_low_surrogate (cp : Z) : bool := (56320 <=? cp) && (cp <=? 57343).

(** [low_half s]: when [s] starts with a [\uXXXX] escape that is followed
    by at least one more character, the code unit it denotes ([None] in
    [Some None] when its digits are not hexadecimal) and the rest. *)
Definition low_half (s : string) : option (option Z * string) :=
  match s with
  | String b (String u (String h1 (String h2 (String h3 (String h4 (String c t)))))) =>
      if Ascii.eqb b "\" && Ascii.eqb u "u"
      then Some (hex4 h1 h2 h3 h4, String c t)
      else None
  | _ => None
  end.

(** [scanstring s]: the string that ends at the first unescaped double
    quote of [s] (the opening quote is already consumed), and the rest. *)
Fixpoint scanstring (s : string) : result (string * string) :=
  match s with
  | EmptyString => Raise JSONDecodeError
  | String c s' =>
      if Ascii.eqb c dquote then Ok (EmptyString, s')
      else if Ascii.eqb c "\" then
        match s' with
        | EmptyString => Raise JSONDecodeError
        | String e s'' =>
            if Ascii.eqb e "u" then
              match s'' with
              | String h1 (String h2 (String h3 (String h4 r))) =>
                  match hex4 h1 h2 h3 h4 with
                  | None => Raise JSONDecodeError
                  | Some cp =>
                      match (if is_high_surrogate cp then low_half r else None) with
                      | Some (None, _) => Raise JSONDecodeError
                      | Some (Some cp2, _) =>
                          if is_low_surrogate cp2 then
                            match r with
                            | String _ (String _ (String _ (String _ (String _ (String _ r'))))) =>
                                '(str, rest) <- scanstring r' ;;
                                Ok (utf8_encode (65536 + (cp - 55296) * 1024 + (cp2 - 56320))
                                      ++ str, rest)
                            | _ => Raise JSONDecodeError
                            end
                          else '(str, rest) <- scanstring r ;; Ok (utf8_encode cp ++ str, rest)
                      | None => '(str, rest) <- scanstring r ;; Ok (utf8_encode cp ++ str, rest)
                      end
                  end
              | _ => Raise JSONDecodeError
              end
            else
              match simple_escape e with
              | Some ch => '(str, rest) <- scanstring s'' ;; Ok (String ch str, rest)
              | None => Raise JSONDecodeError
              end
        end
      else if (code c <? 32)%N then Raise JSONDecodeError
      else '(str, rest) <- scanstring s' ;; Ok (String c str, rest)
  end.

(** *** Values *)

(** [dict(pairs)]. *)
Definition dict_of_pairs (pairs : list (string * value)) : dict :=
  fold_left (fun d kv => dict_set (fst kv) (snd kv) d) pairs [].

(** [scan_once fuel s]: the value at the head of [s], and the rest.
    [scan_items] reads the items of an array after the opening bracket
    and [scan_pairs] the items of an object from the opening quote of a
    key on. *)
Fixpoint scan_once (fuel : nat) (s : string) : result (value * string) :=
  match fuel with
  | O => Raise RecursionError
  | S f =>
      match s with
      | EmptyString => Raise JSONDecodeError
      | String c r =>
          if Ascii.eqb c dquote then
            '(str, rest) <- scanstring r ;; Ok (VStr str, rest)
          else if Ascii.eqb c "{" then
            match skip_ws r with
            | String c' r' =>
                if Ascii.eqb c' "}" then Ok (VDict [], r')
                else if Ascii.eqb c' dquote then
                  '(pairs, rest) <- scan_pairs f r' ;;
                  Ok (VDict (dict_of_pairs pairs), rest)
                else Raise JSONDecodeError
            | EmptyString => Raise JSONDecodeError
            end
          else if Ascii.eqb c "[" then
            match skip_ws r with
            | String c' r' =>
                if Ascii.eqb c' "]" then Ok (VList [], r')
                else '(items, rest) <- scan_items f (String c' r') ;; Ok (VList items, rest)
            | EmptyString => Raise JSONDecodeError
            end
          else if startswith "null" s then Ok (VNone, drop 4 s)
          else if startswith "true" s then Ok (VBool true, drop 4 s)
          else if startswith "false" s then Ok (VBool false, drop 5 s)
          else
            match match_number s with
            | Some r => Ok r
            | None =>
                if startswith "NaN" s then Ok (VFloat PrimFloat.nan, drop 3 s)
                else if startswith "Infinity" s then Ok (VFloat PrimFloat.infinity, drop 8 s)
                else if startswith "-Infinity" s then Ok (VFloat PrimFloat.neg_infinity, drop 9 s)
                else Raise JSONDecodeError
            end
      end
  end

with scan_items (fuel : nat) (s : string) : result (list value * string) :=
  match fuel with
  | O => Raise RecursionError
  | S f =>
      '(v, rest) <- scan_once f s ;;
      match skip_ws rest with
      | String c r =>
          if Ascii.eqb c "]" then Ok ([v], r)
          else if Ascii.eqb c "," then
            '(vs, rest') <- scan_items f (skip_ws r) ;; Ok (v :: vs, rest')
          else Raise JSONDecodeError
      | EmptyString => Raise JSONDecodeError
      end
  end

with scan_pairs (fuel : nat) (s : string) : result (list (string * value) * string) :=
  match fuel with
  | O => Raise RecursionError
  | S f =>
      '(key, rest) <- scanstring s ;;
      match skip_ws rest with
      | String c r =>
          if Ascii.eqb c ":" then
            '(v, rest') <- scan_once f (skip_ws r) ;;
            match skip_ws rest' with
            | String c' r' =>
                if Ascii.eqb c' "}" then Ok ([(key, v)], r')
                else if Ascii.eqb c' "," then
                  match skip_ws r' with
                  | String c'' r'' =>
                      if Ascii.eqb c'' dquote then
                        '(kvs, rest'') <- scan_pairs f r'' ;; Ok ((key, v) :: kvs, rest'')
                      else Raise JSONDecodeError
                  | EmptyString => Raise JSONDecodeError
                  end
                else Raise JSONDecodeError
            | EmptyString => Raise JSONDecodeError
            end
          else Raise JSONDecodeError
      | EmptyString => Raise JSONDecodeError
      end
  end.

(** The byte order mark, which [json.loads] refuses at the head of a text. *)
Definition bom : string := bytes [239; 187; 191]%N.

(** [json.loads(s)]. *)
Definition loads (s : string) : result value :=
  if startswith bom s then Raise JSONDecodeError
  else
    '(v, rest) <- scan_once (2 * String.length s + 2) (skip_ws s) ;;
    match skip_ws rest with
    | EmptyString => Ok v
    | _ => Raise JSONDecodeError
    end.

End Json.

Import Py.
Import PrimFloat.
Local Open Scope py_scope.

(* ================================================================== *)
(** * Models (the data shapes of the pipeline) *)
(* ================================================================== *)

Module RoomRequirement.
Record t : Type := {
  name : string;
  quantity : Z;
  minArea : option float
}.
End RoomRequirement.

Module AdjacencyRule.
Record t : Type := {
  room1 : string;
  room2 : string;
  preferred : bool
}.
End AdjacencyRule.

Module SiteConstraints.
Record t : Type := {
  width : option float;
  length : option float;
  dimensions : option string;
  fileName : option string
}.
End SiteConstraints.

Module CulturalParameters.
Record t : Type := {
  type : option string;
  preferences : option dict
}.
End CulturalParameters.

Module ComplianceCheck.
Record t : Type := {
  category : string;
  rule : string;
  status : string;
  message : string;
  suggestion : option string
}.
End ComplianceCheck.

Module MaterialItem.
Record t : Type := {
  name : string;
  quantity : float;
  unit : string;
  estimatedCost : option float
}.
End MaterialItem.

Module FloorPlanData.
Record t : Type := {
  svgContent : string;
  rooms : list dict;
  totalArea : float;
  dimensions : list (string * float)
}.
End FloorPlanData.

Module ProjectConfig.
Record t : Type := {
  projectType : string;
  siteConstraints : SiteConstraints.t;
  requiredSpaces : list RoomRequirement.t;
  adjacencyRules : option (list AdjacencyRule.t);
  orientation : option (list (string * string));
  culturalParams : option CulturalParameters.t;
  municipalCode : option string
}.
End ProjectConfig.

Module Project.
Record t : Type := {
  id : string;
  name : string;
  config : ProjectConfig.t;
  floorPlans : list FloorPlanData.t;
  selectedPlanIndex : Z;
  complianceChecks : list ComplianceCheck.t;
  materials : list MaterialItem.t;
  createdAt : string;
  updatedAt : string
}.
End Project.

(** A field of type [float] given an [int]: the model converts it to the
    nearest [float].  The integers converted here are small multiples of
    a list length. *)
Definition to_float (z : Z) : float :=
  FloatOps.SF2Prim (SpecFloat.binary_normalize 53 1024 z 0 false).

(* ================================================================== *)
(** * The renderer: [generate_svg_from_layout] *)
(* ================================================================== *)

Definition scale : Z := 40.

Definition colors : list string :=
  ["#e3f2fd"; "#f3e5f5"; "#e8f5e9"; "#fff3e0"; "#fce4ec"; "#e0f2f1"; "#f1f8e9"].

(** [colors[idx % len(colors)]]. *)
Definition color_of (idx : nat) : string :=
  nth (idx mod List.length colors) colors EmptyString.

(** [max([r[pos] + r[ext] for r in rooms]) if rooms else default]. *)
Definition canvas_bound (pos ext : string) (default : Z) (rooms : value) : result value :=
  if truthy rooms then
    items <- py_iter rooms ;;
    sums <- mapM (fun r => a <- py_getitem r pos ;; b <- py_getitem r ext ;; py_add a b) items ;;
    py_max sums
  else Ok (VInt default).

(** The seven parts that open the drawing. *)
Definition svg_head (svg_width svg_height : string) : list string :=
  [ q "<svg width='" ++ svg_width ++ q "' height='" ++ svg_height
      ++ q "' xmlns='http://www.w3.org/2000/svg'>";
    "<defs>";
    q "<pattern id='grid' width='40' height='40' patternUnits='userSpaceOnUse'>";
    q "<path d='M 40 0 L 0 0 0 40' fill='none' stroke='#e0e0e0' stroke-width='0.5'/>";
    "</pattern>";
    "</defs>";
    q "<rect width='" ++ svg_width ++ q "' height='" ++ svg_height
      ++ q "' fill='url(#grid)'/>" ].

(** The rectangle of a room. *)
Definition rect_element (x y width height color : string) : string :=
  q "<rect x='" ++ x ++ q "' y='" ++ y ++ q "' width='" ++ width
    ++ q "' height='" ++ height ++ q "' "
    ++ q "fill='" ++ color ++ q "' stroke='#424242' stroke-width='2' rx='2'/>".

(** The label that carries the name of a room. *)
Definition name_element (text_x text_y name : string) : string :=
  q "<text x='" ++ text_x ++ q "' y='" ++ text_y ++ q "' text-anchor='middle' "
    ++ q "font-family='Arial' font-size='12' font-weight='bold' fill='#212121'>"
    ++ name ++ "</text>".

(** The label that carries the area of a room. *)
Definition area_element (text_x text_y area : string) : string :=
  q "<text x='" ++ text_x ++ q "' y='" ++ text_y ++ q "' text-anchor='middle' "
    ++ q "font-family='Arial' font-size='10' fill='#616161'>"
    ++ area ++ " m²</text>".

(** One turn of the loop over [enumerate(rooms)]: the three parts the
    room at index [idx] appends. *)
Definition room_parts (idx : nat) (room : value) : result (list string) :=
  rx <- py_getitem room "x" ;; sx <- py_mul rx (VInt scale) ;; x <- py_add sx (VInt 50) ;;
  ry <- py_getitem room "y" ;; sy <- py_mul ry (VInt scale) ;; y <- py_add sy (VInt 50) ;;
  rw <- py_getitem room "width" ;; width <- py_mul rw (VInt scale) ;;
  rh <- py_getitem room "height" ;; height <- py_mul rh (VInt scale) ;;
  let color := color_of idx in
  x_s <- py_str x ;; y_s <- py_str y ;;
  width_s <- py_str width ;; height_s <- py_str height ;;
  let rect := rect_element x_s y_s width_s height_s color in
  half_w <- py_truediv width (VInt 2) ;; text_x <- py_add x half_w ;;
  half_h <- py_truediv height (VInt 2) ;; text_y <- py_add y half_h ;;
  tx_s <- py_str text_x ;; ty_s <- py_str text_y ;;
  name <- py_getitem room "name" ;; name_s <- py_str name ;;
  let label := name_element tx_s ty_s name_s in
  below <- py_add text_y (VInt 15) ;; below_s <- py_str below ;;
  area <- py_get room "area" (VInt 0) ;; area_s <- py_format_1f area ;;
  Ok [rect; label; area_element tx_s below_s area_s].

(** The loop over [enumerate(rooms)], from index [idx] on. *)
Fixpoint rooms_parts (idx : nat) (rooms : list value) : result (list string) :=
  match rooms with
  | [] => Ok []
  | room :: rest =>
      ps <- room_parts idx room ;;
      qs <- rooms_parts (S idx) rest ;;
      Ok (ps ++ qs)%list
  end.

(** The list [svg_parts] as it stands when it is joined. *)
Definition svg_parts (layout : value) : result (list string) :=
  rooms <- py_get layout "rooms" (VList []) ;;
  max_x <- canvas_bound "x" "width" 20 rooms ;;
  max_y <- canvas_bound "y" "height" 15 rooms ;;
  sw <- py_mul max_x (VInt scale) ;; svg_width <- py_add sw (VInt 100) ;;
  sh <- py_mul max_y (VInt scale) ;; svg_height <- py_add sh (VInt 100) ;;
  w_s <- py_str svg_width ;; h_s <- py_str svg_height ;;
  items <- py_iter rooms ;;
  body <- rooms_parts 0 items ;;
  Ok (svg_head w_s h_s ++ body ++ ["</svg>"])%list.

Definition generate_svg_from_layout (layout : value) : result string :=
  parts <- svg_parts layout ;;
  Ok (join parts).

(* ================================================================== *)
(** * The evaluator: [check_compliance] *)
(* ================================================================== *)

(** [project.floorPlans[project.selectedPlanIndex] if project.floorPlans
    else None]. *)
Definition selected_plan (project : Project.t) : result (option FloorPlanData.t) :=
  match Project.floorPlans project with
  | [] => Ok None
  | plans => plan <- list_getitem plans (Project.selectedPlanIndex project) ;; Ok (Some plan)
  end.

(** [x or default] on an optional string: [None] and the empty string
    give way to the default. *)
Definition str_or (x : option string) (default : string) : string :=
  match x with
  | Some s => if (s =? EmptyString)%string then default else s
  | None => default
  end.

(** The body of the loop over [plan.rooms]: the finding of one room. *)
Definition room_check (room : dict) : result ComplianceCheck.t :=
  name <- dict_getitem room "name" ;;
  lowered <- py_lower name ;;
  small_bedroom <-
    (if contains "bedroom" lowered
     then area <- dict_getitem room "area" ;; py_lt area (VInt 9)
     else Ok false) ;;
  name_s <- py_str name ;;
  area <- dict_getitem room "area" ;;
  area_s <- py_format_1f area ;;
  if small_bedroom then
    Ok {| ComplianceCheck.category := "regulatory";
          ComplianceCheck.rule := "Minimum Bedroom Size";
          ComplianceCheck.status := "failed";
          ComplianceCheck.message :=
            name_s ++ " is " ++ area_s ++ "m² (minimum 9m² required)";
          ComplianceCheck.suggestion :=
            Some "Increase bedroom dimensions to meet code requirements" |}
  else
    Ok {| ComplianceCheck.category := "regulatory";
          ComplianceCheck.rule := "Minimum Room Size";
          ComplianceCheck.status := "passed";
          ComplianceCheck.message :=
            name_s ++ " meets size requirements (" ++ area_s ++ "m²)";
          ComplianceCheck.suggestion := None |}.

(** The fixed finding on setbacks. *)
Definition setback_check (municipal_code : string) : ComplianceCheck.t :=
  {| ComplianceCheck.category := "regulatory";
     ComplianceCheck.rule := "Building Setbacks";
     ComplianceCheck.status := "passed";
     ComplianceCheck.message :=
       "Setbacks comply with " ++ municipal_code ++ " regulations";
     ComplianceCheck.suggestion := None |}.

(** [[r for r in plan.rooms if 'kitchen' in r['name'].lower()]]. *)
Fixpoint kitchen_rooms (rooms : list dict) : result (list dict) :=
  match rooms with
  | [] => Ok []
  | r :: rest =>
      name <- dict_getitem r "name" ;;
      lowered <- py_lower name ;;
      ks <- kitchen_rooms rest ;;
      Ok (if contains "kitchen" lowered then r :: ks else ks)
  end.

(** The findings of the cultural category. *)
Definition cultural_checks (config : ProjectConfig.t) (plan : FloorPlanData.t)
  : result (list ComplianceCheck.t) :=
  match ProjectConfig.culturalParams config with
  | None => Ok []
  | Some params =>
      match CulturalParameters.type params with
      | None => Ok []
      | Some cultural_type =>
          if (cultural_type =? EmptyString)%string then Ok []
          else if contains "vastu" (lower cultural_type) then
            ks <- kitchen_rooms (FloorPlanData.rooms plan) ;;
            let kitchen :=
              match ks with
              | [] => []
              | _ =>
                  [ {| ComplianceCheck.category := "cultural";
                       ComplianceCheck.rule := "Kitchen Placement (Vastu)";
                       ComplianceCheck.status := "passed";
                       ComplianceCheck.message :=
                         "Kitchen positioned in South-East quadrant (Agni corner)";
                       ComplianceCheck.suggestion := None |} ]
              end in
            Ok (kitchen ++
                [ {| ComplianceCheck.category := "cultural";
                     ComplianceCheck.rule := "Main Entrance (Vastu)";
                     ComplianceCheck.status := "passed";
                     ComplianceCheck.message :=
                       "Entrance facing North-East for prosperity";
                     ComplianceCheck.suggestion := None |} ])%list
          else Ok []
      end
  end.

(** The finding of the accessibility category. *)
Definition doorway_width : float := 0.9%float.

Definition accessibility_check : ComplianceCheck.t :=
  if (0.85 <=? doorway_width)%float then
    {| ComplianceCheck.category := "accessibility";
       ComplianceCheck.rule := "Doorway Width (ADA)";
       ComplianceCheck.status := "passed";
       ComplianceCheck.message :=
         "All doorways are " ++ float_repr doorway_width ++ "m wide (minimum 0.85m)";
       ComplianceCheck.suggestion := None |}
  else
    {| ComplianceCheck.category := "accessibility";
       ComplianceCheck.rule := "Doorway Width (ADA)";
       ComplianceCheck.status := "warning";
       ComplianceCheck.message :=
         "Some doorways are " ++ float_repr doorway_width ++ "m (0.85m recommended)";
       ComplianceCheck.suggestion :=
         Some "Consider widening doorways for accessibility" |}.

Definition check_compliance (project : Project.t) : result (list ComplianceCheck.t) :=
  let config := Project.config project in
  plan <- selected_plan project ;;
  match plan with
  | None => Ok []
  | Some plan =>
      let municipal_code := str_or (ProjectConfig.municipalCode config) "General" in
      room_findings <- mapM room_check (FloorPlanData.rooms plan) ;;
      cultural <- cultural_checks config plan ;;
      Ok (room_findings ++ [setback_check municipal_code]
            ++ cultural ++ [accessibility_check])%list
  end.

(* ================================================================== *)
(** * The estimator: [estimate_materials] *)
(* ================================================================== *)

Definition material (name : string) (quantity : float) (unit : string) (cost : float)
  : MaterialItem.t :=
  {| MaterialItem.name := name;
     MaterialItem.quantity := quantity;
     MaterialItem.unit := unit;
     MaterialItem.estimatedCost := Some cost |}.

(** The eight lines, from the total area and the number of rooms. *)
Definition material_lines (total_area : float) (num_rooms : Z) : list MaterialItem.t :=
  let concrete_volume := (total_area * 0.15)%float in
  let wall_area := num_rooms * 10 * 3 in
  let bricks_needed := wall_area * 50 in
  let steel_weight := (total_area * 8)%float in
  let cement_bags := (total_area * 0.4)%float in
  let paintable_area := (total_area * 3)%float in
  [ material "Ready-Mix Concrete (M25)" concrete_volume "m³"
      (concrete_volume * 5500)%float;
    material "Clay Bricks (Standard)" (to_float bricks_needed) "units"
      (to_float (bricks_needed * 8));
    material "TMT Steel Bars (Fe500)" steel_weight "kg"
      (steel_weight * 65)%float;
    material "Cement (OPC 53 Grade)" cement_bags "bags"
      (cement_bags * 450)%float;
    material "Ceramic Floor Tiles (600x600mm)" total_area "m²"
      (total_area * 450)%float;
    material "Interior Emulsion Paint" (paintable_area / 12)%float "liters"
      ((paintable_area / 12) * 350)%float;
    material "Wooden Doors with Frame" (to_float (num_rooms + 2)) "units"
      (to_float ((num_rooms + 2) * 15000));
    material "UPVC Windows with Glass" (to_float (num_rooms * 2)) "units"
      (to_float ((num_rooms * 2) * 8000)) ].

Definition estimate_materials (project : Project.t) : result (list MaterialItem.t) :=
  match Project.floorPlans project with
  | [] => Ok []
  | plans =>
      plan <- list_getitem plans (Project.selectedPlanIndex project) ;;
      let total_area := FloorPlanData.totalArea plan in
      let num_rooms := Z.of_nat (List.length (FloorPlanData.rooms plan)) in
      Ok (material_lines total_area num_rooms)
  end.

(* ================================================================== *)
(** * The generation client: [generate_floor_plan_ai] *)
(* ================================================================== *)

(** ** The prompt *)

(** [json.dumps] of a string, with the default [ensure_ascii]. *)
Definition code_point (ch : string) : Z :=
  match map (fun c => Z.of_N (N_of_ascii c)) (list_ascii_of_string ch) with
  | [a] => a
  | [a; b] => (a - 192) * 64 + (b - 128)
  | [a; b; c] => (a - 224) * 4096 + (b - 128) * 64 + (c - 128)
  | [a; b; c; d] => (a - 240) * 262144 + (b - 128) * 4096 + (c - 128) * 64 + (d - 128)
  | _ => 65533
  end.

Definition hex_digit (n : Z) : string :=
  String (Json.chr (if n <? 10 then 48 + n else 87 + n)) EmptyString.

Definition u_escape (n : Z) : string :=
  "\u" ++ hex_digit (n / 4096) ++ hex_digit ((n / 256) mod 16)
       ++ hex_digit ((n / 16) mod 16) ++ hex_digit (n mod 16).

Definition escape_char (ch : string) : string :=
  let cp := code_point ch in
  if cp =? 34 then q "\'"
  else if cp =? 92 then "\\"
  else if cp =? 10 then "\n"
  else if cp =? 13 then "\r"
  else if cp =? 9 then "\t"
  else if cp =? 8 then "\b"
  else if cp =? 12 then "\f"
  else if (32 <=? cp) && (cp <=? 126) then ch
  else if cp <? 65536 then u_escape cp
  else u_escape (55296 + (cp - 65536) / 1024) ++ u_escape (56320 + (cp - 65536) mod 1024).

Definition dumps_str (s : string) : string :=
  q "'" ++ join (map escape_char (chars s)) ++ q "'".

(** [json.dumps] of a float. *)
Definition dumps_float (f : float) : string :=
  if is_nan f then "NaN"
  else if (f =? infinity)%float then "Infinity"
  else if (f =? neg_infinity)%float then "-Infinity"
  else float_repr f.

(** [json.dumps({'name': r.name, 'qty': r.quantity, 'minArea': r.minArea})]. *)
Definition dumps_requirement (r : RoomRequirement.t) : string :=
  q "{'name': " ++ dumps_str (RoomRequirement.name r)
    ++ q ", 'qty': " ++ decimal (RoomRequirement.quantity r)
    ++ q ", 'minArea': "
    ++ match RoomRequirement.minArea r with
       | Some a => dumps_float a
       | None => "null"
       end
    ++ "}".

Fixpoint join_with (sep : string) (parts : list string) : string :=
  match parts with
  | [] => EmptyString
  | [p] => p
  | p :: ps => p ++ sep ++ join_with sep ps
  end.

Definition dumps_requirements (rs : list RoomRequirement.t) : string :=
  "[" ++ join_with ", " (map dumps_requirement rs) ++ "]".

(** [str(x)] for an optional float. *)
Definition str_opt_float (x : option float) : string :=
  match x with
  | Some f => float_repr f
  | None => "None"
  end.

Definition build_prompt (config : ProjectConfig.t) : string :=
  let site := ProjectConfig.siteConstraints config in
  "
You are an expert architectural AI. Generate 3 different floor plan layouts based on these requirements:

Project Type: " ++ ProjectConfig.projectType config ++ "
Site Dimensions: " ++ str_opt_float (SiteConstraints.width site) ++ "m x "
    ++ str_opt_float (SiteConstraints.length site) ++ "m
Required Rooms: " ++ dumps_requirements (ProjectConfig.requiredSpaces config) ++ "
Cultural Preferences: "
    ++ match ProjectConfig.culturalParams config with
       | Some params =>
           match CulturalParameters.type params with
           | Some t => t
           | None => "None"
           end
       | None => "None"
       end ++ "
Municipal Code: " ++ str_or (ProjectConfig.municipalCode config) "General" ++ q "

For each layout, provide:
1. Room positions (x, y, width, height in meters)
2. Room names and areas
3. Total built-up area
4. Brief description

Return ONLY valid JSON in this exact format:
{
  'layouts': [
    {
      'name': 'Layout Name',
      'description': 'Brief description',
      'totalArea': 150.5,
      'rooms': [
        {'name': 'Living Room', 'x': 0, 'y': 0, 'width': 5, 'height': 6, 'area': 30}
      ]
    }
  ]
}

Consider:
- Vastu/Cultural compliance if specified
- Proper room adjacencies
- Natural light and ventilation
- Building code setbacks
".

(** ** Cleaning and decoding the text of a response *)

Definition fence : string := "```".
Definition json_fence : string := "```json".

(** The lines under [# Clean markdown code blocks if present]. *)
Definition clean_markdown (result_text : string) : result string :=
  if contains json_fence result_text then
    tail <- list_index (split json_fence result_text) 1 ;;
    inner <- list_index (split fence tail) 0 ;;
    Ok (strip inner)
  else if contains fence result_text then
    tail <- list_index (split fence result_text) 1 ;;
    inner <- list_index (split fence tail) 0 ;;
    Ok (strip inner)
  else Ok result_text.

(** Cleaning, then [json.loads]. *)
Definition parse_response (result_text : string) : result value :=
  cleaned <- clean_markdown result_text ;;
  Json.loads cleaned.

(** ** Providers and outbound calls *)

(** The two providers, as the pipeline sees them: what a request yields,
    the text of the response or the exception of the call.  The text of
    an OpenAI message can be absent.  Each provider is called at most
    once in a run, so a function of the request is enough.  The logging
    of the pipeline has no bearing on what it returns and is left out;
    so is the cancellation of the running task, which is no [Exception]
    and is not caught. *)
Record Providers : Type := {
  gemini_generate_content : string -> string -> result string;
  openai_chat_completions_create :
    string -> list (string * string) -> float -> result (option string)
}.

(** An outbound call, as recorded. *)
Inductive call : Type :=
| GeminiCall (model prompt : string)
| OpenAICall (model : string) (messages : list (string * string)) (temperature : float).

(** A computation that makes outbound calls and can raise: it takes the
    calls made so far and returns them extended, with its outcome. *)
Definition IO (A : Type) : Type := list call -> result A * list call.

Definition io_ret {A : Type} (a : A) : IO A := fun calls => (Ok a, calls).

Definition io_bind {A B : Type} (m : IO A) (k : A -> IO B) : IO B :=
  fun calls =>
    match m calls with
    | (Ok a, calls') => k a calls'
    | (Raise e, calls') => (Raise e, calls')
    end.

Definition io_lift {A : Type} (r : result A) : IO A := fun calls => (r, calls).

Definition io_raise {A : Type} (e : exn) : IO A := io_lift (Raise e).

(** [try: body except Exception as e: handler(e)]. *)
Definition try_except {A : Type} (body : IO A) (handler : exn -> IO A) : IO A :=
  fun calls =>
    match body calls with
    | (Ok a, calls') => (Ok a, calls')
    | (Raise e, calls') => handler e calls'
    end.

Declare Scope io_scope.
Delimit Scope io_scope with io.
Notation "x <- m ;; k" := (io_bind m (fun x => k))
  (at level 61, m at next level, right associativity) : io_scope.

Definition call_gemini (P : Providers) (model prompt : string) : IO string :=
  fun calls =>
    (gemini_generate_content P model prompt, (calls ++ [GeminiCall model prompt])%list).

Definition call_openai (P : Providers) (model : string)
    (messages : list (string * string)) (temperature : float) : IO (option string) :=
  fun calls =>
    (openai_chat_completions_create P model messages temperature,
     (calls ++ [OpenAICall model messages temperature])%list).

Definition openai_messages (prompt : string) : list (string * string) :=
  [ ("system", "You are an expert architectural AI. Always respond with valid JSON only.");
    ("user", prompt) ].

(** The body of the outer [try]: the call to Gemini and the decoding of
    its text. *)
Definition gemini_attempt (P : Providers) (prompt : string) : IO value :=
  (result_text <- call_gemini P "gemini-2.5-pro" prompt ;;
   io_lift (parse_response result_text))%io.

(** The body of the inner [try]: the call to OpenAI and the decoding of
    its text.  An absent text fails the test [in] with a [TypeError]. *)
Definition openai_attempt (P : Providers) (prompt : string) : IO value :=
  (content <- call_openai P "gpt-4o" (openai_messages prompt) 0.7%float ;;
   match content with
   | Some result_text => io_lift (parse_response result_text)
   | None => io_raise TypeError
   end)%io.

(** ** From the decoded object to [FloorPlanData] *)

(** The validation of the field [rooms : List[Dict[str, Any]]]. *)
Definition validate_rooms (v : value) : result (list dict) :=
  match v with
  | VList xs =>
      mapM (fun x => match x with VDict d => Ok d | _ => Raise ValidationError end) xs
  | _ => Raise ValidationError
  end.

(** The validation of the field [totalArea : float].  A float is kept and
    an int converted; the conversions the validator tries on a string or
    a bool are not modelled. *)
Definition validate_float (v : value) : result float :=
  match v with
  | VFloat f => Ok f
  | VInt z =>
      match float_of_int z with
      | Ok f => Ok f
      | Raise _ => Raise (NotModelled "validation of an int beyond the floats")
      end
  | VStr _ | VBool _ => Raise (NotModelled "validation of a str or bool as float")
  | VNone | VList _ | VDict _ => Raise ValidationError
  end.

(** [x or default] on an optional float: [None] and zero give way to the
    default. *)
Definition float_or (x : option float) (default : float) : float :=
  match x with
  | Some f => if (f =? 0)%float then default else f
  | None => default
  end.

(** One turn of the loop [for layout in result.get('layouts', [])]. *)
Definition floor_plan_of_layout (config : ProjectConfig.t) (layout : value)
  : result FloorPlanData.t :=
  svg_content <- generate_svg_from_layout layout ;;
  rooms <- py_getitem layout "rooms" ;;
  total_area <- py_getitem layout "totalArea" ;;
  let site := ProjectConfig.siteConstraints config in
  rooms' <- validate_rooms rooms ;;
  total_area' <- validate_float total_area ;;
  Ok {| FloorPlanData.svgContent := svg_content;
        FloorPlanData.rooms := rooms';
        FloorPlanData.totalArea := total_area';
        FloorPlanData.dimensions :=
          [ ("width", float_or (SiteConstraints.width site) 20%float);
            ("length", float_or (SiteConstraints.length site) 15%float) ] |}.

(** The lines under [# Convert to FloorPlanData]. *)
Definition convert_layouts (config : ProjectConfig.t) (decoded : value)
  : result (list FloorPlanData.t) :=
  layouts <- py_get decoded "layouts" (VList []) ;;
  items <- py_iter layouts ;;
  mapM (floor_plan_of_layout config) items.

(** The two nested [try] statements: Gemini first, OpenAI when Gemini
    fails, the fixed [HTTPException] when OpenAI fails too. *)
Definition decode_with_fallback (P : Providers) (prompt : string) : IO value :=
  try_except (gemini_attempt P prompt)
    (fun e =>
       try_except (openai_attempt P prompt)
         (fun e2 => io_raise (HTTPException 500 "AI generation failed"))).

Definition generate_floor_plan_ai (P : Providers) (config : ProjectConfig.t)
  : IO (list FloorPlanData.t) :=
  let prompt := build_prompt config in
  (result <- decode_with_fallback P prompt ;;
   io_lift (convert_layouts config result))%io.

(* ================================================================== *)
(** * Sample data *)
(* ================================================================== *)

Definition site_unset : SiteConstraints.t :=
  {| SiteConstraints.width := None;
     SiteConstraints.length := None;
     SiteConstraints.dimensions := None;
     SiteConstraints.fileName := None |}.

(** A configuration with no cultural parameters and no municipal code. *)
Definition plain_config : ProjectConfig.t :=
  {| ProjectConfig.projectType := "residential";
     ProjectConfig.siteConstraints := site_unset;
     ProjectConfig.requiredSpaces := [];
     ProjectConfig.adjacencyRules := Some [];
     ProjectConfig.orientation := Some [];
     ProjectConfig.culturalParams := None;
     ProjectConfig.municipalCode := None |}.

Definition project_with (config : ProjectConfig.t) (plans : list FloorPlanData.t)
    (index : Z) : Project.t :=
  {| Project.id := "p-1";
     Project.name := "House";
     Project.config := config;
     Project.floorPlans := plans;
     Project.selectedPlanIndex := index;
     Project.complianceChecks := [];
     Project.materials := [];
     Project.createdAt := "2025-01-01T00:00:00+00:00";
     Project.updatedAt := "2025-01-01T00:00:00+00:00" |}.

Definition plan_with (rooms : list dict) (total_area : float) : FloorPlanData.t :=
  {| FloorPlanData.svgContent := "<svg/>";
     FloorPlanData.rooms := rooms;
     FloorPlanData.totalArea := total_area;
     FloorPlanData.dimensions := [("width", 20%float); ("length", 15%float)] |}.

Definition bedroom_1 : dict := [("name", VStr "Bedroom 1"); ("area", VInt 8)].
Definition living_room : dict := [("name", VStr "Living Room"); ("area", VInt 20)].

(** The project of the compliance example: the two rooms, nothing else. *)
Definition two_rooms_project : Project.t :=
  project_with plain_config [plan_with [bedroom_1; living_room] 28%float] 0.

(** The findings [check_compliance] returns on the two rooms. *)
Definition bedroom_1_finding : ComplianceCheck.t :=
  {| ComplianceCheck.category := "regulatory";
     ComplianceCheck.rule := "Minimum Bedroom Size";
     ComplianceCheck.status := "failed";
     ComplianceCheck.message := "Bedroom 1 is 8.0m² (minimum 9m² required)";
     ComplianceCheck.suggestion :=
       Some "Increase bedroom dimensions to meet code requirements" |}.

Definition living_room_finding : ComplianceCheck.t :=
  {| ComplianceCheck.category := "regulatory";
     ComplianceCheck.rule := "Minimum Room Size";
     ComplianceCheck.status := "passed";
     ComplianceCheck.message := "Living Room meets size requirements (20.0m²)";
     ComplianceCheck.suggestion := None |}.

Definition setbacks_finding (municipal_code : string) : ComplianceCheck.t :=
  {| ComplianceCheck.category := "regulatory";
     ComplianceCheck.rule := "Building Setbacks";
     ComplianceCheck.status := "passed";
     ComplianceCheck.message :=
       "Setbacks comply with " ++ municipal_code ++ " regulations";
     ComplianceCheck.suggestion := None |}.

Definition doorway_finding : ComplianceCheck.t :=
  {| ComplianceCheck.category := "accessibility";
     ComplianceCheck.rule := "Doorway Width (ADA)";
     ComplianceCheck.status := "passed";
     ComplianceCheck.message := "All doorways are 0.9m wide (minimum 0.85m)";
     ComplianceCheck.suggestion := None |}.

Definition two_rooms_findings (municipal_code : string) : list ComplianceCheck.t :=
  [ bedroom_1_finding; living_room_finding;
    setbacks_finding municipal_code; doorway_finding ].

(** The bill of quantities of a layout of 100 m² with four rooms. *)
Definition materials_100_4 : list MaterialItem.t :=
  [ material "Ready-Mix Concrete (M25)" 15%float "m³" 82500%float;
    material "Clay Bricks (Standard)" 6000%float "units" 48000%float;
    material "TMT Steel Bars (Fe500)" 800%float "kg" 52000%float;
    material "Cement (OPC 53 Grade)" 40%float "bags" 18000%float;
    material "Ceramic Floor Tiles (600x600mm)" 100%float "m²" 45000%float;
    material "Interior Emulsion Paint" 25%float "liters" 8750%float;
    material "Wooden Doors with Frame" 6%float "units" 90000%float;
    material "UPVC Windows with Glass" 8%float "units" 64000%float ].

Definition room_named (name : string) : dict := [("name", VStr name)].

(** Two projects that share the total area and the number of rooms of
    the selected layout, and little else. *)
Definition four_rooms_project : Project.t :=
  project_with plain_config
    [ plan_with [room_named "A"; room_named "B"; room_named "C"; room_named "D"]
        100%float ] 0.

Definition other_four_rooms_project : Project.t :=
  {| Project.id := "p-2";
     Project.name := "Office";
     Project.config := plain_config;
     Project.floorPlans :=
       [ plan_with [] 7%float;
         {| FloorPlanData.svgContent := "<svg></svg>";
            FloorPlanData.rooms := [bedroom_1; living_room; bedroom_1; []];
            FloorPlanData.totalArea := 100%float;
            FloorPlanData.dimensions := [] |} ];
     Project.selectedPlanIndex := -1;
     Project.complianceChecks := two_rooms_findings "General";
     Project.materials := [];
     Project.createdAt := "2024-06-01T00:00:00+00:00";
     Project.updatedAt := "2024-06-02T00:00:00+00:00" |}.

(** ** What the two attempts yield, apart from the record of calls *)

(** The outcome of the body of the outer [try]. *)
Definition gemini_outcome (P : Providers) (prompt : string) : result value :=
  result_text <- gemini_generate_content P "gemini-2.5-pro" prompt ;;
  parse_response result_text.


(** An attempt fails when its call raises or when the text it returns
    cannot be cleaned and decoded. *)
Definition failed {A : Type} (r : result A) : Prop := exists e, r = Raise e.

(** ** Fenced texts *)

Definition newline : string := String (ascii_of_N 10) EmptyString.

(** A payload between a [```json] line and a [```] line, and between
    two [```] lines. *)
Definition fenced_json (payload : string) : string :=
  json_fence ++ newline ++ payload ++ newline ++ fence.

Definition fenced_bare (payload : string) : string :=
  fence ++ newline ++ payload ++ newline ++ fence.

(** Providers for the examples.  The primary provider of the first two
    is down; their secondary provider answers with prose, and with an
    object that has no layouts. *)
Definition provider_down : Providers :=
  {| gemini_generate_content := fun _ _ => Raise (ProviderError "503 unavailable");
     openai_chat_completions_create := fun _ _ _ => Ok (Some "Sorry, I cannot help.") |}.


(** A provider that is up and answers with a fenced object holding one
    layout of one room. *)
Definition one_layout_answer : string :=
  fenced_json
    (q "{'layouts': [{'name': 'Studio', 'description': 'One room', 'totalArea': 30,
     'rooms': [{'name': 'Living Room', 'x': 0, 'y': 0, 'width': 5, 'height': 6, 'area': 30}]}]}").

Definition provider_up : Providers :=
  {| gemini_generate_content := fun _ _ => Ok ("Here you are:" ++ one_layout_answer);
     openai_chat_completions_create := fun _ _ _ => Ok None |}.

(** [absent c w]: the character [c] does not occur in [w]. *)
Fixpoint absent (c : ascii) (w : string) : bool :=
  match w with
  | EmptyString => true
  | String a w' => negb (Ascii.eqb a c) && absent c w'
  end.

(** [no_match_before sep a rest]: in [a ++ rest], no occurrence of [sep]
    starts within [a]. *)
Fixpoint no_match_before (sep a rest : string) : bool :=
  match a with
  | EmptyString => true
  | String _ a' => negb (startswith sep (a ++ rest)) && no_match_before sep a' rest
  end.

(** A JSON text with a fence inside a string, and a JSON text behind a
    form feed. *)
Definition payload_with_fence : string := q "{'layouts': [], 'note': '```1```'}".

Definition payload_with_form_feed : string := String (ascii_of_N 12) "{}".

(** ** The canvas, as the drawing declares it *)

(** The opening tag of a drawing of the given width and height. *)
Definition canvas_tag (width height : string) : string :=
  q "<svg width='" ++ width ++ q "' height='" ++ height
    ++ q "' xmlns='http://www.w3.org/2000/svg'>".

(** [[r[pos] + r[ext] for r in rooms]]. *)
Definition room_sums (pos ext : string) (rooms : list value) : result (list value) :=
  mapM (fun r => a <- py_getitem r pos ;; b <- py_getitem r ext ;; py_add a b) rooms.

(** [m * 40 + 100]. *)
Definition scaled (m : value) : result value :=
  s <- py_mul m (VInt 40) ;; py_add s (VInt 100).

(** The greatest of a non-empty list of integers. *)
Fixpoint greatest (z : Z) (zs : list Z) : Z :=
  match zs with
  | [] => z
  | z' :: zs' => greatest (Z.max z z') zs'
  end.

(** A layout of two rooms, and the same layout with the keys of its
    dicts in another order. *)
Definition room_dict (name : string) (x y width height area : Z) : dict :=
  [ ("name", VStr name); ("x", VInt x); ("y", VInt y);
    ("width", VInt width); ("height", VInt height); ("area", VInt area) ].

Definition sample_layout : value :=
  VDict [ ("name", VStr "Compact");
          ("description", VStr "Two rooms side by side");
          ("totalArea", VFloat 42%float);
          ("rooms", VList [ VDict (room_dict "Living Room" 0 0 5 6 30);
                            VDict (room_dict "Bedroom 1" 5 0 4 3 12) ]) ].

Definition sample_layout_reordered : value :=
  VDict [ ("rooms", VList [ VDict (rev (room_dict "Living Room" 0 0 5 6 30));
                            VDict (room_dict "Bedroom 1" 5 0 4 3 12) ]);
          ("totalArea", VFloat 42%float);
          ("description", VStr "Two rooms side by side");
          ("name", VStr "Compact") ].

Definition empty_layout : value :=
  VDict [ ("name", VStr "Empty"); ("totalArea", VInt 0); ("rooms", VList []) ].

(** The parts of the drawing of [sample_layout]. *)
Definition sample_parts : list string :=
  Eval vm_compute in
    match svg_parts sample_layout with
    | Ok parts => parts
    | Raise _ => []
    end.

(** ** The same layout *)

(** Two dicts hold the same fields when every key finds the same value in
    both, in whatever order they were built. *)
Definition same_dict (d1 d2 : dict) : Prop :=
  forall k : string, dict_lookup k d1 = dict_lookup k d2.

Inductive same_room : value -> value -> Prop :=
| same_room_fields :
    forall d1 d2 : dict, same_dict d1 d2 -> same_room (VDict d1) (VDict d2)
| same_room_value :
    forall v : value, same_room v v.

(** Two layouts are the same when they are one value, or dicts with the
    same fields whose rooms, in order, are the same rooms. *)
Inductive same_layout : value -> value -> Prop :=
| same_layout_value :
    forall v : value, same_layout v v
| same_layout_fields :
    forall (d1 d2 : dict) (rooms1 rooms2 : list value),
      (forall k : string, k <> "rooms" -> dict_lookup k d1 = dict_lookup k d2) ->
      dict_lookup "rooms" d1 = Some (VList rooms1) ->
      dict_lookup "rooms" d2 = Some (VList rooms2) ->
      Forall2 same_room rooms1 rooms2 ->
      same_layout (VDict d1) (VDict d2).

(* ================================================================== *)
(** * The boundary import: [parse_dxf_file] *)
(* ================================================================== *)

(** What the function reads of a drawing: of every entity of the model
    space its type tag and, when the tag is [LINE], the x and the y of
    its two end points.  The library that reads the file is outside the
    pipeline: what it yields for a content, the entities in the order of
    the model space or the exception it raises, is given, and so is the
    text [str(e)] of an exception. *)
Module Vec3.
Record t : Type := {
  x : float;
  y : float
}.
End Vec3.

Module Entity.
Record t : Type := {
  dxftype : string;
  start : Vec3.t;
  end_ : Vec3.t
}.
End Entity.

Record Ezdxf : Type := {
  readfile_modelspace : string -> result (list Entity.t);
  str_of_exception : exn -> string
}.

(** [min(m, a, b)] and [max(m, a, b)] on floats: an item takes the place
    of the running value when it is less (greater) than it. *)
Definition float_min3 (m a b : float) : float :=
  let m1 := if (a <? m)%float then a else m in
  if (b <? m1)%float then b else m1.

Definition float_max3 (m a b : float) : float :=
  let m1 := if (m <? a)%float then a else m in
  if (m1 <? b)%float then b else m1.

(** The four running bounds of the loop over the model space. *)
Record extent : Type := {
  min_x : float;
  min_y : float;
  max_x : float;
  max_y : float
}.

Definition no_extent : extent :=
  {| min_x := infinity; min_y := infinity;
     max_x := neg_infinity; max_y := neg_infinity |}.

(** One turn of the loop [for entity in msp]. *)
Definition extend (b : extent) (entity : Entity.t) : extent :=
  if (Entity.dxftype entity =? "LINE")%string then
    let start := Entity.start entity in
    let end_ := Entity.end_ entity in
    {| min_x := float_min3 (min_x b) (Vec3.x start) (Vec3.x end_);
       max_x := float_max3 (max_x b) (Vec3.x start) (Vec3.x end_);
       min_y := float_min3 (min_y b) (Vec3.y start) (Vec3.y end_);
       max_y := float_max3 (max_y b) (Vec3.y start) (Vec3.y end_) |}
  else b.

(** The dict returned for the bounds the loop ends with. *)
Definition parsed_extent (b : extent) : dict :=
  let width := (max_x b - min_x b)%float in
  let length := (max_y b - min_y b)%float in
  [ ("width", VFloat width);
    ("length", VFloat length);
    ("area", VFloat (width * length)%float);
    ("parsed", VBool true) ].

Definition parse_dxf_file (E : Ezdxf) (file_content : string) : dict :=
  match readfile_modelspace E file_content with
  | Ok msp => parsed_extent (fold_left extend msp no_extent)
  | Raise e => [ ("parsed", VBool false); ("error", VStr (str_of_exception E e)) ]
  end.

(* ================================================================== *)
(** * The routes *)
(* ================================================================== *)

(** ** The record store and the effects of a route *)

(** The record store, as the routes see it: what [find_one] yields for an
    id, no document ([None]), a document, or the exception of the call;
    and what [update_one] yields for an id and a [$set] document.  Each
    route looks a project up at most once, so a function of the request
    is enough.  [project_of_document] stands for the lines that turn a
    document into a [Project]: the two timestamps read back from their
    ISO text, then the validation of the document as a [Project], with
    the exception they raise on a document that does not fit. *)
Record Store : Type := {
  store_find_one : string -> result (option dict);
  store_update_one : string -> dict -> result unit;
  project_of_document : dict -> result Project.t
}.

(** What a route does to the outside, as recorded: the operations on the
    record store, the outbound calls to the providers, the reading of a
    drawing. *)
Inductive event : Type :=
| FindOne (project_id : string)
| UpdateOne (project_id : string) (set : dict)
| Outbound (c : call)
| ReadDxf (file_content : string).

(** A route: it takes the events so far and returns them extended, with
    its outcome; an exception that leaves the route is what the framework
    turns into the HTTP error. *)
Definition Route (A : Type) : Type := list event -> result A * list event.

Definition route_ret {A : Type} (a : A) : Route A := fun log => (Ok a, log).

Definition route_bind {A B : Type} (m : Route A) (k : A -> Route B) : Route B :=
  fun log =>
    match m log with
    | (Ok a, log') => k a log'
    | (Raise e, log') => (Raise e, log')
    end.

Definition route_lift {A : Type} (r : result A) : Route A := fun log => (r, log).

Definition route_raise {A : Type} (e : exn) : Route A := route_lift (Raise e).

Declare Scope route_scope.
Delimit Scope route_scope with route.
Notation "x <- m ;; k" := (route_bind m (fun x => k))
  (at level 61, m at next level, right associativity) : route_scope.

Definition find_one (S : Store) (project_id : string) : Route (option dict) :=
  fun log => (store_find_one S project_id, (log ++ [FindOne project_id])%list).

Definition update_one (S : Store) (project_id : string) (set : dict) : Route unit :=
  fun log => (store_update_one S project_id set, (log ++ [UpdateOne project_id set])%list).

(** A computation of the generation client run inside a route: the calls
    it makes join the events of the route. *)
Definition outbound {A : Type} (m : IO A) : Route A :=
  fun log => let '(r, calls) := m [] in (r, (log ++ map Outbound calls)%list).

Definition read_dxf (E : Ezdxf) (file_content : string) : Route dict :=
  fun log => (Ok (parse_dxf_file E file_content), (log ++ [ReadDxf file_content])%list).

(** ** [model_dump] *)

Definition dump_opt_str (x : option string) : value :=
  match x with
  | Some s => VStr s
  | None => VNone
  end.

Definition dump_opt_float (x : option float) : value :=
  match x with
  | Some f => VFloat f
  | None => VNone
  end.

Definition dump_check (cc : ComplianceCheck.t) : value :=
  VDict [ ("category", VStr (ComplianceCheck.category cc));
          ("rule", VStr (ComplianceCheck.rule cc));
          ("status", VStr (ComplianceCheck.status cc));
          ("message", VStr (ComplianceCheck.message cc));
          ("suggestion", dump_opt_str (ComplianceCheck.suggestion cc)) ].

Definition dump_material (m : MaterialItem.t) : value :=
  VDict [ ("name", VStr (MaterialItem.name m));
          ("quantity", VFloat (MaterialItem.quantity m));
          ("unit", VStr (MaterialItem.unit m));
          ("estimatedCost", dump_opt_float (MaterialItem.estimatedCost m)) ].

Definition dump_floor_plan (fp : FloorPlanData.t) : value :=
  VDict [ ("svgContent", VStr (FloorPlanData.svgContent fp));
          ("rooms", VList (map VDict (FloorPlanData.rooms fp)));
          ("totalArea", VFloat (FloorPlanData.totalArea fp));
          ("dimensions",
           VDict (map (fun kv => (fst kv, VFloat (snd kv))) (FloorPlanData.dimensions fp))) ].

(** ** Assignments to the fields of a project *)

(** [project.floorPlans = floor_plans]. *)
Definition set_floorPlans (project : Project.t) (floor_plans : list FloorPlanData.t)
  : Project.t :=
  {| Project.id := Project.id project;
     Project.name := Project.name project;
     Project.config := Project.config project;
     Project.floorPlans := floor_plans;
     Project.selectedPlanIndex := Project.selectedPlanIndex project;
     Project.complianceChecks := Project.complianceChecks project;
     Project.materials := Project.materials project;
     Project.createdAt := Project.createdAt project;
     Project.updatedAt := Project.updatedAt project |}.

(** [project.selectedPlanIndex = plan_index]. *)
Definition set_selectedPlanIndex (project : Project.t) (plan_index : Z) : Project.t :=
  {| Project.id := Project.id project;
     Project.name := Project.name project;
     Project.config := Project.config project;
     Project.floorPlans := Project.floorPlans project;
     Project.selectedPlanIndex := plan_index;
     Project.complianceChecks := Project.complianceChecks project;
     Project.materials := Project.materials project;
     Project.createdAt := Project.createdAt project;
     Project.updatedAt := Project.updatedAt project |}.

(** ** [generate_floor_plans] *)

(** The [$set] document the route writes. *)
Definition generated_update (floor_plans : list FloorPlanData.t)
    (compliance_checks : list ComplianceCheck.t) (materials : list MaterialItem.t)
    (now : string) : dict :=
  [ ("floorPlans", VList (map dump_floor_plan floor_plans));
    ("selectedPlanIndex", VInt 0);
    ("complianceChecks", VList (map dump_check compliance_checks));
    ("materials", VList (map dump_material materials));
    ("updatedAt", VStr now) ].

(** The dict the route returns. *)
Definition generated_response (floor_plans : list FloorPlanData.t)
    (compliance_checks : list ComplianceCheck.t) (materials : list MaterialItem.t) : dict :=
  [ ("success", VBool true);
    ("floorPlans", VList (map dump_floor_plan floor_plans));
    ("complianceChecks", VList (map dump_check compliance_checks));
    ("materials", VList (map dump_material materials)) ].

(** The route; [now] is the ISO text of the time read from the clock.
    The assignments to [complianceChecks], [materials] and [updatedAt] of
    the local [project] are read by nothing but the [$set] document. *)
Definition generate_floor_plans (S : Store) (P : Providers) (now : string)
    (project_id : string) : Route dict :=
  (project_doc <- find_one S project_id ;;
   match project_doc with
   | None | Some [] => route_raise (HTTPException 404 "Project not found")
   | Some doc =>
       project <- route_lift (project_of_document S doc) ;;
       floor_plans <- outbound (generate_floor_plan_ai P (Project.config project)) ;;
       let project := set_selectedPlanIndex (set_floorPlans project floor_plans) 0 in
       compliance_checks <- route_lift (check_compliance project) ;;
       materials <- route_lift (estimate_materials project) ;;
       _ <- update_one S project_id
              (generated_update floor_plans compliance_checks materials now) ;;
       route_ret (generated_response floor_plans compliance_checks materials)
   end)%route.

(** ** [select_plan] *)

(** The route.  No document makes the subscript [project_doc['createdAt']]
    fail on [None]. *)
Definition select_plan (S : Store) (project_id : string) (plan_index : Z) : Route dict :=
  (_ <- update_one S project_id [("selectedPlanIndex", VInt plan_index)] ;;
   project_doc <- find_one S project_id ;;
   match project_doc with
   | None => route_raise TypeError
   | Some doc =>
       project <- route_lift (project_of_document S doc) ;;
       let project := set_selectedPlanIndex project plan_index in
       compliance_checks <- route_lift (check_compliance project) ;;
       materials <- route_lift (estimate_materials project) ;;
       _ <- update_one S project_id
              [ ("complianceChecks", VList (map dump_check compliance_checks));
                ("materials", VList (map dump_material materials)) ] ;;
       route_ret [("success", VBool true)]
   end)%route.

(** ** [upload_dxf] *)

(** [s.endswith(suffix)]. *)
Fixpoint endswith (suffix s : string) : bool :=
  (s =? suffix)%string ||
  match s with
  | EmptyString => false
  | String _ s' => endswith suffix s'
  end.

(** The route; [filename] is the name the upload carries, which can be
    absent, and [content] what reading the upload gives. *)
Definition upload_dxf (S : Store) (E : Ezdxf) (project_id : string)
    (filename : option string) (content : string) : Route dict :=
  match filename with
  | None => route_raise AttributeError
  | Some name =>
      if negb (endswith ".dxf" name)
      then route_raise (HTTPException 400 "Only DXF files are supported")
      else
        (parsed_data <- read_dxf E content ;;
         if truthy (dict_get parsed_data "parsed" VNone) then
           width <- route_lift (dict_getitem parsed_data "width") ;;
           length <- route_lift (dict_getitem parsed_data "length") ;;
           _ <- update_one S project_id
                  [ ("config.siteConstraints.width", width);
                    ("config.siteConstraints.length", length);
                    ("config.siteConstraints.fileName", VStr name) ] ;;
           route_ret parsed_data
         else route_ret parsed_data)%route
  end.

(* ================================================================== *)
(** * Notions used in the statements *)
(* ================================================================== *)

(** ** Of the evaluator *)

(** The cultural type of a configuration, if it has one. *)
Definition cultural_type (config : ProjectConfig.t) : option string :=
  match ProjectConfig.culturalParams config with
  | Some params => CulturalParameters.type params
  | None => None
  end.

(** The configuration names a Vastu type, in whatever case. *)
Definition vastu_requested (config : ProjectConfig.t) : bool :=
  match cultural_type config with
  | Some t => contains "vastu" (lower t)
  | None => false
  end.

(** The name of a room holds the given word, in whatever case. *)
Definition room_called (word : string) (room : dict) : bool :=
  match dict_lookup "name" room with
  | Some (VStr name) => contains word (lower name)
  | _ => false
  end.

(** A bedroom whose area is below 9. *)
Definition small_bedroom (room : dict) : Prop :=
  room_called "bedroom" room = true /\
  exists area : value, dict_lookup "area" room = Some area /\ py_lt area (VInt 9) = Ok true.

Definition in_category (category : string) (finding : ComplianceCheck.t) : bool :=
  (ComplianceCheck.category finding =? category)%string.

Definition kitchen_finding : ComplianceCheck.t :=
  {| ComplianceCheck.category := "cultural";
     ComplianceCheck.rule := "Kitchen Placement (Vastu)";
     ComplianceCheck.status := "passed";
     ComplianceCheck.message := "Kitchen positioned in South-East quadrant (Agni corner)";
     ComplianceCheck.suggestion := None |}.

Definition entrance_finding : ComplianceCheck.t :=
  {| ComplianceCheck.category := "cultural";
     ComplianceCheck.rule := "Main Entrance (Vastu)";
     ComplianceCheck.status := "passed";
     ComplianceCheck.message := "Entrance facing North-East for prosperity";
     ComplianceCheck.suggestion := None |}.

(** ** Of the renderer *)

(** A room of integer geometry. *)
Definition int_geometry (room : value) (x y width height : Z) : Prop :=
  exists d : dict,
    room = VDict d /\
    dict_lookup "x" d = Some (VInt x) /\ dict_lookup "y" d = Some (VInt y) /\
    dict_lookup "width" d = Some (VInt width) /\
    dict_lookup "height" d = Some (VInt height).

(** Where the rectangle of such a room ends, along one axis: it starts at
    [pos * 40 + 50] and extends over [ext * 40]. *)
Definition far_edge (pos ext : Z) : Z := pos * 40 + 50 + ext * 40.

(** ** Of the boundary import *)


(** ** Of the generation client *)



(** Two configurations that agree on what the generation client reads. *)
Definition same_request (c1 c2 : ProjectConfig.t) : Prop :=
  ProjectConfig.projectType c1 = ProjectConfig.projectType c2 /\
  SiteConstraints.width (ProjectConfig.siteConstraints c1)
    = SiteConstraints.width (ProjectConfig.siteConstraints c2) /\
  SiteConstraints.length (ProjectConfig.siteConstraints c1)
    = SiteConstraints.length (ProjectConfig.siteConstraints c2) /\
  ProjectConfig.requiredSpaces c1 = ProjectConfig.requiredSpaces c2 /\
  cultural_type c1 = cultural_type c2 /\
  str_or (ProjectConfig.municipalCode c1) "General"
    = str_or (ProjectConfig.municipalCode c2) "General".

(** ** Samples *)

Definition kitchen : dict := [("name", VStr "Open KITCHEN"); ("area", VInt 12)].

Definition vastu_config : ProjectConfig.t :=
  {| ProjectConfig.projectType := "residential";
     ProjectConfig.siteConstraints := site_unset;
     ProjectConfig.requiredSpaces := [];
     ProjectConfig.adjacencyRules := Some [];
     ProjectConfig.orientation := Some [];
     ProjectConfig.culturalParams :=
       Some {| CulturalParameters.type := Some "Vastu_North";
               CulturalParameters.preferences := None |};
     ProjectConfig.municipalCode := Some "IBC" |}.

(** A project of three layouts. *)
Definition three_plans : list FloorPlanData.t :=
  [ plan_with [bedroom_1; living_room] 28%float;
    plan_with [living_room; kitchen] 32%float;
    plan_with [bedroom_1; kitchen; living_room] 40%float ].

Definition three_plans_project (index : Z) : Project.t :=
  project_with vastu_config three_plans index.

(** A configuration that differs from [plain_config] in what the
    generation client does not read. *)
Definition other_plain_config : ProjectConfig.t :=
  {| ProjectConfig.projectType := "residential";
     ProjectConfig.siteConstraints :=
       {| SiteConstraints.width := None;
          SiteConstraints.length := None;
          SiteConstraints.dimensions := Some "20x15";
          SiteConstraints.fileName := Some "site.dxf" |};
     ProjectConfig.requiredSpaces := [];
     ProjectConfig.adjacencyRules :=
       Some [ {| AdjacencyRule.room1 := "Kitchen";
                 AdjacencyRule.room2 := "Dining";
                 AdjacencyRule.preferred := true |} ];
     ProjectConfig.orientation := Some [("entrance", "north")];
     ProjectConfig.culturalParams :=
       Some {| CulturalParameters.type := None;
               CulturalParameters.preferences := Some [("kitchen", VStr "south-east")] |};
     ProjectConfig.municipalCode := Some EmptyString |}.

(** A layout whose second room has no area and a name with markup in it. *)
Definition marked_up_layout : value :=
  VDict [ ("rooms",
           VList [ VDict (room_dict "Living Room" 0 0 5 6 30);
                   VDict [ ("name", VStr "<b>Den</b> & more"); ("x", VInt 5); ("y", VInt 0);
                           ("width", VInt 4); ("height", VInt 3) ] ]) ].

Definition marked_up_parts : list string :=
  Eval vm_compute in
    match svg_parts marked_up_layout with
    | Ok parts => parts
    | Raise _ => []
    end.





(** Another configuration that names Vastu and the same municipal code,
    and a project under it whose selected layout has the rooms of the
    first of the three layouts. *)
Definition other_vastu_config : ProjectConfig.t :=
  {| ProjectConfig.projectType := "commercial";
     ProjectConfig.siteConstraints := site_unset;
     ProjectConfig.requiredSpaces :=
       [ {| RoomRequirement.name := "Bedroom";
            RoomRequirement.quantity := 2;
            RoomRequirement.minArea := Some 12%float |} ];
     ProjectConfig.adjacencyRules := None;
     ProjectConfig.orientation := None;
     ProjectConfig.culturalParams :=
       Some {| CulturalParameters.type := Some "south VASTU";
               CulturalParameters.preferences := None |};
     ProjectConfig.municipalCode := Some "IBC" |}.

Definition other_vastu_project : Project.t :=
  project_with other_vastu_config
    [ plan_with [] 0%float; plan_with [bedroom_1; living_room] 99%float ] (-1).

(** A store that holds one project, under the id [p-1]; its documents
    are not looked into: the project they validate to is given. *)
Definition store_of (project : Project.t) : Store :=
  {| store_find_one :=
       fun project_id =>
         if (project_id =? "p-1")%string then Ok (Some [("id", VStr "p-1")]) else Ok None;
     store_update_one := fun _ _ => Ok tt;
     project_of_document := fun _ => Ok project |}.

(** A drawing of a circle and a text, and a reader that
    knows it. *)
Definition origin : Vec3.t := {| Vec3.x := 0%float; Vec3.y := 0%float |}.

Definition circle_and_text : list Entity.t :=
  [ {| Entity.dxftype := "CIRCLE"; Entity.start := origin; Entity.end_ := origin |};
    {| Entity.dxftype := "TEXT"; Entity.start := origin; Entity.end_ := origin |} ].

Definition reader : Ezdxf :=
  {| readfile_modelspace :=
       fun content =>
         if (content =? "circle and text")%string then Ok circle_and_text
         else Raise ValueError;
     str_of_exception := fun _ => "Not a DXF file." |}.

(* ================================================================== *)
(** * Properties of the evaluator and of the estimator *)
(* ================================================================== *)

Lemma check_compliance_selected :
  forall (project : Project.t) (plan : FloorPlanData.t),
    selected_plan project = Ok (Some plan) ->
    check_compliance project =
      (room_findings <- mapM room_check (FloorPlanData.rooms plan) ;;
       cultural <- cultural_checks (Project.config project) plan ;;
       Ok (room_findings
             ++ [setback_check
                   (str_or (ProjectConfig.municipalCode (Project.config project)) "General")]
             ++ cultural ++ [accessibility_check])%list).
Proof.
  intros project plan Hsel. unfold check_compliance. rewrite Hsel. reflexivity.
Qed.

Lemma estimate_materials_selected :
  forall (project : Project.t) (plan : FloorPlanData.t),
    selected_plan project = Ok (Some plan) ->
    estimate_materials project =
      Ok (material_lines (FloorPlanData.totalArea plan)
            (Z.of_nat (List.length (FloorPlanData.rooms plan)))).
Proof.
  intros project plan Hsel.
  unfold selected_plan in Hsel. unfold estimate_materials.
  destruct (Project.floorPlans project) as [|p ps]; [discriminate|].
  destruct (list_getitem (p :: ps) (Project.selectedPlanIndex project)) as [plan'|e];
    simpl in *; [|discriminate].
  injection Hsel as ->. reflexivity.
Qed.

Lemma room_findings_two_rooms :
  mapM room_check [bedroom_1; living_room] =
    Ok [bedroom_1_finding; living_room_finding].
Proof. vm_compute. reflexivity. Qed.

Lemma accessibility_check_passed : accessibility_check = doorway_finding.
Proof. vm_compute. reflexivity. Qed.

(** C1 (as amended).  For a selected layout whose rooms are exactly
    Bedroom 1 (area 8) and Living Room (area 20), and a configuration with
    no cultural parameters, [check_compliance] returns four findings: the
    failed bedroom finding with its suggestion, the passed living-room
    finding, the passed finding on building setbacks, and the passed
    accessibility finding on doorway width, in that order. *)
Theorem check_compliance_two_rooms :
  forall (project : Project.t) (plan : FloorPlanData.t),
    selected_plan project = Ok (Some plan) ->
    FloorPlanData.rooms plan = [bedroom_1; living_room] ->
    ProjectConfig.culturalParams (Project.config project) = None ->
    check_compliance project =
      Ok (two_rooms_findings
            (str_or (ProjectConfig.municipalCode (Project.config project)) "General")).
Proof.
  intros project plan Hsel Hrooms Hcult.
  rewrite (check_compliance_selected _ _ Hsel), Hrooms, room_findings_two_rooms.
  unfold cultural_checks. rewrite Hcult, accessibility_check_passed.
  reflexivity.
Qed.

(** The four findings, on the project of the example. *)
Lemma check_compliance_two_rooms_witness :
  check_compliance two_rooms_project = Ok (two_rooms_findings "General").
Proof.
  apply (check_compliance_two_rooms two_rooms_project
           (plan_with [bedroom_1; living_room] 28%float));
    reflexivity.
Defined.

(** C1 (as stated) fails: on the project of the example, whose selected
    layout holds exactly the two rooms and whose configuration has no
    cultural parameters, the findings are four, not three. *)
Lemma check_compliance_not_three_findings :
  ~ (exists findings : list ComplianceCheck.t,
        check_compliance two_rooms_project = Ok findings /\
        List.length findings = 3%nat).
Proof.
  intros [findings [Hrun Hlen]].
  vm_compute in Hrun. injection Hrun as <-. discriminate Hlen.
Qed.

Lemma material_lines_100_4 : material_lines 100%float 4 = materials_100_4.
Proof. vm_compute. reflexivity. Qed.

(** C3.  For a selected layout with totalArea = 100 and exactly four
    rooms, [estimate_materials] returns the eight lines concrete, bricks,
    steel, cement, floor tiles, paint, doors, windows, in that order, with
    quantities 15, 6000, 800, 40, 100, 25, 6, 8 and costs 82500, 48000,
    52000, 18000, 45000, 8750, 90000, 64000. *)
Theorem estimate_materials_100_4 :
  forall (project : Project.t) (plan : FloorPlanData.t),
    selected_plan project = Ok (Some plan) ->
    FloorPlanData.totalArea plan = 100%float ->
    List.length (FloorPlanData.rooms plan) = 4%nat ->
    estimate_materials project = Ok materials_100_4.
Proof.
  intros project plan Hsel Harea Hcount.
  rewrite (estimate_materials_selected _ _ Hsel), Harea, Hcount.
  change (Z.of_nat 4) with 4. rewrite material_lines_100_4. reflexivity.
Qed.

(** The bill of quantities of a project with 100 m² and four rooms. *)
Lemma estimate_materials_100_4_witness :
  estimate_materials four_rooms_project = Ok materials_100_4.
Proof.
  apply (estimate_materials_100_4 four_rooms_project
           (plan_with [room_named "A"; room_named "B"; room_named "C"; room_named "D"]
              100%float));
    reflexivity.
Defined.

(** C8.  When the project holds no layout, whatever its configuration
    and its other fields, [check_compliance] returns no finding and
    [estimate_materials] no material line, and neither raises. *)
Theorem no_layout_no_findings_no_materials :
  forall project : Project.t,
    Project.floorPlans project = [] ->
    check_compliance project = Ok [] /\ estimate_materials project = Ok [].
Proof.
  intros project Hempty.
  unfold check_compliance, selected_plan, estimate_materials.
  rewrite Hempty. split; reflexivity.
Qed.

(** A project with no layout, whatever its selected index. *)
Lemma no_layout_no_findings_no_materials_witness :
  check_compliance (project_with plain_config [] 5) = Ok [] /\
  estimate_materials (project_with plain_config [] 5) = Ok [].
Proof.
  apply (no_layout_no_findings_no_materials (project_with plain_config [] 5)).
  reflexivity.
Defined.

(** C10.  The estimate depends on the selected layout through its
    totalArea and its number of rooms only: two projects whose selected
    layouts agree on both get the same material lines, whatever the
    rooms, the drawing and the other fields of the projects are. *)
Theorem estimate_materials_depends_on_area_and_count :
  forall (project1 project2 : Project.t) (plan1 plan2 : FloorPlanData.t),
    selected_plan project1 = Ok (Some plan1) ->
    selected_plan project2 = Ok (Some plan2) ->
    FloorPlanData.totalArea plan1 = FloorPlanData.totalArea plan2 ->
    List.length (FloorPlanData.rooms plan1) = List.length (FloorPlanData.rooms plan2) ->
    estimate_materials project1 = estimate_materials project2.
Proof.
  intros project1 project2 plan1 plan2 Hsel1 Hsel2 Harea Hcount.
  rewrite (estimate_materials_selected _ _ Hsel1),
          (estimate_materials_selected _ _ Hsel2), Harea, Hcount.
  reflexivity.
Qed.

(** Two projects that differ in all but the area and the number of rooms. *)
Lemma estimate_materials_depends_on_area_and_count_witness :
  estimate_materials four_rooms_project = estimate_materials other_four_rooms_project.
Proof.
  apply (estimate_materials_depends_on_area_and_count
           four_rooms_project other_four_rooms_project
           (plan_with [room_named "A"; room_named "B"; room_named "C"; room_named "D"]
              100%float)
           {| FloorPlanData.svgContent := "<svg></svg>";
              FloorPlanData.rooms := [bedroom_1; living_room; bedroom_1; []];
              FloorPlanData.totalArea := 100%float;
              FloorPlanData.dimensions := [] |});
    reflexivity.
Defined.

(* ================================================================== *)
(** * Properties of the decoder *)
(* ================================================================== *)

(** The fuel [Json.loads] supplies is never used up: the decoder ends
    with a value or with a [JSONDecodeError]. *)

Lemma skip_ws_length :
  forall s : string, (String.length (Json.skip_ws s) <= String.length s)%nat.
Proof.
  induction s as [|c s IH]; cbn [Json.skip_ws String.length]; [lia|].
  destruct (Json.is_ws c); cbn [String.length]; lia.
Qed.

Lemma span_digits_length :
  forall s ds rest : string,
    Json.span_digits s = (ds, rest) ->
    String.length s = (String.length ds + String.length rest)%nat.
Proof.
  induction s as [|c s IH]; intros ds rest H; cbn [Json.span_digits] in H.
  - injection H as <- <-. reflexivity.
  - destruct (Json.is_digit c).
    + destruct (Json.span_digits s) as [ds' rest'] eqn:E.
      injection H as <- <-. cbn [String.length]. rewrite (IH _ _ eq_refl). reflexivity.
    + injection H as <- <-. reflexivity.
Qed.

Lemma span_integer_length :
  forall s ds rest : string,
    Json.span_integer s = Some (ds, rest) ->
    (String.length rest < String.length s)%nat.
Proof.
  intros s ds rest H. destruct s as [|c s]; cbn [Json.span_integer] in H; [discriminate|].
  destruct (Ascii.eqb c "0").
  - injection H as <- <-. cbn [String.length]. lia.
  - destruct (Json.is_digit c); [|discriminate].
    destruct (Json.span_digits s) as [ds' rest'] eqn:E.
    injection H as <- <-. apply span_digits_length in E. cbn [String.length]. lia.
Qed.

Lemma span_frac_length :
  forall s ds rest : string,
    Json.span_frac s = Some (ds, rest) ->
    (String.length rest < String.length s)%nat.
Proof.
  intros s ds rest H. destruct s as [|c s]; cbn [Json.span_frac] in H; [discriminate|].
  destruct (Ascii.eqb c "."); [|discriminate].
  destruct (Json.span_digits s) as [ds' rest'] eqn:E.
  apply span_digits_length in E.
  destruct ds'; [discriminate|]. injection H as <- <-. cbn [String.length]. lia.
Qed.

Lemma span_exp_length :
  forall (s : string) (x : Z) (rest : string),
    Json.span_exp s = Some (x, rest) ->
    (String.length rest < String.length s)%nat.
Proof.
  intros s x rest H. destruct s as [|c s]; cbn [Json.span_exp] in H; [discriminate|].
  destruct (Ascii.eqb c "e" || Ascii.eqb c "E"); [|discriminate].
  assert (Hsign :
            forall (neg : bool) (t : string),
              (String.length t <= String.length s)%nat ->
              match Json.span_digits t with
              | (EmptyString, _) => None
              | (ds, rest0) =>
                  Some (if neg then - Json.digits_value 0 ds else Json.digits_value 0 ds,
                        rest0)
              end = Some (x, rest) ->
              (String.length rest < String.length (String c s))%nat).
  { intros neg t Ht Hd.
    destruct (Json.span_digits t) as [ds' rest'] eqn:E.
    apply span_digits_length in E.
    destruct ds'; [discriminate|]. injection Hd as _ <-. cbn [String.length] in *. lia. }
  destruct s as [|d t].
  - apply (Hsign false EmptyString); [cbn; lia | exact H].
  - destruct (Ascii.eqb d "-").
    + apply (Hsign true t); [cbn; lia | exact H].
    + destruct (Ascii.eqb d "+").
      * apply (Hsign false t); [cbn; lia | exact H].
      * apply (Hsign false (String d t)); [cbn; lia | exact H].
Qed.

Lemma match_number_length :
  forall (s : string) (v : value) (rest : string),
    Json.match_number s = Some (v, rest) ->
    (String.length rest < String.length s)%nat.
Proof.
  intros s v rest H. unfold Json.match_number in H.
  assert (Hsign :
            exists (neg : bool) (s1 : string),
              (String.length s1 <= String.length s)%nat /\
              match s with
              | String c s' => if Ascii.eqb c "-" then (true, s') else (false, s)
              | EmptyString => (false, s)
              end = (neg, s1)).
  { destruct s as [|c s']; [exists false, EmptyString; split; [lia | reflexivity]|].
    destruct (Ascii.eqb c "-");
      [exists true, s' | exists false, (String c s')]; split;
      cbn [String.length]; (lia || reflexivity). }
  destruct Hsign as (neg & s1 & Hs1 & Heq). rewrite Heq in H.
  destruct (Json.span_integer s1) as [[int_ds s2]|] eqn:Eint; [|discriminate].
  apply span_integer_length in Eint.
  assert (Hfrac :
            exists (fd : option string) (s3 : string),
              (String.length s3 <= String.length s2)%nat /\
              match Json.span_frac s2 with
              | Some (ds, rest0) => (Some ds, rest0)
              | None => (None, s2)
              end = (fd, s3)).
  { destruct (Json.span_frac s2) as [[ds rest0]|] eqn:E.
    - apply span_frac_length in E. exists (Some ds), rest0. split; [lia | reflexivity].
    - exists None, s2. split; [lia | reflexivity]. }
  destruct Hfrac as (fd & s3 & Hs3 & Heq3). rewrite Heq3 in H.
  assert (Hexp :
            exists (ex : option Z) (s4 : string),
              (String.length s4 <= String.length s3)%nat /\
              match Json.span_exp s3 with
              | Some (x, rest0) => (Some x, rest0)
              | None => (None, s3)
              end = (ex, s4)).
  { destruct (Json.span_exp s3) as [[x rest0]|] eqn:E.
    - apply span_exp_length in E. exists (Some x), rest0. split; [lia | reflexivity].
    - exists None, s3. split; [lia | reflexivity]. }
  destruct Hexp as (ex & s4 & Hs4 & Heq4). rewrite Heq4 in H.
  destruct fd, ex; injection H as _ <-; lia.
Qed.

(** [run_scan H]: from [H : ('(a, b) <- r ;; k) = Ok v], the pair [r]
    returned. *)
Ltac run_scan H :=
  match type of H with
  | bind ?r _ = Ok _ =>
      let a := fresh "a" in
      let rest := fresh "rest" in
      let E := fresh "E" in
      destruct r as [[a rest]|] eqn:E; [cbn [bind] in H | discriminate H]
  end.

Lemma scanstring_length_bounded :
  forall (n : nat) (s str rest : string),
    (String.length s <= n)%nat ->
    Json.scanstring s = Ok (str, rest) ->
    (String.length rest < String.length s)%nat.
Proof.
  induction n as [|n IH]; intros s str rest Hn H;
    destruct s as [|c s']; cbn [Json.scanstring] in H; try discriminate;
    cbn [String.length] in Hn; [lia|].
  destruct (Ascii.eqb c dquote).
  { injection H as _ <-. cbn [String.length]. lia. }
  destruct (Ascii.eqb c "\").
  - destruct s' as [|e s'']; [discriminate|].
    destruct (Ascii.eqb e "u").
    + destruct s'' as [|h1 [|h2 [|h3 [|h4 r]]]]; try discriminate.
      destruct (Json.hex4 h1 h2 h3 h4) as [cp|]; [|discriminate].
      cbn [String.length] in *.
      destruct (if Json.is_high_surrogate cp then Json.low_half r else None)
        as [[[cp2|] r0]|]; try discriminate.
      * destruct (Json.is_low_surrogate cp2).
        -- destruct r as [|? [|? [|? [|? [|? [|? r']]]]]]; try discriminate.
           run_scan H. injection H as _ <-.
           apply IH in E; cbn [String.length] in *; lia.
        -- run_scan H. injection H as _ <-. apply IH in E; lia.
      * run_scan H. injection H as _ <-. apply IH in E; lia.
    + destruct (Json.simple_escape e); [|discriminate].
      run_scan H. injection H as _ <-.
      cbn [String.length] in *. apply IH in E; lia.
  - destruct (Json.code c <? 32)%N; [discriminate|].
    run_scan H. injection H as _ <-.
    cbn [String.length] in *. apply IH in E; lia.
Qed.

Lemma scanstring_length :
  forall s str rest : string,
    Json.scanstring s = Ok (str, rest) ->
    (String.length rest < String.length s)%nat.
Proof.
  intros s str rest. apply (scanstring_length_bounded (String.length s)). lia.
Qed.

(** [fail_scan H]: from [H : ('(a, b) <- r ;; k) = Raise e], the two
    cases: [r] returned a pair and the continuation raised [e], or [r]
    raised [e]. *)
Ltac fail_scan H :=
  match type of H with
  | bind ?r _ = Raise _ =>
      let a := fresh "a" in
      let rest := fresh "rest" in
      let E := fresh "E" in
      destruct r as [[a rest]|] eqn:E; cbn [bind] in H
  end.

Lemma scanstring_error_bounded :
  forall (n : nat) (s : string) (e : exn),
    (String.length s <= n)%nat ->
    Json.scanstring s = Raise e ->
    e = JSONDecodeError.
Proof.
  induction n as [|n IH]; intros s e Hn H;
    destruct s as [|c s']; cbn [Json.scanstring] in H;
    try (injection H as <-; reflexivity);
    cbn [String.length] in Hn; [lia|].
  destruct (Ascii.eqb c dquote); [discriminate|].
  destruct (Ascii.eqb c "\").
  - destruct s' as [|e' s'']; [injection H as <-; reflexivity|].
    destruct (Ascii.eqb e' "u").
    + destruct s'' as [|h1 [|h2 [|h3 [|h4 r]]]]; try (injection H as <-; reflexivity).
      destruct (Json.hex4 h1 h2 h3 h4) as [cp|]; [|injection H as <-; reflexivity].
      cbn [String.length] in *.
      destruct (if Json.is_high_surrogate cp then Json.low_half r else None)
        as [[[cp2|] r0]|]; try (injection H as <-; reflexivity).
      * destruct (Json.is_low_surrogate cp2).
        -- destruct r as [|? [|? [|? [|? [|? [|? r']]]]]];
             try (injection H as <-; reflexivity).
           fail_scan H; [discriminate|].
           injection H as <-. apply IH in E; [exact E | cbn [String.length] in *; lia].
        -- fail_scan H; [discriminate|].
           injection H as <-. apply IH in E; [exact E | lia].
      * fail_scan H; [discriminate|].
        injection H as <-. apply IH in E; [exact E | lia].
    + destruct (Json.simple_escape e'); [|injection H as <-; reflexivity].
      fail_scan H; [discriminate|].
      injection H as <-. cbn [String.length] in *. apply IH in E; [exact E | lia].
  - destruct (Json.code c <? 32)%N; [injection H as <-; reflexivity|].
    fail_scan H; [discriminate|].
    injection H as <-. cbn [String.length] in *. apply IH in E; [exact E | lia].
Qed.

Lemma scanstring_error :
  forall (s : string) (e : exn), Json.scanstring s = Raise e -> e = JSONDecodeError.
Proof.
  intros s e. apply (scanstring_error_bounded (String.length s)). lia.
Qed.

Lemma startswith_drop_length :
  forall p s : string,
    startswith p s = true ->
    (String.length (drop (String.length p) s) + String.length p = String.length s)%nat.
Proof.
  induction p as [|a p IH]; intros s H; [cbn; lia|].
  destruct s as [|b s]; cbn [startswith] in H; [discriminate|].
  apply andb_prop in H. destruct H as [_ H].
  cbn [String.length drop]. rewrite <- (IH s H). lia.
Qed.

(** [ws_fact E]: from [E : Json.skip_ws r = String c r'], the bound on the
    length of [r']. *)
Ltac ws_fact E :=
  match type of E with
  | Json.skip_ws ?r = _ =>
      let Hws := fresh "Hws" in
      pose proof (skip_ws_length r) as Hws; rewrite E in Hws;
      cbn [String.length] in Hws
  end.

(** Every scan consumes at least one character. *)
Lemma scan_length :
  forall fuel : nat,
    (forall (s : string) (v : value) (rest : string),
        Json.scan_once fuel s = Ok (v, rest) ->
        (String.length rest < String.length s)%nat) /\
    (forall (s : string) (vs : list value) (rest : string),
        Json.scan_items fuel s = Ok (vs, rest) ->
        (String.length rest < String.length s)%nat) /\
    (forall (s : string) (kvs : list (string * value)) (rest : string),
        Json.scan_pairs fuel s = Ok (kvs, rest) ->
        (String.length rest < String.length s)%nat).
Proof.
  induction fuel as [|fuel (IHonce & IHitems & IHpairs)];
    [repeat split; intros; discriminate|].
  repeat split.
  - intros s v rest H. cbn [Json.scan_once] in H.
    destruct s as [|c r]; [discriminate|]. cbn [String.length].
    destruct (Ascii.eqb c dquote).
    { run_scan H. injection H as _ <-. apply scanstring_length in E. lia. }
    destruct (Ascii.eqb c "{").
    { destruct (Json.skip_ws r) as [|c' r'] eqn:Ews; [discriminate|]. ws_fact Ews.
      destruct (Ascii.eqb c' "}"); [injection H as _ <-; lia|].
      destruct (Ascii.eqb c' dquote); [|discriminate].
      run_scan H. injection H as _ <-. apply IHpairs in E. lia. }
    destruct (Ascii.eqb c "[").
    { destruct (Json.skip_ws r) as [|c' r'] eqn:Ews; [discriminate|]. ws_fact Ews.
      destruct (Ascii.eqb c' "]"); [injection H as _ <-; lia|].
      run_scan H. injection H as _ <-. apply IHitems in E.
      cbn [String.length] in E. lia. }
    destruct (startswith "null" (String c r)) eqn:E1.
    { injection H as _ <-. apply startswith_drop_length in E1.
      cbn [String.length drop] in E1 |- *. lia. }
    destruct (startswith "true" (String c r)) eqn:E2.
    { injection H as _ <-. apply startswith_drop_length in E2.
      cbn [String.length drop] in E2 |- *. lia. }
    destruct (startswith "false" (String c r)) eqn:E3.
    { injection H as _ <-. apply startswith_drop_length in E3.
      cbn [String.length drop] in E3 |- *. lia. }
    destruct (Json.match_number (String c r)) as [[v' rest']|] eqn:Em.
    { injection H as _ <-. apply match_number_length in Em.
      cbn [String.length] in Em. lia. }
    destruct (startswith "NaN" (String c r)) eqn:E4.
    { injection H as _ <-. apply startswith_drop_length in E4.
      cbn [String.length drop] in E4 |- *. lia. }
    destruct (startswith "Infinity" (String c r)) eqn:E5.
    { injection H as _ <-. apply startswith_drop_length in E5.
      cbn [String.length drop] in E5 |- *. lia. }
    destruct (startswith "-Infinity" (String c r)) eqn:E6; [|discriminate].
    injection H as _ <-. apply startswith_drop_length in E6.
    cbn [String.length drop] in E6 |- *. lia.
  - intros s vs rest H. cbn [Json.scan_items] in H.
    run_scan H. apply IHonce in E.
    destruct (Json.skip_ws rest0) as [|c r] eqn:Ews; [discriminate|]. ws_fact Ews.
    destruct (Ascii.eqb c "]"); [injection H as _ <-; lia|].
    destruct (Ascii.eqb c ","); [|discriminate].
    run_scan H. injection H as _ <-. apply IHitems in E0.
    pose proof (skip_ws_length r). lia.
  - intros s kvs rest H. cbn [Json.scan_pairs] in H.
    run_scan H. apply scanstring_length in E.
    destruct (Json.skip_ws rest0) as [|c r] eqn:Ews; [discriminate|]. ws_fact Ews.
    destruct (Ascii.eqb c ":"); [|discriminate].
    run_scan H. apply IHonce in E0. pose proof (skip_ws_length r).
    destruct (Json.skip_ws rest1) as [|c' r'] eqn:Ews'; [discriminate|]. ws_fact Ews'.
    destruct (Ascii.eqb c' "}"); [injection H as _ <-; lia|].
    destruct (Ascii.eqb c' ","); [|discriminate].
    destruct (Json.skip_ws r') as [|c'' r''] eqn:Ews''; [discriminate|]. ws_fact Ews''.
    destruct (Ascii.eqb c'' dquote); [|discriminate].
    run_scan H. injection H as _ <-. apply IHpairs in E1. lia.
Qed.

(** [decode_error H]: closes a goal [e = JSONDecodeError] from
    [H : Raise JSONDecodeError = Raise e]. *)
Ltac decode_error H := injection H as <-; reflexivity.

(** With fuel in proportion to the text, a scan that fails fails with a
    [JSONDecodeError]: the fuel is not what runs out. *)
Lemma scan_error :
  forall fuel : nat,
    (forall (s : string) (e : exn),
        (2 * String.length s + 1 <= fuel)%nat ->
        Json.scan_once fuel s = Raise e -> e = JSONDecodeError) /\
    (forall (s : string) (e : exn),
        (2 * String.length s + 2 <= fuel)%nat ->
        Json.scan_items fuel s = Raise e -> e = JSONDecodeError) /\
    (forall (s : string) (e : exn),
        (2 * String.length s + 2 <= fuel)%nat ->
        Json.scan_pairs fuel s = Raise e -> e = JSONDecodeError).
Proof.
  induction fuel as [|fuel (IHonce & IHitems & IHpairs)];
    [repeat split; intros; lia|].
  destruct (scan_length fuel) as (Lonce & Litems & Lpairs).
  repeat split.
  - intros s e Hf H. cbn [Json.scan_once] in H.
    destruct s as [|c r]; [decode_error H|]. cbn [String.length] in Hf.
    destruct (Ascii.eqb c dquote).
    { fail_scan H; [discriminate|]. injection H as <-. exact (scanstring_error _ _ E). }
    destruct (Ascii.eqb c "{").
    { destruct (Json.skip_ws r) as [|c' r'] eqn:Ews; [decode_error H|]. ws_fact Ews.
      destruct (Ascii.eqb c' "}"); [discriminate|].
      destruct (Ascii.eqb c' dquote); [|decode_error H].
      fail_scan H; [discriminate|]. injection H as <-.
      apply IHpairs in E; [exact E | lia]. }
    destruct (Ascii.eqb c "[").
    { destruct (Json.skip_ws r) as [|c' r'] eqn:Ews; [decode_error H|]. ws_fact Ews.
      destruct (Ascii.eqb c' "]"); [discriminate|].
      fail_scan H; [discriminate|]. injection H as <-.
      apply IHitems in E; [exact E | cbn [String.length]; lia]. }
    destruct (startswith "null" (String c r)); [discriminate|].
    destruct (startswith "true" (String c r)); [discriminate|].
    destruct (startswith "false" (String c r)); [discriminate|].
    destruct (Json.match_number (String c r)) as [[v' rest']|]; [discriminate|].
    destruct (startswith "NaN" (String c r)); [discriminate|].
    destruct (startswith "Infinity" (String c r)); [discriminate|].
    destruct (startswith "-Infinity" (String c r)); [discriminate|].
    decode_error H.
  - intros s e Hf H. cbn [Json.scan_items] in H.
    fail_scan H; [|injection H as <-; apply IHonce in E; [exact E | lia]].
    apply Lonce in E.
    destruct (Json.skip_ws rest) as [|c r] eqn:Ews; [decode_error H|]. ws_fact Ews.
    destruct (Ascii.eqb c "]"); [discriminate|].
    destruct (Ascii.eqb c ","); [|decode_error H].
    fail_scan H; [discriminate|]. injection H as <-.
    pose proof (skip_ws_length r).
    apply IHitems in E0; [exact E0 | lia].
  - intros s e Hf H. cbn [Json.scan_pairs] in H.
    fail_scan H; [|injection H as <-; exact (scanstring_error _ _ E)].
    apply scanstring_length in E.
    destruct (Json.skip_ws rest) as [|c r] eqn:Ews; [decode_error H|]. ws_fact Ews.
    destruct (Ascii.eqb c ":"); [|decode_error H].
    pose proof (skip_ws_length r).
    fail_scan H; [|injection H as <-; apply IHonce in E0; [exact E0 | lia]].
    apply Lonce in E0.
    destruct (Json.skip_ws rest0) as [|c' r'] eqn:Ews'; [decode_error H|]. ws_fact Ews'.
    destruct (Ascii.eqb c' "}"); [discriminate|].
    destruct (Ascii.eqb c' ","); [|decode_error H].
    destruct (Json.skip_ws r') as [|c'' r''] eqn:Ews''; [decode_error H|]. ws_fact Ews''.
    destruct (Ascii.eqb c'' dquote); [|decode_error H].
    fail_scan H; [discriminate|]. injection H as <-.
    apply IHpairs in E1; [exact E1 | lia].
Qed.

(** [json.loads] ends with a value or with a [JSONDecodeError]. *)
Lemma loads_error :
  forall (s : string) (e : exn), Json.loads s = Raise e -> e = JSONDecodeError.
Proof.
  intros s e H. unfold Json.loads in H.
  destruct (startswith Json.bom s); [decode_error H|].
  fail_scan H.
  - destruct (Json.skip_ws rest); [discriminate | decode_error H].
  - injection H as <-.
    destruct (scan_error (2 * String.length s + 2)) as (Honce & _ & _).
    apply Honce in E; [exact E|]. pose proof (skip_ws_length s). lia.
Qed.

(** ** The cleaning never raises *)

Lemma split_from_nonempty :
  forall (sep s : string) (skip : nat), split_from sep skip s <> [].
Proof.
  intros sep. induction s as [|c s IH]; intros skip; cbn [split_from]; [discriminate|].
  destruct skip; [|apply IH].
  destruct (startswith sep (String c s)); [discriminate|].
  destruct (split_from sep 0 s); discriminate.
Qed.

Lemma split_two_pieces :
  forall sep s : string,
    sep <> EmptyString ->
    contains sep s = true ->
    (2 <= List.length (split sep s))%nat.
Proof.
  intros sep s Hsep. unfold split. induction s as [|c s IH]; intros Hc.
  - destruct sep; [contradiction | discriminate Hc].
  - cbn [contains] in Hc. cbn [split_from].
    destruct (startswith sep (String c s)) eqn:Es.
    + cbn [List.length].
      pose proof (split_from_nonempty sep s (Nat.pred (String.length sep))) as Hne.
      destruct (split_from sep (Nat.pred (String.length sep)) s);
        [contradiction | cbn [List.length]; lia].
    + cbn [orb] in Hc. specialize (IH Hc).
      destruct (split_from sep 0 s) as [|piece pieces]; [cbn in IH; lia | exact IH].
Qed.

Lemma list_index_in_range :
  forall (A : Type) (xs : list A) (i : nat),
    (i < List.length xs)%nat -> exists x : A, list_index xs i = Ok x.
Proof.
  intros A xs i Hi. unfold list_index.
  destruct (nth_error xs i) as [x|] eqn:E; [eauto|].
  apply nth_error_None in E. lia.
Qed.

Lemma clean_markdown_returns :
  forall result_text : string,
    exists cleaned : string, clean_markdown result_text = Ok cleaned.
Proof.
  intros result_text. unfold clean_markdown.
  assert (Hinner :
            forall tail : string,
              exists cleaned : string,
                (inner <- list_index (split fence tail) 0 ;; Ok (strip inner)) = Ok cleaned).
  { intros tail.
    destruct (list_index_in_range _ (split fence tail) 0) as [inner ->]; [|cbn; eauto].
    pose proof (split_from_nonempty fence tail 0). unfold split.
    destruct (split_from fence 0 tail); [contradiction | cbn; lia]. }
  destruct (contains json_fence result_text) eqn:Ej.
  - destruct (list_index_in_range _ (split json_fence result_text) 1) as [tail ->].
    + apply split_two_pieces; [discriminate | exact Ej].
    + cbn [bind]. apply Hinner.
  - destruct (contains fence result_text) eqn:Ef; [|eauto].
    destruct (list_index_in_range _ (split fence result_text) 1) as [tail ->].
    + apply split_two_pieces; [discriminate | exact Ef].
    + cbn [bind]. apply Hinner.
Qed.

(** A text is decoded, or refused with a [JSONDecodeError]. *)
Lemma parse_response_error :
  forall (result_text : string) (e : exn),
    parse_response result_text = Raise e -> e = JSONDecodeError.
Proof.
  intros result_text e H. unfold parse_response in H.
  destruct (clean_markdown_returns result_text) as [cleaned Hc].
  rewrite Hc in H. cbn [bind] in H. exact (loads_error _ _ H).
Qed.

(* ================================================================== *)
(** * Properties of the generation client *)
(* ================================================================== *)




Lemma generate_floor_plan_ai_run :
  forall (P : Providers) (config : ProjectConfig.t) (calls : list call),
    generate_floor_plan_ai P config calls =
      let '(decoded, calls') := decode_with_fallback P (build_prompt config) calls in
      (decoded <- decoded ;; convert_layouts config decoded, calls').
Proof.
  intros P config calls.
  unfold generate_floor_plan_ai, io_bind, io_lift.
  destruct (decode_with_fallback P (build_prompt config) calls) as [[v|e] calls'];
    reflexivity.
Qed.

(** The two ways an attempt fails: the call raises, or the text it
    returns is refused by the decoder. *)
Lemma gemini_failure_cases :
  forall (P : Providers) (prompt : string),
    failed (gemini_outcome P prompt) <->
    (exists e : exn, gemini_generate_content P "gemini-2.5-pro" prompt = Raise e) \/
    (exists result_text : string,
        gemini_generate_content P "gemini-2.5-pro" prompt = Ok result_text /\
        parse_response result_text = Raise JSONDecodeError).
Proof.
  intros P prompt. unfold failed, gemini_outcome.
  destruct (gemini_generate_content P "gemini-2.5-pro" prompt) as [text|e0];
    cbn [bind]; split.
  - intros [e He]. right. exists text. split; [reflexivity|].
    rewrite He. f_equal. exact (parse_response_error _ _ He).
  - intros [[e He] | (text' & Heq & Hp)]; [discriminate|].
    injection Heq as <-. eauto.
  - intros _. left. eauto.
  - intros _. eauto.
Qed.






(* ================================================================== *)
(** * Properties of the renderer *)
(* ================================================================== *)

(** [run_bind H]: from [H : (x <- r ;; k) = Ok v], the value [r] returned
    and the equation of the continuation. *)
Ltac run_bind H :=
  match type of H with
  | bind ?r _ = Ok _ =>
      let v := fresh "v" in
      let E := fresh "E" in
      destruct r as [v|] eqn:E; [cbn [bind] in H | discriminate H]
  end.

Lemma head_length : forall w h : string, List.length (svg_head w h) = 7%nat.
Proof. reflexivity. Qed.

Lemma colors_length : List.length colors = 7%nat.
Proof. reflexivity. Qed.

(** What a turn of the loop appends: the rectangle, filled with the
    colour of the index, and the two labels. *)
Lemma room_parts_shape :
  forall (idx : nat) (room : value) (ps : list string),
    room_parts idx room = Ok ps ->
    exists x y width height label_name label_area : string,
      ps = [rect_element x y width height (color_of idx); label_name; label_area].
Proof.
  intros idx room ps H. unfold room_parts in H.
  repeat run_bind H.
  injection H as <-. repeat eexists.
Qed.

Lemma rooms_parts_rect :
  forall (rooms : list value) (idx N : nat) (body : list string),
    rooms_parts idx rooms = Ok body ->
    (N < List.length rooms)%nat ->
    exists x y width height : string,
      nth_error body (3 * N) =
        Some (rect_element x y width height (color_of (idx + N))).
Proof.
  induction rooms as [|room rest IH]; intros idx N body H HN.
  - simpl in HN. lia.
  - cbn [rooms_parts] in H. run_bind H. run_bind H. injection H as <-.
    destruct (room_parts_shape _ _ _ E) as (x & y & w & h & l1 & l2 & ->).
    destruct N as [|N'].
    + exists x, y, w, h. rewrite Nat.add_0_r. reflexivity.
    + simpl in HN.
      destruct (IH (S idx) N' _ E0 ltac:(lia)) as (x' & y' & w' & h' & Hnth).
      exists x', y', w', h'.
      replace (3 * S N')%nat with (3 + 3 * N')%nat by lia.
      replace (idx + S N')%nat with (S idx + N')%nat by lia.
      exact Hnth.
Qed.

(** The parts of a drawing: the head for the canvas of the layout, the
    parts of the rooms, the closing tag. *)
Lemma svg_parts_shape :
  forall (layout rooms : value) (parts : list string),
    py_get layout "rooms" (VList []) = Ok rooms ->
    svg_parts layout = Ok parts ->
    exists (max_x max_y svg_width svg_height : value) (w h : string)
           (items : list value) (body : list string),
      canvas_bound "x" "width" 20 rooms = Ok max_x /\
      canvas_bound "y" "height" 15 rooms = Ok max_y /\
      scaled max_x = Ok svg_width /\ scaled max_y = Ok svg_height /\
      py_str svg_width = Ok w /\ py_str svg_height = Ok h /\
      py_iter rooms = Ok items /\
      rooms_parts 0 items = Ok body /\
      parts = (svg_head w h ++ body ++ ["</svg>"])%list.
Proof.
  intros layout rooms parts Hget H. unfold svg_parts in H.
  rewrite Hget in H. cbn [bind] in H.
  repeat run_bind H. injection H as <-.
  do 8 eexists. unfold scaled, scale in *.
  repeat split; try eassumption.
  - rewrite E1. exact E2.
  - rewrite E3. exact E4.
Qed.

(** C7.  In the drawing of a layout, the rectangle of the room at index
    [N], which is the part at position [7 + 3 N] of the string, is filled
    with entry [N mod 7] of the palette of seven colours. *)
Theorem room_fill_cycles_palette :
  forall (layout : value) (rooms : list value) (parts : list string) (N : nat),
    py_get layout "rooms" (VList []) = Ok (VList rooms) ->
    svg_parts layout = Ok parts ->
    (N < List.length rooms)%nat ->
    generate_svg_from_layout layout = Ok (join parts) /\
    exists x y width height : string,
      nth_error parts (7 + 3 * N) =
        Some (q "<rect x='" ++ x ++ q "' y='" ++ y ++ q "' width='" ++ width
                ++ q "' height='" ++ height ++ q "' fill='"
                ++ nth (N mod 7) colors EmptyString
                ++ q "' stroke='#424242' stroke-width='2' rx='2'/>").
Proof.
  intros layout rooms parts N Hget Hparts HN.
  split.
  - unfold generate_svg_from_layout. rewrite Hparts. reflexivity.
  - destruct (svg_parts_shape _ _ _ Hget Hparts)
      as (mx & my & sw & sh & w & h & items & body
          & _ & _ & _ & _ & _ & _ & Hiter & Hbody & ->).
    injection Hiter as <-.
    destruct (rooms_parts_rect _ 0 N _ Hbody HN) as (x & y & wd & ht & Hnth).
    exists x, y, wd, ht.
    rewrite nth_error_app2 by (rewrite head_length; lia).
    rewrite head_length.
    replace (7 + 3 * N - 7)%nat with (3 * N)%nat by lia.
    rewrite nth_error_app1.
    + rewrite Hnth. unfold color_of. rewrite colors_length.
      reflexivity.
    + apply nth_error_Some. rewrite Hnth. discriminate.
Qed.

(** The second room of the sample layout takes the second colour. *)
Lemma room_fill_cycles_palette_witness :
  generate_svg_from_layout sample_layout = Ok (join sample_parts) /\
  exists x y width height : string,
    nth_error sample_parts (7 + 3 * 1) =
      Some (q "<rect x='" ++ x ++ q "' y='" ++ y ++ q "' width='" ++ width
              ++ q "' height='" ++ height ++ q "' fill='"
              ++ nth (1 mod 7) colors EmptyString
              ++ q "' stroke='#424242' stroke-width='2' rx='2'/>").
Proof.
  apply (room_fill_cycles_palette sample_layout
           [ VDict (room_dict "Living Room" 0 0 5 6 30);
             VDict (room_dict "Bedroom 1" 5 0 4 3 12) ]
           sample_parts 1).
  - reflexivity.
  - vm_compute. reflexivity.
  - simpl. lia.
Defined.

Lemma join_cons :
  forall (part : string) (parts : list string), join (part :: parts) = part ++ join parts.
Proof. reflexivity. Qed.

Lemma canvas_bound_rooms :
  forall (pos ext : string) (default : Z) (rooms : list value) (m : value),
    rooms <> [] ->
    canvas_bound pos ext default (VList rooms) = Ok m ->
    exists sums : list value, room_sums pos ext rooms = Ok sums /\ py_max sums = Ok m.
Proof.
  intros pos ext default rooms m Hne H.
  unfold canvas_bound in H.
  destruct rooms as [|r rs]; [contradiction|].
  cbn [truthy py_iter bind] in H. fold (room_sums pos ext (r :: rs)) in H.
  run_bind H. eauto.
Qed.


(** What a rendering that succeeds declares for a layout with rooms. *)
Lemma canvas_of_rendering :
  forall (layout : value) (rooms : list value) (svg : string),
    py_get layout "rooms" (VList []) = Ok (VList rooms) ->
    rooms <> [] ->
    generate_svg_from_layout layout = Ok svg ->
    exists (sums_x sums_y : list value) (max_x max_y width height : value)
           (w h rest : string),
      room_sums "x" "width" rooms = Ok sums_x /\ py_max sums_x = Ok max_x /\
      room_sums "y" "height" rooms = Ok sums_y /\ py_max sums_y = Ok max_y /\
      scaled max_x = Ok width /\ py_str width = Ok w /\
      scaled max_y = Ok height /\ py_str height = Ok h /\
      svg = canvas_tag w h ++ rest.
Proof.
  intros layout rooms svg Hget Hne Hsvg.
  unfold generate_svg_from_layout in Hsvg. run_bind Hsvg. injection Hsvg as <-.
  destruct (svg_parts_shape _ _ _ Hget E)
    as (mx & my & sw & sh & w & h & items & body
        & Hx & Hy & Hsw & Hsh & Hw & Hh & _ & _ & ->).
  destruct (canvas_bound_rooms _ _ _ _ _ Hne Hx) as (sums_x & Hsx & Hmx).
  destruct (canvas_bound_rooms _ _ _ _ _ Hne Hy) as (sums_y & Hsy & Hmy).
  exists sums_x, sums_y, mx, my, sw, sh, w, h.
  exists (join (tl (svg_head w h) ++ body ++ ["</svg>"])).
  repeat split; assumption.
Qed.



(** The maximum of integers is their greatest. *)
Lemma py_max_from_ints :
  forall (zs : list Z) (z : Z),
    py_max_from (VInt z) (map VInt zs) = Ok (VInt (greatest z zs)).
Proof.
  induction zs as [|z' zs IH]; intros z; [reflexivity|].
  cbn [map py_max_from greatest py_gt as_num num_gt bind].
  destruct (Z.ltb_spec z z') as [Hlt|Hge].
  - rewrite IH. do 2 f_equal. f_equal. lia.
  - rewrite IH. do 2 f_equal. f_equal. lia.
Qed.

Lemma greatest_bounds :
  forall (zs : list Z) (z : Z),
    z <= greatest z zs /\ Forall (fun z' => z' <= greatest z zs) zs.
Proof.
  induction zs as [|z' zs IH]; intros z; cbn [greatest].
  - split; [lia | constructor].
  - destruct (IH (Z.max z z')) as [Hz Hall]. split; [lia|].
    constructor; [lia | exact Hall].
Qed.

(** When the sums are integers, the canvas is the greatest sum, times 40,
    plus 100, in decimal digits. *)
Lemma canvas_size_integer_sums :
  forall (layout : value) (rooms : list value) (svg : string)
         (x y : Z) (xs ys : list Z),
    py_get layout "rooms" (VList []) = Ok (VList rooms) ->
    room_sums "x" "width" rooms = Ok (map VInt (x :: xs)) ->
    room_sums "y" "height" rooms = Ok (map VInt (y :: ys)) ->
    generate_svg_from_layout layout = Ok svg ->
    exists rest : string,
      svg = canvas_tag (decimal (greatest x xs * 40 + 100))
                       (decimal (greatest y ys * 40 + 100)) ++ rest.
Proof.
  intros layout rooms svg x y xs ys Hget Hx Hy Hsvg.
  assert (Hne : rooms <> []) by (intros ->; discriminate Hx).
  destruct (canvas_of_rendering layout rooms svg Hget Hne Hsvg)
    as (sx & sy & mx & my & wd & ht & w & h & rest
        & Hsx & Hmx & Hsy & Hmy & Hwd & Hw & Hht & Hh & ->).
  rewrite Hx in Hsx. injection Hsx as <-.
  rewrite Hy in Hsy. injection Hsy as <-.
  cbn [map py_max] in Hmx, Hmy.
  rewrite py_max_from_ints in Hmx, Hmy.
  injection Hmx as <-. injection Hmy as <-.
  injection Hwd as <-. injection Hht as <-.
  injection Hw as <-. injection Hh as <-.
  exists rest. reflexivity.
Qed.

(** The maximum is one of the items. *)
Lemma py_max_from_member :
  forall (xs : list value) (m r : value),
    py_max_from m xs = Ok r -> r = m \/ In r xs.
Proof.
  induction xs as [|x xs IH]; intros m r H; cbn [py_max_from] in H.
  - injection H as <-. left. reflexivity.
  - run_bind H. destruct (IH _ _ H) as [-> | Hin].
    + destruct v; [right; left; reflexivity | left; reflexivity].
    + right. right. exact Hin.
Qed.

Lemma py_getitem_same :
  forall (r1 r2 : value) (k : string),
    same_room r1 r2 -> py_getitem r1 k = py_getitem r2 k.
Proof.
  intros r1 r2 k [d1 d2 H | v]; [|reflexivity].
  unfold py_getitem, dict_getitem. rewrite (H k). reflexivity.
Qed.

Lemma room_parts_same :
  forall (idx : nat) (r1 r2 : value),
    same_room r1 r2 -> room_parts idx r1 = room_parts idx r2.
Proof.
  intros idx r1 r2 [d1 d2 H | v]; [|reflexivity].
  unfold room_parts, py_getitem, py_get, dict_getitem, dict_get.
  rewrite (H "x"), (H "y"), (H "width"), (H "height"), (H "name"), (H "area").
  reflexivity.
Qed.

Lemma rooms_parts_same :
  forall (rooms1 rooms2 : list value),
    Forall2 same_room rooms1 rooms2 ->
    forall idx : nat, rooms_parts idx rooms1 = rooms_parts idx rooms2.
Proof.
  induction 1 as [|r1 r2 rs1 rs2 Hr _ IH]; intros idx; [reflexivity|].
  cbn [rooms_parts]. rewrite (room_parts_same idx _ _ Hr), (IH (S idx)). reflexivity.
Qed.

Lemma room_sums_same :
  forall (pos ext : string) (rooms1 rooms2 : list value),
    Forall2 same_room rooms1 rooms2 ->
    room_sums pos ext rooms1 = room_sums pos ext rooms2.
Proof.
  intros pos ext rooms1 rooms2. unfold room_sums.
  induction 1 as [|r1 r2 rs1 rs2 Hr _ IH]; [reflexivity|].
  cbn [mapM]. rewrite (py_getitem_same _ _ pos Hr), (py_getitem_same _ _ ext Hr), IH.
  reflexivity.
Qed.

Lemma canvas_bound_same :
  forall (pos ext : string) (default : Z) (rooms1 rooms2 : list value),
    Forall2 same_room rooms1 rooms2 ->
    canvas_bound pos ext default (VList rooms1) =
    canvas_bound pos ext default (VList rooms2).
Proof.
  intros pos ext default rooms1 rooms2 H.
  unfold canvas_bound. cbn [py_iter bind].
  fold (room_sums pos ext rooms1). fold (room_sums pos ext rooms2).
  rewrite (room_sums_same pos ext _ _ H).
  destruct H; reflexivity.
Qed.

(** C4.  The drawing is a function of the layout alone: two invocations
    of [generate_svg_from_layout] on the same layout, which is to say on
    one value or on dicts that hold the same fields, in whatever order
    their keys were inserted, end the same way, with the same string byte
    for byte (or with the same exception). *)
Theorem render_deterministic :
  forall layout1 layout2 : value,
    same_layout layout1 layout2 ->
    generate_svg_from_layout layout1 = generate_svg_from_layout layout2.
Proof.
  intros layout1 layout2 [v | d1 d2 rooms1 rooms2 _ H1 H2 Hrooms]; [reflexivity|].
  unfold generate_svg_from_layout, svg_parts, py_get, dict_get.
  rewrite H1, H2. cbn [bind py_iter].
  rewrite (canvas_bound_same "x" "width" 20 _ _ Hrooms),
          (canvas_bound_same "y" "height" 15 _ _ Hrooms),
          (rooms_parts_same _ _ Hrooms 0).
  reflexivity.
Qed.

(** [same_keys]: decides the equality of two look-ups in explicit dicts,
    key by key. *)
Ltac same_keys k :=
  cbn [dict_lookup rev app room_dict];
  repeat match goal with
         | |- context [String.eqb ?a k] =>
             destruct (String.eqb_spec a k);
             [subst k; solve [reflexivity | contradiction]|]
         end;
  reflexivity.

(** The sample layout and its reordered form are drawn alike. *)
Lemma render_deterministic_witness :
  generate_svg_from_layout sample_layout =
  generate_svg_from_layout sample_layout_reordered.
Proof.
  apply (render_deterministic sample_layout sample_layout_reordered).
  apply (same_layout_fields _ _
           [ VDict (room_dict "Living Room" 0 0 5 6 30);
             VDict (room_dict "Bedroom 1" 5 0 4 3 12) ]
           [ VDict (rev (room_dict "Living Room" 0 0 5 6 30));
             VDict (room_dict "Bedroom 1" 5 0 4 3 12) ]).
  - intros k Hk. same_keys k.
  - reflexivity.
  - reflexivity.
  - constructor; [|constructor; [|constructor]].
    + apply same_room_fields. intros k. same_keys k.
    + apply same_room_value.
Defined.

(* ================================================================== *)
(** * Properties of the cleaning of fenced texts *)
(* ================================================================== *)

Lemma str_app_assoc :
  forall s t u : string, (s ++ t) ++ u = s ++ (t ++ u).
Proof.
  induction s as [|c s IH]; intros t u; [reflexivity|].
  cbn [append]. rewrite IH. reflexivity.
Qed.

(** ** Prefixes and occurrences *)

Lemma startswith_self_app :
  forall sep rest : string, startswith sep (sep ++ rest) = true.
Proof.
  induction sep as [|c sep IH]; intros rest; [reflexivity|].
  cbn [append startswith]. rewrite Ascii.eqb_refl, IH. reflexivity.
Qed.

(** A text that ends before a character foreign to [w] starts with [w]
    only if it does so before that character. *)
Lemma startswith_app_absent :
  forall (w u : string) (c : ascii) (t : string),
    absent c w = true ->
    startswith w (u ++ String c t) = startswith w u.
Proof.
  induction w as [|a w IH]; intros u c t Habs; [destruct u; reflexivity|].
  cbn [absent] in Habs. apply andb_prop in Habs. destruct Habs as [Hac Hw].
  destruct u as [|b u]; cbn [append startswith].
  - apply negb_true_iff in Hac. rewrite Hac. reflexivity.
  - rewrite (IH u c t Hw). reflexivity.
Qed.

Lemma contains_app_absent :
  forall (w u : string) (c : ascii) (t : string),
    absent c w = true ->
    w <> EmptyString ->
    contains w (u ++ String c t) = contains w u || contains w (String c t).
Proof.
  intros w u c t Habs Hne.
  induction u as [|b u IH].
  - destruct w; [contradiction|]. reflexivity.
  - change ((String b u ++ String c t)) with (String b (u ++ String c t)).
    cbn [contains].
    change (String b (u ++ String c t)) with (String b u ++ String c t).
    rewrite (startswith_app_absent w (String b u) c t Habs), IH.
    rewrite orb_assoc. reflexivity.
Qed.

Lemma contains_of_startswith :
  forall sub s : string, startswith sub s = true -> contains sub s = true.
Proof.
  intros sub s H. destruct s; cbn [contains]; rewrite H; reflexivity.
Qed.

Lemma startswith_app_l :
  forall p w s : string, startswith (p ++ w) s = true -> startswith p s = true.
Proof.
  induction p as [|a p IH]; intros w s H; [reflexivity|].
  destruct s as [|b s]; cbn [append startswith] in H |- *; [discriminate|].
  apply andb_prop in H. destruct H as [Hab Hrest].
  rewrite Hab, (IH w s Hrest). reflexivity.
Qed.

Lemma startswith_json_fence :
  forall s : string, startswith json_fence s = true -> startswith fence s = true.
Proof.
  intros s H. apply (startswith_app_l fence "json" s). exact H.
Qed.

Lemma no_fence_no_json_fence :
  forall s : string, contains fence s = false -> contains json_fence s = false.
Proof.
  induction s as [|c s IH]; intros H.
  - reflexivity.
  - cbn [contains] in H |- *. apply orb_false_elim in H. destruct H as [Hs Hc].
    rewrite (IH Hc), orb_false_r.
    destruct (startswith json_fence (String c s)) eqn:E; [|reflexivity].
    rewrite (startswith_json_fence _ E) in Hs. discriminate.
Qed.

(** ** Splitting *)

Lemma split_from_no_sep :
  forall sep s : string, contains sep s = false -> split_from sep 0 s = [s].
Proof.
  intros sep. induction s as [|c s IH]; intros H; [reflexivity|].
  cbn [contains] in H. apply orb_false_elim in H. destruct H as [Hs Hc].
  cbn [split_from]. rewrite Hs, (IH Hc). reflexivity.
Qed.

Lemma split_from_skip :
  forall (sep u rest : string),
    split_from sep (String.length u) (u ++ rest) =
      match rest with
      | EmptyString => [EmptyString]
      | _ => split_from sep 0 rest
      end.
Proof.
  intros sep. induction u as [|c u IH]; intros rest.
  - destruct rest; reflexivity.
  - cbn [String.length append split_from]. apply IH.
Qed.

(** The text behind a leading separator is split on its own. *)
Lemma split_after_sep :
  forall (c : ascii) (sep rest : string),
    rest <> EmptyString ->
    split (String c sep) (String c sep ++ rest) =
      EmptyString :: split (String c sep) rest.
Proof.
  intros c sep rest Hne. unfold split.
  change (String c sep ++ rest) with (String c (sep ++ rest)).
  cbn [split_from].
  change (String c (sep ++ rest)) with (String c sep ++ rest).
  rewrite startswith_self_app.
  cbn [String.length Nat.pred]. rewrite split_from_skip.
  destruct rest; [contradiction | reflexivity].
Qed.

(** The first piece is what stands before the first separator. *)
Lemma split_from_head :
  forall (sep a rest : string),
    no_match_before sep a rest = true ->
    startswith sep rest = true ->
    rest <> EmptyString ->
    exists pieces : list string, split_from sep 0 (a ++ rest) = a :: pieces.
Proof.
  intros sep a rest. induction a as [|c a IH]; intros Hno Hstart Hne.
  - destruct rest as [|r rest]; [contradiction|].
    cbn [append split_from]. rewrite Hstart. eauto.
  - cbn [no_match_before] in Hno. apply andb_prop in Hno. destruct Hno as [Hc Ha].
    apply negb_true_iff in Hc.
    change (String c a ++ rest) with (String c (a ++ rest)) in *.
    cbn [split_from]. rewrite Hc.
    destruct (IH Ha Hstart Hne) as [pieces ->]. eauto.
Qed.

(** ** Stripping *)

Lemma find_ext_in :
  forall (A : Type) (f g : A -> bool) (l : list A),
    (forall x : A, In x l -> f x = g x) -> find f l = find g l.
Proof.
  intros A f g. induction l as [|x l IH]; intros H; [reflexivity|].
  cbn [find]. rewrite (H x (or_introl eq_refl)), IH; [reflexivity|].
  intros y Hy. apply H. right. exact Hy.
Qed.

Lemma newline_absent_from_spaces :
  forall w : string, In w unicode_spaces -> absent (ascii_of_N 10) w = true.
Proof.
  intros w Hin.
  assert (Hall : forallb (absent (ascii_of_N 10)) unicode_spaces = true)
    by (vm_compute; reflexivity).
  rewrite forallb_forall in Hall. apply Hall. exact Hin.
Qed.

Lemma space_prefix_app_newline :
  forall (c : ascii) (u t : string),
    space_prefix (String c u ++ String (ascii_of_N 10) t) = space_prefix (String c u).
Proof.
  intros c u t. unfold space_prefix. cbn [append].
  destruct (is_space_ascii c); [reflexivity|].
  rewrite (find_ext_in _ (fun w => startswith w (String c (u ++ String (ascii_of_N 10) t)))
             (fun w => startswith w (String c u))); [reflexivity|].
  intros w Hin.
  apply (startswith_app_absent w (String c u) (ascii_of_N 10) t).
  apply newline_absent_from_spaces. exact Hin.
Qed.

Lemma lstrip_from_app_newline :
  forall (u : string) (k : nat),
    lstrip_from k (u ++ newline) =
      match lstrip_from k u with
      | EmptyString => EmptyString
      | s => s ++ newline
      end.
Proof.
  induction u as [|c u IH]; intros k.
  - destruct k; reflexivity.
  - change (String c u ++ newline) with (String c (u ++ newline)).
    cbn [lstrip_from]. destruct k as [|k]; [|apply IH].
    change (String c (u ++ newline)) with (String c u ++ newline).
    unfold newline at 1. rewrite space_prefix_app_newline.
    destruct (space_prefix (String c u)); [reflexivity | apply IH].
Qed.

Lemma lstrip_newline : forall s : string, lstrip (newline ++ s) = lstrip s.
Proof. reflexivity. Qed.

Lemma rstrip_app_newline : forall s : string, rstrip (s ++ newline) = rstrip s.
Proof.
  induction s as [|c s IH]; [reflexivity|].
  change (String c s ++ newline) with (String c (s ++ newline)).
  cbn [rstrip].
  change (String c (s ++ newline)) with (String c s ++ newline).
  unfold lstrip. rewrite lstrip_from_app_newline, IH.
  destruct (lstrip_from 0 (String c s)); reflexivity.
Qed.

Lemma strip_between_newlines :
  forall p : string, strip (newline ++ p ++ newline) = strip p.
Proof.
  intros p. unfold strip. rewrite lstrip_newline.
  unfold lstrip. rewrite lstrip_from_app_newline.
  destruct (lstrip_from 0 p) as [|c s] eqn:E; [reflexivity|].
  apply rstrip_app_newline.
Qed.

(** ** The two fenced forms *)

Lemma no_match_before_fence :
  forall p : string,
    contains fence p = false ->
    no_match_before fence (newline ++ p ++ newline) fence = true.
Proof.
  intros p H. change (newline ++ p ++ newline) with (String (ascii_of_N 10) (p ++ newline)).
  cbn [no_match_before]. apply andb_true_intro. split; [reflexivity|].
  induction p as [|c p IH]; [reflexivity|].
  cbn [contains] in H. apply orb_false_elim in H. destruct H as [Hs Hc].
  change (String c p ++ newline) with (String c (p ++ newline)).
  cbn [no_match_before]. rewrite (IH Hc), andb_true_r.
  change (String c (p ++ newline)) with (String c p ++ newline).
  rewrite str_app_assoc. unfold newline at 1. cbn [append].
  change (String c (p ++ String (ascii_of_N 10) fence))
    with (String c p ++ String (ascii_of_N 10) fence).
  rewrite (startswith_app_absent fence (String c p) (ascii_of_N 10) fence eq_refl), Hs.
  reflexivity.
Qed.

Lemma contains_fence_body :
  forall (sep p : string),
    absent (ascii_of_N 10) sep = true ->
    sep <> EmptyString ->
    contains sep p = false ->
    contains sep (newline ++ p ++ newline ++ fence) =
      startswith sep (newline ++ p ++ newline ++ fence) || contains sep (newline ++ fence).
Proof.
  intros sep p Habs Hne Hp.
  change (newline ++ p ++ newline ++ fence)
    with (String (ascii_of_N 10) (p ++ String (ascii_of_N 10) fence)).
  cbn [contains]. rewrite (contains_app_absent sep p _ fence Habs Hne), Hp.
  reflexivity.
Qed.

(** What is cleaned out of a fenced payload that holds no fence itself:
    the payload, stripped. *)
Lemma clean_fenced_json :
  forall p : string,
    contains fence p = false ->
    clean_markdown (fenced_json p) = Ok (strip p).
Proof.
  intros p Hp.
  assert (Hbody : contains json_fence (newline ++ p ++ newline ++ fence) = false).
  { rewrite (contains_fence_body json_fence p eq_refl ltac:(discriminate)
               (no_fence_no_json_fence _ Hp)).
    reflexivity. }
  unfold clean_markdown, fenced_json.
  rewrite (contains_of_startswith _ _ (startswith_self_app json_fence _)).
  unfold json_fence at 1 2.
  rewrite split_after_sep by discriminate.
  unfold split. fold json_fence. rewrite (split_from_no_sep _ _ Hbody).
  cbn [list_index nth_error bind].
  destruct (split_from_head fence (newline ++ p ++ newline) fence
              (no_match_before_fence p Hp) eq_refl ltac:(discriminate)) as [pieces Hsplit].
  rewrite !str_app_assoc in Hsplit. unfold split. rewrite Hsplit.
  cbn [list_index nth_error bind].
  rewrite strip_between_newlines. reflexivity.
Qed.

Lemma clean_fenced_bare :
  forall p : string,
    contains fence p = false ->
    clean_markdown (fenced_bare p) = Ok (strip p).
Proof.
  intros p Hp.
  assert (Hjson : contains json_fence (fenced_bare p) = false).
  { unfold fenced_bare, fence at 1.
    cbn [append contains].
    change (String (ascii_of_N 10) (p ++ newline ++ fence))
      with (newline ++ p ++ newline ++ fence).
    rewrite (contains_fence_body json_fence p eq_refl ltac:(discriminate)
               (no_fence_no_json_fence _ Hp)).
    reflexivity. }
  destruct (split_from_head fence (newline ++ p ++ newline) fence
              (no_match_before_fence p Hp) eq_refl ltac:(discriminate)) as [pieces Hsplit].
  rewrite !str_app_assoc in Hsplit.
  assert (Hinner : contains fence (newline ++ p ++ newline) = false).
  { change (newline ++ p ++ newline) with (String (ascii_of_N 10) (p ++ newline)).
    cbn [contains]. unfold newline.
    rewrite (contains_app_absent fence p (ascii_of_N 10) EmptyString eq_refl
               ltac:(discriminate)), Hp.
    reflexivity. }
  unfold clean_markdown. rewrite Hjson.
  unfold fenced_bare.
  rewrite (contains_of_startswith _ _ (startswith_self_app fence _)).
  unfold fence at 1 2.
  rewrite split_after_sep by discriminate.
  unfold split. fold fence. rewrite Hsplit.
  cbn [list_index nth_error bind].
  rewrite (split_from_no_sep _ _ Hinner).
  cbn [list_index nth_error bind].
  rewrite strip_between_newlines. reflexivity.
Qed.

Lemma clean_unfenced :
  forall p : string, contains fence p = false -> clean_markdown p = Ok p.
Proof.
  intros p Hp. unfold clean_markdown.
  rewrite (no_fence_no_json_fence _ Hp), Hp. reflexivity.
Qed.

(** C5 (as amended).  For every payload that holds no fence of its own,
    the text of the payload between a [```json] line and a [```] line,
    and between two [```] lines, is decoded as [json.loads] decodes the
    payload stripped of the white space around it, whereas the payload
    left unwrapped is decoded as it stands. *)
Theorem fenced_payload_decodes_stripped :
  forall payload : string,
    contains fence payload = false ->
    parse_response (fenced_json payload) = Json.loads (strip payload) /\
    parse_response (fenced_bare payload) = Json.loads (strip payload) /\
    parse_response payload = Json.loads payload.
Proof.
  intros payload Hp. unfold parse_response.
  rewrite (clean_fenced_json _ Hp), (clean_fenced_bare _ Hp), (clean_unfenced _ Hp).
  repeat split.
Qed.

(** An object with an empty list of layouts, fenced and not. *)
Lemma fenced_payload_decodes_stripped_witness :
  parse_response (fenced_json (q "{'layouts': []}")) =
    Json.loads (strip (q "{'layouts': []}")) /\
  parse_response (fenced_bare (q "{'layouts': []}")) =
    Json.loads (strip (q "{'layouts': []}")) /\
  parse_response (q "{'layouts': []}") = Json.loads (q "{'layouts': []}").
Proof.
  apply (fenced_payload_decodes_stripped (q "{'layouts': []}")).
  vm_compute. reflexivity.
Defined.

(** What the two sample payloads decode to, fenced and not. *)
Lemma sample_payloads_decoded :
  (parse_response (fenced_json payload_with_fence) = Raise JSONDecodeError /\
   parse_response payload_with_fence = Ok (VInt 1) /\
   Json.loads payload_with_fence =
     Ok (VDict [("layouts", VList []); ("note", VStr "```1```")])) /\
  (parse_response (fenced_json payload_with_form_feed) = Ok (VDict []) /\
   parse_response (fenced_bare payload_with_form_feed) = Ok (VDict []) /\
   parse_response payload_with_form_feed = Raise JSONDecodeError).
Proof. vm_compute. repeat split. Qed.

(** C5 (as stated) fails.  A JSON text with a fence inside one of its
    strings is cut at that fence when it is wrapped, and its inside is
    taken for the payload when it is not; and a JSON text behind a form
    feed, which [strip] removes and [json.loads] does not skip, is
    decoded when it is wrapped and refused when it is not. *)
Lemma fenced_payload_decodes_differently :
  parse_response (fenced_json payload_with_fence) <> parse_response payload_with_fence /\
  parse_response (fenced_json payload_with_fence) <> Json.loads payload_with_fence /\
  parse_response (fenced_json payload_with_form_feed)
    <> parse_response payload_with_form_feed /\
  parse_response (fenced_bare payload_with_form_feed)
    <> parse_response payload_with_form_feed.
Proof.
  destruct sample_payloads_decoded as [(H1 & H2 & H3) (H4 & H5 & H6)].
  rewrite H1, H2, H3, H4, H5, H6. repeat split; discriminate.
Qed.

(** Without white space around it, a payload that holds no fence is
    decoded alike, fenced or not. *)
Lemma fenced_payload_round_trip :
  forall payload : string,
    contains fence payload = false ->
    strip payload = payload ->
    parse_response (fenced_json payload) = parse_response payload /\
    parse_response (fenced_bare payload) = parse_response payload.
Proof.
  intros payload Hp Hs. unfold parse_response.
  rewrite (clean_fenced_json _ Hp), (clean_fenced_bare _ Hp), (clean_unfenced _ Hp), Hs.
  split; reflexivity.
Qed.

(* ================================================================== *)
(** * Comprehensions that can raise *)
(* ================================================================== *)

Lemma mapM_Forall2 :
  forall (A B : Type) (f : A -> result B) (xs : list A) (ys : list B),
    mapM f xs = Ok ys -> Forall2 (fun x y => f x = Ok y) xs ys.
Proof.
  intros A B f. induction xs as [|x xs IH]; intros ys H; cbn [mapM] in H.
  - injection H as <-. constructor.
  - run_bind H. run_bind H. injection H as <-.
    constructor; [exact E | apply IH; reflexivity].
Qed.

Lemma mapM_length :
  forall (A B : Type) (f : A -> result B) (xs : list A) (ys : list B),
    mapM f xs = Ok ys -> List.length ys = List.length xs.
Proof.
  intros A B f xs ys H. symmetry.
  exact (Forall2_length (mapM_Forall2 _ _ _ _ _ H)).
Qed.

Lemma Forall2_nth_error :
  forall (A B : Type) (R : A -> B -> Prop) (xs : list A) (ys : list B) (N : nat) (x : A),
    Forall2 R xs ys -> nth_error xs N = Some x ->
    exists y : B, nth_error ys N = Some y /\ R x y.
Proof.
  intros A B R xs ys N x H. revert N.
  induction H as [|x0 y0 xs ys Hxy H IH]; intros N Hx.
  - destruct N; discriminate Hx.
  - destruct N as [|N]; cbn [nth_error] in *.
    + injection Hx as <-. eauto.
    + exact (IH _ Hx).
Qed.

Lemma mapM_fails :
  forall (A B : Type) (f : A -> result B) (xs : list A) (x : A),
    In x xs -> failed (f x) -> failed (mapM f xs).
Proof.
  intros A B f xs x Hin Hx.
  destruct (mapM f xs) as [ys|e] eqn:H; [|exists e; reflexivity].
  destruct (In_nth_error _ _ Hin) as [N HN].
  destruct (Forall2_nth_error _ _ _ _ _ _ _ (mapM_Forall2 _ _ _ _ _ H) HN) as (y & _ & Hy).
  destruct Hx as [e He]. congruence.
Qed.

Lemma mapM_ext :
  forall (A B : Type) (f g : A -> result B) (xs : list A),
    (forall x : A, f x = g x) -> mapM f xs = mapM g xs.
Proof.
  intros A B f g xs H. induction xs as [|x xs IH]; [reflexivity|].
  cbn [mapM]. rewrite H, IH. reflexivity.
Qed.

(* ================================================================== *)
(** * More on the evaluator and the estimator *)
(* ================================================================== *)

(** What the loop over the rooms appends for one room. *)
Lemma room_check_finding :
  forall (room : dict) (finding : ComplianceCheck.t),
    room_check room = Ok finding ->
    ComplianceCheck.category finding = "regulatory" /\
    ((small_bedroom room /\ ComplianceCheck.status finding = "failed") \/
     (~ small_bedroom room /\ ComplianceCheck.status finding = "passed")).
Proof.
  intros room finding H. unfold room_check, dict_getitem in H.
  destruct (dict_lookup "name" room) as [name|] eqn:Hname; [|discriminate H].
  cbn [bind] in H.
  destruct name as [| | | |s| |]; try discriminate H.
  cbn [py_lower bind py_str] in H.
  assert (Hcalled : room_called "bedroom" room = contains "bedroom" (lower s))
    by (unfold room_called; rewrite Hname; reflexivity).
  destruct (dict_lookup "area" room) as [area|] eqn:Harea.
  - destruct (contains "bedroom" (lower s)) eqn:Hb.
    + cbn [bind] in H.
      destruct (py_lt area (VInt 9)) as [[|]|] eqn:Hlt; [| |discriminate H];
        cbn [bind] in H; run_bind H; injection H as <-;
        (split; [reflexivity|]).
      * left. split; [|reflexivity]. split; [exact Hcalled|]. eauto.
      * right. split; [|reflexivity].
        intros [_ (area' & Ha & Hl)]. congruence.
    + cbn [bind] in H. run_bind H. injection H as <-.
      split; [reflexivity|]. right. split; [|reflexivity].
      intros [Hc _]. congruence.
  - destruct (contains "bedroom" (lower s)); cbn [bind] in H; discriminate H.
Qed.

(** The findings of the cultural category. *)
Lemma kitchen_rooms_filter :
  forall (rooms ks : list dict),
    kitchen_rooms rooms = Ok ks -> ks = filter (room_called "kitchen") rooms.
Proof.
  induction rooms as [|r rest IH]; intros ks H; cbn [kitchen_rooms] in H.
  - injection H as <-. reflexivity.
  - unfold dict_getitem in H.
    destruct (dict_lookup "name" r) as [name|] eqn:Hname; [|discriminate H].
    cbn [bind] in H.
    destruct name as [| | | |s| |]; try discriminate H.
    cbn [py_lower bind] in H. run_bind H. injection H as <-.
    cbn [filter]. unfold room_called at 1. rewrite Hname.
    rewrite (IH _ eq_refl). reflexivity.
Qed.

Lemma filter_nil_existsb :
  forall (A : Type) (p : A -> bool) (xs : list A),
    match filter p xs with [] => existsb p xs = false | _ => existsb p xs = true end.
Proof.
  intros A p. induction xs as [|x xs IH]; [reflexivity|].
  cbn [filter existsb]. destruct (p x); [reflexivity|exact IH].
Qed.

Lemma cultural_checks_findings :
  forall (config : ProjectConfig.t) (plan : FloorPlanData.t)
         (cultural : list ComplianceCheck.t),
    cultural_checks config plan = Ok cultural ->
    cultural =
      if vastu_requested config
      then ((if existsb (room_called "kitchen") (FloorPlanData.rooms plan)
             then [kitchen_finding] else []) ++ [entrance_finding])%list
      else [].
Proof.
  intros config plan cultural H.
  unfold cultural_checks in H. unfold vastu_requested, cultural_type.
  destruct (ProjectConfig.culturalParams config) as [params|];
    [|injection H as <-; reflexivity].
  destruct (CulturalParameters.type params) as [ctype|];
    [|injection H as <-; reflexivity].
  destruct (ctype =? EmptyString)%string eqn:Hempty.
  - apply String.eqb_eq in Hempty. subst ctype. injection H as <-. reflexivity.
  - destruct (contains "vastu" (lower ctype)); [|injection H as <-; reflexivity].
    run_bind H. injection H as <-.
    rewrite (kitchen_rooms_filter _ _ E).
    pose proof (filter_nil_existsb _ (room_called "kitchen") (FloorPlanData.rooms plan)) as Hk.
    destruct (filter (room_called "kitchen") (FloorPlanData.rooms plan));
      rewrite Hk; reflexivity.
Qed.

(** The findings of a selected layout, taken apart. *)
Lemma check_compliance_parts :
  forall (project : Project.t) (plan : FloorPlanData.t)
         (findings : list ComplianceCheck.t),
    selected_plan project = Ok (Some plan) ->
    check_compliance project = Ok findings ->
    exists room_findings : list ComplianceCheck.t,
      Forall2 (fun room finding => room_check room = Ok finding)
        (FloorPlanData.rooms plan) room_findings /\
      findings =
        (room_findings
           ++ [setbacks_finding
                 (str_or (ProjectConfig.municipalCode (Project.config project)) "General")]
           ++ (if vastu_requested (Project.config project)
               then (if existsb (room_called "kitchen") (FloorPlanData.rooms plan)
                     then [kitchen_finding] else []) ++ [entrance_finding]
               else [])
           ++ [doorway_finding])%list.
Proof.
  intros project plan findings Hsel H.
  rewrite (check_compliance_selected _ _ Hsel) in H.
  run_bind H. run_bind H. injection H as <-.
  exists v. split; [exact (mapM_Forall2 _ _ _ _ _ E)|].
  rewrite (cultural_checks_findings _ _ _ E0), accessibility_check_passed.
  reflexivity.
Qed.

Lemma room_findings_regulatory :
  forall (rooms : list dict) (room_findings : list ComplianceCheck.t),
    Forall2 (fun room finding => room_check room = Ok finding) rooms room_findings ->
    Forall (fun finding => ComplianceCheck.category finding = "regulatory") room_findings.
Proof.
  intros rooms room_findings H. induction H as [|room finding rooms fs Hr H IH].
  - constructor.
  - constructor; [exact (proj1 (room_check_finding _ _ Hr)) | exact IH].
Qed.

(** X1.  The findings [check_compliance] returns for a selected layout
    come in a fixed order: one regulatory finding per room, in the order
    of the rooms; then the finding on setbacks, which names the municipal
    code or [General]; then the cultural findings, at most two, all
    passed; and last, always, the passed finding on the width of the
    doorways. *)
Theorem check_compliance_category_order :
  forall (project : Project.t) (plan : FloorPlanData.t)
         (findings : list ComplianceCheck.t),
    selected_plan project = Ok (Some plan) ->
    check_compliance project = Ok findings ->
    exists room_findings cultural : list ComplianceCheck.t,
      findings =
        (room_findings
           ++ [setbacks_finding
                 (str_or (ProjectConfig.municipalCode (Project.config project)) "General")]
           ++ cultural ++ [doorway_finding])%list /\
      List.length room_findings = List.length (FloorPlanData.rooms plan) /\
      Forall (fun finding => ComplianceCheck.category finding = "regulatory")
        room_findings /\
      Forall (fun finding => ComplianceCheck.category finding = "cultural" /\
                             ComplianceCheck.status finding = "passed") cultural /\
      (List.length cultural <= 2)%nat.
Proof.
  intros project plan findings Hsel H.
  destruct (check_compliance_parts _ _ _ Hsel H) as (room_findings & Hrooms & ->).
  eexists room_findings, _. split; [reflexivity|].
  split; [symmetry; exact (Forall2_length Hrooms)|].
  split; [exact (room_findings_regulatory _ _ Hrooms)|].
  destruct (vastu_requested (Project.config project));
    [destruct (existsb (room_called "kitchen") (FloorPlanData.rooms plan))|];
    cbn [app List.length]; split; try lia; repeat constructor.
Qed.

(** The first layout of the project of three layouts. *)
Lemma check_compliance_category_order_witness :
  exists room_findings cultural : list ComplianceCheck.t,
    [ bedroom_1_finding; living_room_finding; setbacks_finding "IBC";
      entrance_finding; doorway_finding ] =
      (room_findings ++ [setbacks_finding "IBC"] ++ cultural ++ [doorway_finding])%list /\
    List.length room_findings = 2%nat /\
    Forall (fun finding => ComplianceCheck.category finding = "regulatory")
      room_findings /\
    Forall (fun finding => ComplianceCheck.category finding = "cultural" /\
                           ComplianceCheck.status finding = "passed") cultural /\
    (List.length cultural <= 2)%nat.
Proof.
  exact (check_compliance_category_order (three_plans_project 0)
           (plan_with [bedroom_1; living_room] 28%float)
           [ bedroom_1_finding; living_room_finding; setbacks_finding "IBC";
             entrance_finding; doorway_finding ]
           eq_refl ltac:(vm_compute; reflexivity)).
Defined.

(** X2.  Room by room: the finding at the position of a room is the
    failed one exactly when the room is a bedroom, by a name that holds
    [bedroom] in whatever case, with an area below 9; it is the passed
    one for every other room. *)
Theorem bedroom_rule_room_by_room :
  forall (project : Project.t) (plan : FloorPlanData.t)
         (findings : list ComplianceCheck.t) (N : nat) (room : dict),
    selected_plan project = Ok (Some plan) ->
    check_compliance project = Ok findings ->
    nth_error (FloorPlanData.rooms plan) N = Some room ->
    exists finding : ComplianceCheck.t,
      nth_error findings N = Some finding /\
      ComplianceCheck.category finding = "regulatory" /\
      (ComplianceCheck.status finding = "failed" <-> small_bedroom room) /\
      (ComplianceCheck.status finding = "passed" <-> ~ small_bedroom room).
Proof.
  intros project plan findings N room Hsel H Hroom.
  destruct (check_compliance_parts _ _ _ Hsel H) as (room_findings & Hrooms & ->).
  destruct (Forall2_nth_error _ _ _ _ _ _ _ Hrooms Hroom) as (finding & Hnth & Hcheck).
  exists finding. split.
  - rewrite nth_error_app1; [exact Hnth|].
    apply nth_error_Some. rewrite Hnth. discriminate.
  - destruct (room_check_finding _ _ Hcheck) as [Hcat [[Hsmall Hst] | [Hsmall Hst]]];
      (split; [exact Hcat|]); rewrite Hst; split; split; intros H0;
      try assumption; try reflexivity; try discriminate H0; contradiction.
Qed.

(** The small bedroom of the first layout of the project of three
    layouts. *)
Lemma bedroom_rule_room_by_room_witness :
  exists finding : ComplianceCheck.t,
    nth_error [ bedroom_1_finding; living_room_finding; setbacks_finding "IBC";
                entrance_finding; doorway_finding ] 0 = Some finding /\
    ComplianceCheck.category finding = "regulatory" /\
    (ComplianceCheck.status finding = "failed" <-> small_bedroom bedroom_1) /\
    (ComplianceCheck.status finding = "passed" <-> ~ small_bedroom bedroom_1).
Proof.
  exact (bedroom_rule_room_by_room (three_plans_project 0)
           (plan_with [bedroom_1; living_room] 28%float)
           [ bedroom_1_finding; living_room_finding; setbacks_finding "IBC";
             entrance_finding; doorway_finding ]
           0 bedroom_1
           eq_refl ltac:(vm_compute; reflexivity) eq_refl).
Defined.

Lemma filter_other_category :
  forall (findings : list ComplianceCheck.t),
    Forall (fun finding => ComplianceCheck.category finding = "regulatory") findings ->
    filter (in_category "cultural") findings = [].
Proof.
  intros findings H. induction H as [|finding findings Hf H IH]; [reflexivity|].
  cbn [filter]. unfold in_category at 1. rewrite Hf. exact IH.
Qed.

(** X3.  The cultural findings are gated by the cultural type of the
    configuration: when it names Vastu, in whatever case, they are the
    finding on the main entrance, preceded by the finding on the kitchen
    exactly when the name of some room holds [kitchen]; when it names
    anything else, or nothing, there is none. *)
Theorem cultural_findings_gated :
  forall (project : Project.t) (plan : FloorPlanData.t)
         (findings : list ComplianceCheck.t),
    selected_plan project = Ok (Some plan) ->
    check_compliance project = Ok findings ->
    filter (in_category "cultural") findings =
      if vastu_requested (Project.config project)
      then ((if existsb (room_called "kitchen") (FloorPlanData.rooms plan)
             then [kitchen_finding] else []) ++ [entrance_finding])%list
      else [].
Proof.
  intros project plan findings Hsel H.
  destruct (check_compliance_parts _ _ _ Hsel H) as (room_findings & Hrooms & ->).
  rewrite filter_app, (filter_other_category _ (room_findings_regulatory _ _ Hrooms)).
  destruct (vastu_requested (Project.config project));
    [destruct (existsb (room_called "kitchen") (FloorPlanData.rooms plan))|];
    reflexivity.
Qed.

(** The second layout of the project of three layouts, which has a
    kitchen. *)
Lemma cultural_findings_gated_witness :
  filter (in_category "cultural")
    [ {| ComplianceCheck.category := "regulatory";
         ComplianceCheck.rule := "Minimum Room Size";
         ComplianceCheck.status := "passed";
         ComplianceCheck.message := "Living Room meets size requirements (20.0m²)";
         ComplianceCheck.suggestion := None |};
      {| ComplianceCheck.category := "regulatory";
         ComplianceCheck.rule := "Minimum Room Size";
         ComplianceCheck.status := "passed";
         ComplianceCheck.message := "Open KITCHEN meets size requirements (12.0m²)";
         ComplianceCheck.suggestion := None |};
      setbacks_finding "IBC"; kitchen_finding; entrance_finding; doorway_finding ]
  = [kitchen_finding; entrance_finding].
Proof.
  exact (cultural_findings_gated (three_plans_project 1)
           (plan_with [living_room; kitchen] 32%float) _
           eq_refl ltac:(vm_compute; reflexivity)).
Defined.

Lemma list_getitem_out_of_range :
  forall (A : Type) (xs : list A) (i : Z),
    i < - Z.of_nat (List.length xs) \/ Z.of_nat (List.length xs) <= i ->
    list_getitem xs i = Raise IndexError.
Proof.
  intros A xs i Hi. unfold list_getitem.
  destruct (Z.ltb_spec i 0) as [Hneg|Hpos].
  - replace (0 <=? i + Z.of_nat (List.length xs)) with false by (symmetry; apply Z.leb_gt; lia).
    reflexivity.
  - replace (i <? Z.of_nat (List.length xs)) with false by (symmetry; apply Z.ltb_ge; lia).
    rewrite andb_false_r. reflexivity.
Qed.

(** X4.  A selected index outside the layouts of a project that has
    some, at or beyond their number or below its negative, makes both
    [check_compliance] and [estimate_materials] raise [IndexError]. *)
Theorem selection_out_of_range_raises :
  forall project : Project.t,
    Project.floorPlans project <> [] ->
    Project.selectedPlanIndex project
      < - Z.of_nat (List.length (Project.floorPlans project)) \/
    Z.of_nat (List.length (Project.floorPlans project))
      <= Project.selectedPlanIndex project ->
    check_compliance project = Raise IndexError /\
    estimate_materials project = Raise IndexError.
Proof.
  intros project Hne Hi.
  unfold check_compliance, selected_plan, estimate_materials.
  destruct (Project.floorPlans project) as [|p ps] eqn:Hplans; [contradiction|].
  rewrite (list_getitem_out_of_range _ _ _ Hi). split; reflexivity.
Qed.

(** The index 3 on the project of three layouts. *)
Lemma selection_out_of_range_raises_witness :
  check_compliance (three_plans_project 3) = Raise IndexError /\
  estimate_materials (three_plans_project 3) = Raise IndexError.
Proof.
  apply (selection_out_of_range_raises (three_plans_project 3)).
  - discriminate.
  - right. simpl. lia.
Defined.

Lemma list_getitem_negative :
  forall (A : Type) (xs : list A) (i : Z),
    - Z.of_nat (List.length xs) <= i < 0 ->
    list_getitem xs i = list_getitem xs (i + Z.of_nat (List.length xs)).
Proof.
  intros A xs i Hi. unfold list_getitem.
  replace (i <? 0) with true by (symmetry; apply Z.ltb_lt; lia).
  replace (i + Z.of_nat (List.length xs) <? 0) with false
    by (symmetry; apply Z.ltb_ge; lia).
  reflexivity.
Qed.

(** X5.  A negative selected index counts from the end: with an index
    [i] between minus the number of layouts and [-1], both functions do
    what they do with the index [i] plus the number of layouts. *)
Theorem negative_selection_counts_from_the_end :
  forall (project : Project.t) (plan_index : Z),
    - Z.of_nat (List.length (Project.floorPlans project)) <= plan_index < 0 ->
    check_compliance (set_selectedPlanIndex project plan_index) =
      check_compliance
        (set_selectedPlanIndex project
           (plan_index + Z.of_nat (List.length (Project.floorPlans project)))) /\
    estimate_materials (set_selectedPlanIndex project plan_index) =
      estimate_materials
        (set_selectedPlanIndex project
           (plan_index + Z.of_nat (List.length (Project.floorPlans project)))).
Proof.
  intros project plan_index Hi.
  unfold check_compliance, selected_plan, estimate_materials, set_selectedPlanIndex.
  cbn [Project.floorPlans Project.selectedPlanIndex Project.config].
  destruct (Project.floorPlans project) as [|p ps] eqn:Hplans; [split; reflexivity|].
  rewrite (list_getitem_negative _ _ _ Hi). split; reflexivity.
Qed.

(** The index [-1] on the project of three layouts selects the third. *)
Lemma negative_selection_counts_from_the_end_witness :
  check_compliance (set_selectedPlanIndex (three_plans_project 0) (-1)) =
    check_compliance (set_selectedPlanIndex (three_plans_project 0) (-1 + 3)) /\
  estimate_materials (set_selectedPlanIndex (three_plans_project 0) (-1)) =
    estimate_materials (set_selectedPlanIndex (three_plans_project 0) (-1 + 3)).
Proof.
  apply (negative_selection_counts_from_the_end (three_plans_project 0) (-1)).
  simpl. lia.
Defined.

(** What [room_check] reads of a room it has a finding for. *)
Lemma room_check_reads :
  forall (room : dict) (finding : ComplianceCheck.t),
    room_check room = Ok finding ->
    (exists name : string, dict_lookup "name" room = Some (VStr name)) /\
    (exists area : value, dict_lookup "area" room = Some area).
Proof.
  intros room finding H. unfold room_check, dict_getitem in H.
  destruct (dict_lookup "name" room) as [name|] eqn:Hname; [|discriminate H].
  cbn [bind] in H.
  destruct name as [| | | |s| |]; try discriminate H.
  split; [eauto|].
  destruct (dict_lookup "area" room) as [area|] eqn:Harea; [eauto|].
  cbn [py_lower bind py_str] in H.
  destruct (contains "bedroom" (lower s)); cbn [bind] in H; discriminate H.
Qed.

(** X6.  [check_compliance] returns no findings at all for a selected
    layout in which some room has no name or no area: it raises. *)
Theorem room_without_name_or_area_fails_the_check :
  forall (project : Project.t) (plan : FloorPlanData.t) (room : dict),
    selected_plan project = Ok (Some plan) ->
    In room (FloorPlanData.rooms plan) ->
    dict_lookup "name" room = None \/ dict_lookup "area" room = None ->
    failed (check_compliance project).
Proof.
  intros project plan room Hsel Hin Hmissing.
  rewrite (check_compliance_selected _ _ Hsel).
  assert (Hroom : failed (room_check room)).
  { destruct (room_check room) as [finding|e] eqn:Hcheck; [|exists e; reflexivity].
    destruct (room_check_reads _ _ Hcheck) as [[name Hname] [area Harea]].
    destruct Hmissing; congruence. }
  destruct (mapM_fails _ _ _ _ _ Hin Hroom) as [e He].
  exists e. rewrite He. reflexivity.
Qed.

(** A layout whose second room has a name and nothing else. *)
Lemma room_without_name_or_area_fails_the_check_witness :
  failed (check_compliance
            (project_with plain_config
               [plan_with [living_room; room_named "Hall"] 30%float] 0)).
Proof.
  apply (room_without_name_or_area_fails_the_check
           (project_with plain_config
              [plan_with [living_room; room_named "Hall"] 30%float] 0)
           (plan_with [living_room; room_named "Hall"] 30%float)
           (room_named "Hall")).
  - reflexivity.
  - right. left. reflexivity.
  - right. reflexivity.
Defined.

Lemma cultural_checks_vastu :
  forall (config : ProjectConfig.t) (plan : FloorPlanData.t),
    cultural_checks config plan =
      if vastu_requested config
      then ks <- kitchen_rooms (FloorPlanData.rooms plan) ;;
           Ok ((match ks with [] => [] | _ => [kitchen_finding] end)
                 ++ [entrance_finding])%list
      else Ok [].
Proof.
  intros config plan. unfold cultural_checks, vastu_requested, cultural_type.
  destruct (ProjectConfig.culturalParams config) as [params|]; [|reflexivity].
  destruct (CulturalParameters.type params) as [ctype|]; [|reflexivity].
  destruct (ctype =? EmptyString)%string eqn:Hempty; [|reflexivity].
  apply String.eqb_eq in Hempty. subst ctype. reflexivity.
Qed.

(** X7.  Of a project, [check_compliance] reads the rooms of the
    selected layout, the municipal code, an empty one standing for none,
    and whether the cultural type names Vastu; nothing else: not the
    total area or the drawing of the layout, not the required spaces with
    their minimum areas, the adjacency rules or the site.  Two projects
    that agree on the former get the same findings, or the same
    exception. *)
Theorem check_compliance_reads_rooms_code_and_cultural_type :
  forall (p1 p2 : Project.t) (plan1 plan2 : FloorPlanData.t),
    selected_plan p1 = Ok (Some plan1) ->
    selected_plan p2 = Ok (Some plan2) ->
    FloorPlanData.rooms plan1 = FloorPlanData.rooms plan2 ->
    str_or (ProjectConfig.municipalCode (Project.config p1)) "General" =
      str_or (ProjectConfig.municipalCode (Project.config p2)) "General" ->
    vastu_requested (Project.config p1) = vastu_requested (Project.config p2) ->
    check_compliance p1 = check_compliance p2.
Proof.
  intros p1 p2 plan1 plan2 H1 H2 Hrooms Hcode Hvastu.
  rewrite (check_compliance_selected _ _ H1), (check_compliance_selected _ _ H2).
  rewrite !cultural_checks_vastu, Hrooms, Hcode, Hvastu. reflexivity.
Qed.

(** The project of three layouts and another project, of another type,
    with required spaces, whose last layout has the same two rooms. *)
Lemma check_compliance_reads_rooms_code_and_cultural_type_witness :
  check_compliance (three_plans_project 0) = check_compliance other_vastu_project.
Proof.
  apply (check_compliance_reads_rooms_code_and_cultural_type
           (three_plans_project 0) other_vastu_project
           (plan_with [bedroom_1; living_room] 28%float)
           (plan_with [bedroom_1; living_room] 99%float));
    reflexivity.
Defined.

(* ================================================================== *)
(** * More on the renderer *)
(* ================================================================== *)

Lemma py_getitem_lookup :
  forall (d : dict) (k : string) (v : value),
    py_getitem (VDict d) k = Ok v -> dict_lookup k d = Some v.
Proof.
  intros d k v H. unfold py_getitem, dict_getitem in H.
  destruct (dict_lookup k d); [injection H as <-; reflexivity | discriminate H].
Qed.

(** The two labels of a room, and what the loop reads of the room. *)
Lemma room_parts_labels :
  forall (idx : nat) (room : dict) (ps : list string),
    room_parts idx (VDict room) = Ok ps ->
    exists (rect text_x text_y below name area : string) (x y width height n a : value),
      ps = [rect; name_element text_x text_y name; area_element text_x below area] /\
      dict_lookup "x" room = Some x /\ dict_lookup "y" room = Some y /\
      dict_lookup "width" room = Some width /\ dict_lookup "height" room = Some height /\
      dict_lookup "name" room = Some n /\ py_str n = Ok name /\
      dict_get room "area" (VInt 0) = a /\ py_format_1f a = Ok area.
Proof.
  intros idx room ps H. unfold room_parts in H.
  repeat run_bind H. injection H as <-.
  repeat match goal with
         | E : py_getitem (VDict _) _ = Ok _ |- _ => apply py_getitem_lookup in E
         end.
  cbn [py_get] in *.
  match goal with E : Ok (dict_get room "area" (VInt 0)) = Ok _ |- _ =>
    injection E as <- end.
  do 12 eexists. repeat split; eassumption.
Qed.

Lemma room_parts_three :
  forall (idx : nat) (room : value) (ps : list string),
    room_parts idx room = Ok ps ->
    exists x y width height text_x text_y below name area : string,
      ps = [ rect_element x y width height (color_of idx);
             name_element text_x text_y name;
             area_element text_x below area ].
Proof.
  intros idx room ps H. unfold room_parts in H.
  repeat run_bind H. injection H as <-. repeat eexists.
Qed.

Lemma rooms_parts_room :
  forall (rooms : list value) (idx N : nat) (body : list string) (room : value),
    rooms_parts idx rooms = Ok body ->
    nth_error rooms N = Some room ->
    exists a b c : string,
      room_parts (idx + N) room = Ok [a; b; c] /\
      nth_error body (3 * N) = Some a /\
      nth_error body (3 * N + 1) = Some b /\
      nth_error body (3 * N + 2) = Some c.
Proof.
  induction rooms as [|r rest IH]; intros idx N body room H HN.
  - destruct N; discriminate HN.
  - cbn [rooms_parts] in H. run_bind H. run_bind H. injection H as <-.
    destruct (room_parts_shape _ _ _ E) as (x & y & w & h & l1 & l2 & ->).
    destruct N as [|N'].
    + injection HN as <-. rewrite Nat.add_0_r.
      do 3 eexists. split; [exact E|]. repeat split; reflexivity.
    + cbn [nth_error] in HN.
      destruct (IH (S idx) N' _ room E0 HN) as (a & b & c & Hr & Ha & Hb & Hc).
      exists a, b, c.
      replace (idx + S N')%nat with (S idx + N')%nat by lia.
      replace (3 * S N')%nat with (3 + 3 * N')%nat by lia.
      repeat split; assumption.
Qed.

Lemma rooms_parts_length :
  forall (rooms : list value) (idx : nat) (body : list string),
    rooms_parts idx rooms = Ok body ->
    List.length body = (3 * List.length rooms)%nat.
Proof.
  induction rooms as [|r rest IH]; intros idx body H; cbn [rooms_parts] in H.
  - injection H as <-. reflexivity.
  - run_bind H. run_bind H. injection H as <-.
    destruct (room_parts_shape _ _ _ E) as (x & y & w & h & l1 & l2 & ->).
    cbn [app List.length]. rewrite (IH _ _ E0). lia.
Qed.

(** The parts of a room within the parts of the drawing. *)
Lemma svg_parts_room :
  forall (layout : value) (rooms : list value) (parts : list string)
         (N : nat) (room : value),
    py_get layout "rooms" (VList []) = Ok (VList rooms) ->
    svg_parts layout = Ok parts ->
    nth_error rooms N = Some room ->
    exists a b c : string,
      room_parts N room = Ok [a; b; c] /\
      nth_error parts (7 + 3 * N) = Some a /\
      nth_error parts (8 + 3 * N) = Some b /\
      nth_error parts (9 + 3 * N) = Some c.
Proof.
  intros layout rooms parts N room Hget Hparts HN.
  destruct (svg_parts_shape _ _ _ Hget Hparts)
    as (mx & my & sw & sh & w & h & items & body
        & _ & _ & _ & _ & _ & _ & Hiter & Hbody & ->).
  injection Hiter as <-.
  destruct (rooms_parts_room _ 0 N _ _ Hbody HN) as (a & b & c & Hr & Ha & Hb & Hc).
  exists a, b, c. split; [exact Hr|].
  assert (Hat : forall k e, nth_error body k = Some e ->
                 nth_error (svg_head w h ++ body ++ ["</svg>"]) (7 + k) = Some e).
  { intros k e Hk.
    rewrite nth_error_app2 by (rewrite head_length; lia).
    rewrite head_length. replace (7 + k - 7)%nat with k by lia.
    rewrite nth_error_app1; [exact Hk|].
    apply nth_error_Some. rewrite Hk. discriminate. }
  repeat split.
  - exact (Hat _ _ Ha).
  - replace (8 + 3 * N)%nat with (7 + (3 * N + 1))%nat by lia. exact (Hat _ _ Hb).
  - replace (9 + 3 * N)%nat with (7 + (3 * N + 2))%nat by lia. exact (Hat _ _ Hc).
Qed.

(** X8.  The name of a room goes into the drawing as it is: the label
    of room [N], the part at position [8 + 3 N], holds the name between
    its tags character for character, markup included; nothing is
    escaped. *)
Theorem room_name_drawn_verbatim :
  forall (layout : value) (rooms : list value) (parts : list string)
         (N : nat) (room : dict) (name : string),
    py_get layout "rooms" (VList []) = Ok (VList rooms) ->
    svg_parts layout = Ok parts ->
    nth_error rooms N = Some (VDict room) ->
    dict_lookup "name" room = Some (VStr name) ->
    generate_svg_from_layout layout = Ok (join parts) /\
    exists text_x text_y : string,
      nth_error parts (8 + 3 * N) =
        Some (q "<text x='" ++ text_x ++ q "' y='" ++ text_y ++ q "' text-anchor='middle' "
                ++ q "font-family='Arial' font-size='12' font-weight='bold' fill='#212121'>"
                ++ name ++ "</text>").
Proof.
  intros layout rooms parts N room name Hget Hparts HN Hname.
  split; [unfold generate_svg_from_layout; rewrite Hparts; reflexivity|].
  destruct (svg_parts_room _ _ _ _ _ Hget Hparts HN) as (a & b & c & Hr & _ & Hb & _).
  destruct (room_parts_labels _ _ _ Hr)
    as (rect & tx & ty & below & name_s & area_s & x & y & wd & ht & n & ar
        & Hps & _ & _ & _ & _ & Hn & Hstr & _ & _).
  injection Hps as -> -> ->.
  rewrite Hname in Hn. injection Hn as <-. injection Hstr as <-.
  exists tx, ty. exact Hb.
Qed.

(** The second room of the layout with markup in a name. *)
Lemma room_name_drawn_verbatim_witness :
  generate_svg_from_layout marked_up_layout = Ok (join marked_up_parts) /\
  exists text_x text_y : string,
    nth_error marked_up_parts (8 + 3 * 1) =
      Some (q "<text x='" ++ text_x ++ q "' y='" ++ text_y ++ q "' text-anchor='middle' "
              ++ q "font-family='Arial' font-size='12' font-weight='bold' fill='#212121'>"
              ++ "<b>Den</b> & more" ++ "</text>").
Proof.
  apply (room_name_drawn_verbatim marked_up_layout
           [ VDict (room_dict "Living Room" 0 0 5 6 30);
             VDict [ ("name", VStr "<b>Den</b> & more"); ("x", VInt 5); ("y", VInt 0);
                     ("width", VInt 4); ("height", VInt 3) ] ]
           marked_up_parts 1
           [ ("name", VStr "<b>Den</b> & more"); ("x", VInt 5); ("y", VInt 0);
             ("width", VInt 4); ("height", VInt 3) ]).
  - reflexivity.
  - vm_compute. reflexivity.
  - reflexivity.
  - reflexivity.
Defined.

(** X9.  A room with no area is drawn all the same: its second label,
    the part at position [9 + 3 N], gives the area as [0.0].  (The
    evaluator, on the same room, raises.) *)
Theorem room_without_area_drawn_as_zero :
  forall (layout : value) (rooms : list value) (parts : list string)
         (N : nat) (room : dict),
    py_get layout "rooms" (VList []) = Ok (VList rooms) ->
    svg_parts layout = Ok parts ->
    nth_error rooms N = Some (VDict room) ->
    dict_lookup "area" room = None ->
    exists text_x text_y : string,
      nth_error parts (9 + 3 * N) =
        Some (q "<text x='" ++ text_x ++ q "' y='" ++ text_y ++ q "' text-anchor='middle' "
                ++ q "font-family='Arial' font-size='10' fill='#616161'>"
                ++ "0.0" ++ " m²</text>").
Proof.
  intros layout rooms parts N room Hget Hparts HN Harea.
  destruct (svg_parts_room _ _ _ _ _ Hget Hparts HN) as (a & b & c & Hr & _ & _ & Hc).
  destruct (room_parts_labels _ _ _ Hr)
    as (rect & tx & ty & below & name_s & area_s & x & y & wd & ht & n & ar
        & Hps & _ & _ & _ & _ & _ & _ & Ha & Hfmt).
  injection Hps as -> -> ->.
  unfold dict_get in Ha. rewrite Harea in Ha. subst ar.
  vm_compute in Hfmt. injection Hfmt as <-.
  exists tx, below. exact Hc.
Qed.

(** The second room of the layout with markup in a name has no area. *)
Lemma room_without_area_drawn_as_zero_witness :
  exists text_x text_y : string,
    nth_error marked_up_parts (9 + 3 * 1) =
      Some (q "<text x='" ++ text_x ++ q "' y='" ++ text_y ++ q "' text-anchor='middle' "
              ++ q "font-family='Arial' font-size='10' fill='#616161'>"
              ++ "0.0" ++ " m²</text>").
Proof.
  apply (room_without_area_drawn_as_zero marked_up_layout
           [ VDict (room_dict "Living Room" 0 0 5 6 30);
             VDict [ ("name", VStr "<b>Den</b> & more"); ("x", VInt 5); ("y", VInt 0);
                     ("width", VInt 4); ("height", VInt 3) ] ]
           marked_up_parts 1
           [ ("name", VStr "<b>Den</b> & more"); ("x", VInt 5); ("y", VInt 0);
             ("width", VInt 4); ("height", VInt 3) ]).
  - reflexivity.
  - vm_compute. reflexivity.
  - reflexivity.
  - reflexivity.
Defined.

(** X10.  A drawing is made of eight fixed parts and three parts per
    room: the seven parts of the head, then the rectangle and the two
    labels of each room in the order of the rooms, then the closing tag,
    which is the last part. *)
Theorem drawing_has_three_parts_per_room :
  forall (layout : value) (rooms : list value) (parts : list string),
    py_get layout "rooms" (VList []) = Ok (VList rooms) ->
    svg_parts layout = Ok parts ->
    generate_svg_from_layout layout = Ok (join parts) /\
    List.length parts = (8 + 3 * List.length rooms)%nat /\
    nth_error parts (7 + 3 * List.length rooms) = Some "</svg>" /\
    forall N : nat, (N < List.length rooms)%nat ->
      exists (x y width height text_x text_y below name area : string),
        nth_error parts (7 + 3 * N) =
          Some (rect_element x y width height (color_of N)) /\
        nth_error parts (8 + 3 * N) = Some (name_element text_x text_y name) /\
        nth_error parts (9 + 3 * N) = Some (area_element text_x below area).
Proof.
  intros layout rooms parts Hget Hparts.
  split; [unfold generate_svg_from_layout; rewrite Hparts; reflexivity|].
  destruct (svg_parts_shape _ _ _ Hget Hparts)
    as (mx & my & sw & sh & w & h & items & body
        & _ & _ & _ & _ & _ & _ & Hiter & Hbody & Heq).
  injection Hiter as <-.
  pose proof (rooms_parts_length _ _ _ Hbody) as Hlen.
  split; [|split].
  - rewrite Heq, !length_app, head_length, Hlen. cbn [List.length]. lia.
  - rewrite Heq.
    rewrite nth_error_app2 by (rewrite head_length; lia).
    rewrite head_length, nth_error_app2 by lia.
    replace (7 + 3 * List.length rooms - 7 - List.length body)%nat with 0%nat by lia.
    reflexivity.
  - intros N HN.
    destruct (nth_error rooms N) as [room|] eqn:Hroom;
      [|apply nth_error_None in Hroom; lia].
    destruct (svg_parts_room _ _ _ _ _ Hget Hparts Hroom)
      as (a & b & c & Hr & Ha & Hb & Hc).
    destruct (room_parts_three _ _ _ Hr)
      as (x & y & wd & ht & tx & ty & below & name & area & Hps).
    injection Hps as -> -> ->.
    exists x, y, wd, ht, tx, ty, below, name, area.
    repeat split; assumption.
Qed.

(** The drawing of the sample layout of two rooms. *)
Lemma drawing_has_three_parts_per_room_witness :
  generate_svg_from_layout sample_layout = Ok (join sample_parts) /\
  List.length sample_parts = (8 + 3 * 2)%nat /\
  nth_error sample_parts (7 + 3 * 2) = Some "</svg>" /\
  forall N : nat, (N < 2)%nat ->
    exists (x y width height text_x text_y below name area : string),
      nth_error sample_parts (7 + 3 * N) =
        Some (rect_element x y width height (color_of N)) /\
      nth_error sample_parts (8 + 3 * N) = Some (name_element text_x text_y name) /\
      nth_error sample_parts (9 + 3 * N) = Some (area_element text_x below area).
Proof.
  apply (drawing_has_three_parts_per_room sample_layout
           [ VDict (room_dict "Living Room" 0 0 5 6 30);
             VDict (room_dict "Bedroom 1" 5 0 4 3 12) ]
           sample_parts).
  - reflexivity.
  - vm_compute. reflexivity.
Defined.

(** X11.  A room that lacks one of the keys [x], [y], [width], [height]
    and [name] fails the whole drawing: [generate_svg_from_layout]
    raises, whatever the other rooms are. *)
Theorem room_without_geometry_fails_the_drawing :
  forall (layout : value) (rooms : list value) (room : dict) (key : string),
    py_get layout "rooms" (VList []) = Ok (VList rooms) ->
    In (VDict room) rooms ->
    In key ["x"; "y"; "width"; "height"; "name"] ->
    dict_lookup key room = None ->
    failed (generate_svg_from_layout layout).
Proof.
  intros layout rooms room key Hget Hin Hkey Hmissing.
  unfold generate_svg_from_layout.
  destruct (svg_parts layout) as [parts|e] eqn:Hparts; [|exists e; reflexivity].
  exfalso.
  destruct (In_nth_error _ _ Hin) as [N HN].
  destruct (svg_parts_room _ _ _ _ _ Hget Hparts HN) as (a & b & c & Hr & _).
  destruct (room_parts_labels _ _ _ Hr)
    as (rect & tx & ty & below & name_s & area_s & x & y & wd & ht & n & ar
        & _ & Hx & Hy & Hw & Hh & Hn & _).
  cbn [In] in Hkey.
  destruct Hkey as [<-|[<-|[<-|[<-|[<-|[]]]]]]; congruence.
Qed.

(** A layout whose second room has no height. *)
Lemma room_without_geometry_fails_the_drawing_witness :
  failed (generate_svg_from_layout
            (VDict [ ("rooms",
                      VList [ VDict (room_dict "Living Room" 0 0 5 6 30);
                              VDict [ ("name", VStr "Hall"); ("x", VInt 5);
                                      ("y", VInt 0); ("width", VInt 2) ] ]) ])).
Proof.
  apply (room_without_geometry_fails_the_drawing
           (VDict [ ("rooms",
                     VList [ VDict (room_dict "Living Room" 0 0 5 6 30);
                             VDict [ ("name", VStr "Hall"); ("x", VInt 5);
                                     ("y", VInt 0); ("width", VInt 2) ] ]) ])
           [ VDict (room_dict "Living Room" 0 0 5 6 30);
             VDict [ ("name", VStr "Hall"); ("x", VInt 5);
                     ("y", VInt 0); ("width", VInt 2) ] ]
           [ ("name", VStr "Hall"); ("x", VInt 5); ("y", VInt 0); ("width", VInt 2) ]
           "height").
  - reflexivity.
  - right. left. reflexivity.
  - right. right. right. left. reflexivity.
  - reflexivity.
Defined.

Lemma Forall2_In :
  forall (A B : Type) (R : A -> B -> Prop) (xs : list A) (ys : list B) (x : A),
    Forall2 R xs ys -> In x xs -> exists y : B, In y ys /\ R x y.
Proof.
  intros A B R xs ys x H Hin.
  destruct (In_nth_error _ _ Hin) as [N HN].
  destruct (Forall2_nth_error _ _ _ _ _ _ _ H HN) as (y & Hy & HR).
  exists y. split; [exact (nth_error_In _ _ Hy) | exact HR].
Qed.

(** The sums of rooms of integer geometry are integers. *)
Lemma room_sums_int :
  forall (pos ext : string) (rooms : list value),
    Forall (fun room => exists (d : dict) (p e : Z),
              room = VDict d /\ dict_lookup pos d = Some (VInt p) /\
              dict_lookup ext d = Some (VInt e)) rooms ->
    exists zs : list Z,
      room_sums pos ext rooms = Ok (map VInt zs) /\
      Forall2 (fun room z => forall (d : dict) (p e : Z),
                 room = VDict d -> dict_lookup pos d = Some (VInt p) ->
                 dict_lookup ext d = Some (VInt e) -> z = p + e) rooms zs.
Proof.
  intros pos ext rooms H. unfold room_sums.
  induction H as [|room rooms (d & p & e & -> & Hp & He) H (zs & Hsums & Hall)].
  - exists []. split; [reflexivity | constructor].
  - exists (p + e :: zs). split.
    + cbn [mapM map py_getitem]. unfold dict_getitem. rewrite Hp, He.
      cbn [bind py_add as_num num_add]. rewrite Hsums. reflexivity.
    + constructor; [|exact Hall].
      intros d' p' e' Hd Hp' He'. injection Hd as <-. congruence.
Qed.

Lemma greatest_above :
  forall (zs : list Z) (z v : Z), In v (z :: zs) -> v <= greatest z zs.
Proof.
  intros zs z v [<-|Hin].
  - exact (proj1 (greatest_bounds zs z)).
  - pose proof (proj2 (greatest_bounds zs z)) as Hall.
    rewrite Forall_forall in Hall. exact (Hall _ Hin).
Qed.

(** X12.  When every room has integer geometry, the canvas the drawing
    declares reaches beyond every room: the rectangle of a room, which
    starts at [x * 40 + 50] and is [width * 40] wide, ends at least 50
    short of the declared width, and likewise downwards for the declared
    height. *)
Theorem canvas_encloses_integer_rooms :
  forall (layout : value) (rooms : list value) (svg : string),
    py_get layout "rooms" (VList []) = Ok (VList rooms) ->
    rooms <> [] ->
    Forall (fun room => exists x y width height : Z,
              int_geometry room x y width height) rooms ->
    generate_svg_from_layout layout = Ok svg ->
    exists (W H : Z) (rest : string),
      svg = canvas_tag (decimal W) (decimal H) ++ rest /\
      forall (room : value) (x y width height : Z),
        In room rooms -> int_geometry room x y width height ->
        far_edge x width + 50 <= W /\ far_edge y height + 50 <= H.
Proof.
  intros layout rooms svg Hget Hne Hint Hsvg.
  destruct (room_sums_int "x" "width" rooms) as (xs & Hxs & Hallx).
  { eapply Forall_impl; [|exact Hint].
    intros room (x & y & w & h & d & -> & Hx & _ & Hw & _). eauto 8. }
  destruct (room_sums_int "y" "height" rooms) as (ys & Hys & Hally).
  { eapply Forall_impl; [|exact Hint].
    intros room (x & y & w & h & d & -> & _ & Hy & _ & Hh). eauto 8. }
  destruct xs as [|x0 xs];
    [apply Forall2_length in Hallx; destruct rooms; [contradiction|discriminate]|].
  destruct ys as [|y0 ys];
    [apply Forall2_length in Hally; destruct rooms; [contradiction|discriminate]|].
  destruct (canvas_size_integer_sums _ _ _ _ _ _ _ Hget Hxs Hys Hsvg) as [rest ->].
  exists (greatest x0 xs * 40 + 100), (greatest y0 ys * 40 + 100), rest.
  split; [reflexivity|].
  intros room x y w h Hin (d & -> & Hx & Hy & Hw & Hh).
  destruct (Forall2_In _ _ _ _ _ _ Hallx Hin) as (zx & Hzx & Hrx).
  destruct (Forall2_In _ _ _ _ _ _ Hally Hin) as (zy & Hzy & Hry).
  rewrite (Hrx _ _ _ eq_refl Hx Hw) in Hzx.
  rewrite (Hry _ _ _ eq_refl Hy Hh) in Hzy.
  apply greatest_above in Hzx, Hzy.
  unfold far_edge. lia.
Qed.

(** The canvas of the sample layout, 460 by 340, and its second room. *)
Lemma canvas_encloses_integer_rooms_witness :
  exists (W H : Z) (rest : string),
    join sample_parts = canvas_tag (decimal W) (decimal H) ++ rest /\
    forall (room : value) (x y width height : Z),
      In room [ VDict (room_dict "Living Room" 0 0 5 6 30);
                VDict (room_dict "Bedroom 1" 5 0 4 3 12) ] ->
      int_geometry room x y width height ->
      far_edge x width + 50 <= W /\ far_edge y height + 50 <= H.
Proof.
  apply (canvas_encloses_integer_rooms sample_layout
           [ VDict (room_dict "Living Room" 0 0 5 6 30);
             VDict (room_dict "Bedroom 1" 5 0 4 3 12) ]
           (join sample_parts)).
  - reflexivity.
  - discriminate.
  - repeat constructor.
    + exists 0, 0, 5, 6. eexists. repeat split; reflexivity.
    + exists 5, 0, 4, 3. eexists. repeat split; reflexivity.
  - vm_compute. reflexivity.
Defined.

(* ================================================================== *)
(** * More on the generation client *)
(* ================================================================== *)











Lemma build_prompt_same_request :
  forall c1 c2 : ProjectConfig.t, same_request c1 c2 -> build_prompt c1 = build_prompt c2.
Proof.
  intros c1 c2 (Htype & Hw & Hl & Hspaces & Hcult & Hcode).
  unfold build_prompt. unfold cultural_type in Hcult.
  rewrite Htype, Hw, Hl, Hspaces, Hcode.
  replace (match ProjectConfig.culturalParams c1 with
           | Some params =>
               match CulturalParameters.type params with
               | Some t => t
               | None => "None"
               end
           | None => "None"
           end)
    with (match ProjectConfig.culturalParams c2 with
          | Some params =>
              match CulturalParameters.type params with
              | Some t => t
              | None => "None"
              end
          | None => "None"
          end); [reflexivity|].
  destruct (ProjectConfig.culturalParams c1) as [p1|],
           (ProjectConfig.culturalParams c2) as [p2|];
    try rewrite Hcult; try rewrite <- Hcult; reflexivity.
Qed.

(** X16.  Of a configuration, [generate_floor_plan_ai] reads the project
    type, the width and the length of the site, the required spaces, the
    cultural type and the municipal code, the last with an empty one
    standing for none; the adjacency rules, the orientation, the cultural
    preferences and the other fields of the site are not read: two
    configurations that agree on the former make the same calls and give
    the same outcome. *)
Theorem generation_ignores_adjacency_and_orientation :
  forall (P : Providers) (c1 c2 : ProjectConfig.t) (calls : list call),
    same_request c1 c2 ->
    generate_floor_plan_ai P c1 calls = generate_floor_plan_ai P c2 calls.
Proof.
  intros P c1 c2 calls Hsame.
  rewrite !generate_floor_plan_ai_run, (build_prompt_same_request _ _ Hsame).
  destruct (decode_with_fallback P (build_prompt c2) calls) as [[decoded|e] calls'];
    [|reflexivity].
  cbn [bind]. f_equal. unfold convert_layouts.
  destruct (py_get decoded "layouts" (VList [])) as [layouts|e]; [|reflexivity].
  cbn [bind]. destruct (py_iter layouts) as [items|e]; [|reflexivity].
  cbn [bind]. apply mapM_ext. intros layout.
  destruct Hsame as (_ & Hw & Hl & _).
  unfold floor_plan_of_layout. rewrite Hw, Hl. reflexivity.
Qed.

(** Two configurations that differ in adjacency rules, orientation,
    cultural preferences, the drawing of the site and a municipal code
    left empty. *)
Lemma generation_ignores_adjacency_and_orientation_witness :
  generate_floor_plan_ai provider_up plain_config [] =
    generate_floor_plan_ai provider_up other_plain_config [].
Proof.
  apply (generation_ignores_adjacency_and_orientation provider_up
           plain_config other_plain_config []).
  repeat split; reflexivity.
Defined.



(** ** Prose around a fenced payload *)

Lemma startswith_other_head :
  forall (c b : ascii) (sep s : string),
    Ascii.eqb b c = false -> startswith (String c sep) (String b s) = false.
Proof.
  intros c b sep s H. cbn [startswith].
  destruct (Ascii.eqb_spec c b) as [->|Hne]; [|reflexivity].
  rewrite Ascii.eqb_refl in H. discriminate H.
Qed.

Lemma startswith_same_head :
  forall (c : ascii) (w s : string),
    startswith (String c w) (String c s) = startswith w s.
Proof.
  intros c w s. cbn [startswith]. rewrite Ascii.eqb_refl. reflexivity.
Qed.

Lemma absent_no_match_before :
  forall (c : ascii) (sep a rest : string),
    absent c a = true -> no_match_before (String c sep) a rest = true.
Proof.
  intros c sep a rest. induction a as [|b a IH]; intros H; [reflexivity|].
  cbn [absent] in H. apply andb_prop in H. destruct H as [Hb Ha].
  apply negb_true_iff in Hb.
  cbn [no_match_before append].
  rewrite (startswith_other_head _ _ _ _ Hb), (IH Ha). reflexivity.
Qed.

Lemma absent_no_contains :
  forall (c : ascii) (sep s : string),
    absent c s = true -> contains (String c sep) s = false.
Proof.
  intros c sep. induction s as [|b s IH]; intros H; [reflexivity|].
  cbn [absent] in H. apply andb_prop in H. destruct H as [Hb Hs].
  apply negb_true_iff in Hb.
  cbn [contains]. rewrite (startswith_other_head _ _ _ _ Hb), (IH Hs). reflexivity.
Qed.

Lemma contains_app_r :
  forall sub a b : string, contains sub b = true -> contains sub (a ++ b) = true.
Proof.
  intros sub a b H. induction a as [|c a IH]; [exact H|].
  cbn [append contains]. rewrite IH. apply orb_true_r.
Qed.

Lemma startswith_prefix :
  forall w s : string, startswith w s = true -> exists t : string, s = w ++ t.
Proof.
  induction w as [|a w IH]; intros s H; [exists s; reflexivity|].
  destruct s as [|b s]; cbn [startswith] in H; [discriminate H|].
  apply andb_prop in H. destruct H as [Hab Hw].
  apply Ascii.eqb_eq in Hab. subst b.
  destruct (IH _ Hw) as [t ->]. exists t. reflexivity.
Qed.

(** The pieces of a text whose first separator stands behind [a]. *)
Lemma split_behind_prefix :
  forall (c : ascii) (sep a rest : string),
    no_match_before (String c sep) a (String c sep ++ rest) = true ->
    rest <> EmptyString ->
    split (String c sep) (a ++ String c sep ++ rest) = a :: split (String c sep) rest.
Proof.
  intros c sep a rest. induction a as [|b a IH]; intros Hno Hne.
  - apply split_after_sep. exact Hne.
  - cbn [no_match_before] in Hno. apply andb_prop in Hno. destruct Hno as [Hb Ha].
    apply negb_true_iff in Hb.
    unfold split in *.
    change (String b a ++ String c sep ++ rest)
      with (String b (a ++ String c sep ++ rest)) in *.
    cbn [split_from]. rewrite Hb, (IH Ha Hne). reflexivity.
Qed.

(** No separator that cannot hold a newline starts within a payload
    that holds none, set between two newlines. *)
Lemma no_match_before_body :
  forall (c : ascii) (sep p rest : string),
    Ascii.eqb (ascii_of_N 10) c = false ->
    absent (ascii_of_N 10) (String c sep) = true ->
    contains (String c sep) p = false ->
    no_match_before (String c sep) (newline ++ p ++ newline) rest = true.
Proof.
  intros c sep p rest Hc Habs H.
  change (newline ++ p ++ newline) with (String (ascii_of_N 10) (p ++ newline)).
  cbn [no_match_before append].
  rewrite (startswith_other_head _ _ _ _ Hc). cbn [negb andb].
  induction p as [|b p IH].
  - cbn [append no_match_before newline].
    rewrite (startswith_other_head _ _ _ _ Hc). reflexivity.
  - cbn [contains] in H. apply orb_false_elim in H. destruct H as [Hs Hp].
    change (String b p ++ newline) with (String b (p ++ newline)).
    cbn [no_match_before]. rewrite (IH Hp), andb_true_r.
    change (String b (p ++ newline)) with (String b p ++ newline).
    rewrite str_app_assoc. unfold newline at 1. cbn [append].
    change (String b (p ++ String (ascii_of_N 10) rest))
      with (String b p ++ String (ascii_of_N 10) rest).
    rewrite (startswith_app_absent _ (String b p) (ascii_of_N 10) rest Habs), Hs.
    reflexivity.
Qed.

Lemma contains_body :
  forall (sep p rest : string),
    absent (ascii_of_N 10) sep = true ->
    sep <> EmptyString ->
    contains sep p = false ->
    contains sep (newline ++ p ++ newline ++ rest) =
      startswith sep (newline ++ p ++ newline ++ rest) || contains sep (newline ++ rest).
Proof.
  intros sep p rest Habs Hne Hp.
  change (newline ++ p ++ newline ++ rest)
    with (String (ascii_of_N 10) (p ++ String (ascii_of_N 10) rest)).
  cbn [contains]. rewrite (contains_app_absent sep p _ rest Habs Hne), Hp.
  reflexivity.
Qed.

Lemma no_fence_between_newlines :
  forall p : string,
    contains fence p = false -> contains fence (newline ++ p ++ newline) = false.
Proof.
  intros p Hp.
  change (newline ++ p ++ newline) with (String (ascii_of_N 10) (p ++ newline)).
  cbn [contains]. unfold newline.
  rewrite (contains_app_absent fence p (ascii_of_N 10) EmptyString eq_refl
             ltac:(discriminate)), Hp.
  reflexivity.
Qed.

(** What stands behind the opening fence, cleaned of its closing fence
    and of what follows it. *)
Lemma clean_behind_json_fence :
  forall p after : string,
    contains fence p = false ->
    absent "`" after = true ->
    exists tail inner : string,
      list_index (split json_fence (newline ++ p ++ newline ++ fence ++ after)) 0 = Ok tail /\
      list_index (split fence tail) 0 = Ok inner /\
      strip inner = strip p.
Proof.
  intros p after Hp Hafter.
  destruct (startswith "json" after) eqn:Hjson.
  - destruct (startswith_prefix _ _ Hjson) as [after' ->].
    exists (newline ++ p ++ newline), (newline ++ p ++ newline).
    destruct (split_from_head json_fence (newline ++ p ++ newline)
                (json_fence ++ after')) as [pieces Hsplit].
    + apply no_match_before_body;
        [reflexivity | reflexivity | exact (no_fence_no_json_fence _ Hp)].
    + apply startswith_self_app.
    + discriminate.
    + rewrite !str_app_assoc in Hsplit. unfold split.
      change (fence ++ "json" ++ after') with (json_fence ++ after').
      rewrite Hsplit.
      rewrite (split_from_no_sep _ _ (no_fence_between_newlines _ Hp)).
      repeat split; [apply strip_between_newlines].
  - exists (newline ++ p ++ newline ++ fence ++ after), (newline ++ p ++ newline).
    assert (Hnone : contains json_fence (newline ++ p ++ newline ++ fence ++ after) = false).
    { rewrite (contains_body json_fence p _ eq_refl ltac:(discriminate)
                 (no_fence_no_json_fence _ Hp)).
      pose proof (absent_no_contains "`" "``json" after Hafter) as Hc.
      fold json_fence in Hc.
      destruct after as [|a after'].
      - reflexivity.
      - cbn [absent] in Hafter. apply andb_prop in Hafter.
        destruct Hafter as [Ha _]. apply negb_true_iff in Ha.
        unfold newline, fence. cbn [append contains].
        change (startswith json_fence (String a after') || contains json_fence after')
          with (contains json_fence (String a after')).
        rewrite Hc.
        unfold json_fence.
        rewrite !(startswith_other_head "`" (ascii_of_N 10) _ _ eq_refl).
        rewrite !startswith_same_head.
        rewrite !(startswith_other_head "`" a _ _ Ha), Hjson.
        reflexivity. }
    unfold split at 1. rewrite (split_from_no_sep _ _ Hnone).
    destruct (split_from_head fence (newline ++ p ++ newline) (fence ++ after))
      as [pieces Hsplit].
    + apply no_match_before_body; [reflexivity | reflexivity | exact Hp].
    + apply startswith_self_app.
    + discriminate.
    + rewrite !str_app_assoc in Hsplit. unfold split. rewrite Hsplit.
      repeat split; [apply strip_between_newlines].
Qed.

(** X18.  Prose around the fences is dropped: a response made of prose
    without backticks, a [```json] line, a payload that holds no fence, a
    [```] line and more prose without backticks is decoded as
    [json.loads] decodes the payload stripped of the white space around
    it. *)
Theorem prose_around_json_fence :
  forall before payload after : string,
    absent "`" before = true ->
    contains fence payload = false ->
    absent "`" after = true ->
    parse_response (before ++ fenced_json payload ++ after) =
      Json.loads (strip payload).
Proof.
  intros before payload after Hbefore Hp Hafter.
  destruct (clean_behind_json_fence payload after Hp Hafter)
    as (tail & inner & Htail & Hinner & Hstrip).
  unfold parse_response, clean_markdown, fenced_json.
  rewrite !str_app_assoc.
  rewrite (contains_app_r json_fence before _
             (contains_of_startswith _ _ (startswith_self_app json_fence _))).
  unfold json_fence at 1 2.
  rewrite split_behind_prefix;
    [|apply absent_no_match_before; exact Hbefore | discriminate].
  fold json_fence.
  unfold list_index in Htail, Hinner |- *.
  destruct (split json_fence (newline ++ payload ++ newline ++ fence ++ after))
    as [|piece pieces]; cbn [nth_error] in Htail |- *; [discriminate Htail|].
  injection Htail as ->. cbn [bind].
  destruct (split fence tail) as [|first rest];
    cbn [nth_error] in Hinner |- *; [discriminate Hinner|].
  injection Hinner as ->. cbn [bind]. rewrite Hstrip. reflexivity.
Qed.

(** The answer of the provider that is up: prose, then the fenced
    object; and a polite ending behind it. *)
Lemma prose_around_json_fence_witness :
  parse_response ("Here you are:" ++ fenced_json (q "{'layouts': []}") ++ " Enjoy!") =
    Json.loads (strip (q "{'layouts': []}")).
Proof.
  apply (prose_around_json_fence "Here you are:" (q "{'layouts': []}") " Enjoy!");
    reflexivity.
Defined.

(** ** What the cleaning leaves *)

Lemma startswith_app :
  forall w a b : string, startswith w a = true -> startswith w (a ++ b) = true.
Proof.
  induction w as [|c w IH]; intros a b H; [reflexivity|].
  destruct a as [|d a]; cbn [startswith] in H; [discriminate H|].
  apply andb_prop in H. destruct H as [Hcd Hw].
  cbn [append startswith]. rewrite Hcd, (IH _ b Hw). reflexivity.
Qed.

Lemma contains_app_l :
  forall sub a b : string, contains sub a = true -> contains sub (a ++ b) = true.
Proof.
  intros sub a b. induction a as [|c a IH]; intros H.
  - apply contains_of_startswith.
    cbn [contains] in H. rewrite orb_false_r in H.
    exact (startswith_app _ _ b H).
  - cbn [contains] in H. apply orb_prop in H. destruct H as [Hs|Hc].
    + apply contains_of_startswith. exact (startswith_app _ _ b Hs).
    + cbn [append contains]. rewrite (IH Hc). apply orb_true_r.
Qed.

Lemma contains_drop :
  forall (sub : string) (n : nat) (s : string),
    contains sub (drop n s) = true -> contains sub s = true.
Proof.
  intros sub. induction n as [|n IH]; intros s H; [exact H|].
  destruct s as [|c s]; cbn [drop] in H; [exact H|].
  cbn [contains]. rewrite (IH _ H). apply orb_true_r.
Qed.

Lemma lstrip_from_drop :
  forall (s : string) (k : nat), exists n : nat, lstrip_from k s = drop n s.
Proof.
  induction s as [|c s IH]; intros k.
  - exists 0%nat. destruct k; reflexivity.
  - cbn [lstrip_from]. destruct k as [|k].
    + destruct (space_prefix (String c s)) as [|j]; [exists 0%nat; reflexivity|].
      destruct (IH j) as [n Hn]. exists (S n). exact Hn.
    + destruct (IH k) as [n Hn]. exists (S n). exact Hn.
Qed.

Lemma rstrip_prefix : forall s : string, exists t : string, s = rstrip s ++ t.
Proof.
  induction s as [|c s [t Ht]]; [exists EmptyString; reflexivity|].
  cbn [rstrip]. destruct (lstrip (String c s) =? EmptyString)%string.
  - exists (String c s). reflexivity.
  - exists t. cbn [append]. f_equal. exact Ht.
Qed.

(** Stripping brings in no occurrence. *)
Lemma strip_keeps_absence :
  forall sub s : string, contains sub s = false -> contains sub (strip s) = false.
Proof.
  intros sub s H.
  destruct (contains sub (strip s)) eqn:Hstrip; [|reflexivity].
  unfold strip, lstrip in Hstrip.
  destruct (lstrip_from_drop s 0) as [n Hn]. rewrite Hn in Hstrip.
  destruct (rstrip_prefix (drop n s)) as [t Ht].
  apply (contains_app_l _ _ t) in Hstrip. rewrite <- Ht in Hstrip.
  apply contains_drop in Hstrip. congruence.
Qed.

(** The first piece of a split holds no separator. *)
Lemma split_head_no_sep :
  forall sep s : string,
    sep <> EmptyString ->
    exists (piece : string) (pieces : list string) (rest : string),
      split_from sep 0 s = piece :: pieces /\ s = piece ++ rest /\
      contains sep piece = false.
Proof.
  intros sep s Hsep.
  assert (Hempty : contains sep EmptyString = false)
    by (destruct sep; [contradiction | reflexivity]).
  induction s as [|c s (piece & pieces & rest & Hsplit & Hs & Hno)].
  - exists EmptyString, [], EmptyString. repeat split. exact Hempty.
  - cbn [split_from]. destruct (startswith sep (String c s)) eqn:Hstart.
    + do 2 eexists. exists (String c s). repeat split. exact Hempty.
    + rewrite Hsplit. exists (String c piece), pieces, rest.
      split; [reflexivity|]. split; [cbn [append]; f_equal; exact Hs|].
      cbn [contains]. rewrite Hno, orb_false_r.
      destruct (startswith sep (String c piece)) eqn:Hpiece; [|reflexivity].
      apply (startswith_app _ _ rest) in Hpiece. cbn [append] in Hpiece.
      rewrite <- Hs in Hpiece. congruence.
Qed.

(** X19.  The cleaning of a response never raises, the two subscripts
    on the pieces of the text always finding their piece; a text that
    holds a fence is cleaned to a text that holds none, and a text that
    holds no fence is left as it is, its white space included. *)
Theorem cleaning_leaves_no_fence :
  forall result_text : string,
    exists cleaned : string,
      clean_markdown result_text = Ok cleaned /\
      (contains fence result_text = true -> contains fence cleaned = false) /\
      (contains fence result_text = false -> cleaned = result_text).
Proof.
  intros result_text.
  destruct (clean_markdown_returns result_text) as [cleaned H].
  exists cleaned. split; [exact H|].
  unfold clean_markdown in H.
  assert (Hinner :
            forall tail : string,
              (inner <- list_index (split fence tail) 0 ;; Ok (strip inner)) = Ok cleaned ->
              contains fence cleaned = false).
  { intros tail Hc.
    destruct (split_head_no_sep fence tail ltac:(discriminate))
      as (piece & pieces & rest & Hsplit & _ & Hno).
    unfold split, list_index in Hc. rewrite Hsplit in Hc.
    cbn [nth_error bind] in Hc. injection Hc as <-.
    apply strip_keeps_absence. exact Hno. }
  destruct (contains json_fence result_text) eqn:Ej.
  - run_bind H. split.
    + intros _. exact (Hinner _ H).
    + intros Hf. rewrite (no_fence_no_json_fence _ Hf) in Ej. discriminate Ej.
  - destruct (contains fence result_text) eqn:Ef.
    + run_bind H. split; [intros _; exact (Hinner _ H) | discriminate].
    + injection H as <-. split; [discriminate | reflexivity].
Qed.

(** The payload with a fence inside a string, fenced: what is cut out
    of it holds no fence, and is not the payload. *)
Lemma cleaning_leaves_no_fence_witness :
  exists cleaned : string,
    clean_markdown (fenced_json payload_with_fence) = Ok cleaned /\
    (contains fence (fenced_json payload_with_fence) = true ->
     contains fence cleaned = false) /\
    (contains fence (fenced_json payload_with_fence) = false ->
     cleaned = fenced_json payload_with_fence).
Proof.
  exact (cleaning_leaves_no_fence (fenced_json payload_with_fence)).
Defined.

(* ================================================================== *)
(** * Properties of the routes *)
(* ================================================================== *)

(** [run_route H]: one step through a route that is known to have ended,
    [H] being the equation of its outcome. *)
Ltac run_route H :=
  match type of H with
  | context [store_find_one ?S ?id] =>
      let doc := fresh "doc" in
      let Hfind := fresh "Hfind" in
      destruct (store_find_one S id) as [[doc|]|] eqn:Hfind
  | context [project_of_document ?S ?doc] =>
      let project := fresh "project" in
      let Hproject := fresh "Hproject" in
      destruct (project_of_document S doc) as [project|] eqn:Hproject
  | context [generate_floor_plan_ai ?P ?config []] =>
      let plans := fresh "plans" in
      let calls := fresh "calls" in
      let Hplans := fresh "Hplans" in
      destruct (generate_floor_plan_ai P config []) as [[plans|] calls] eqn:Hplans
  | context [check_compliance ?p] =>
      let checks := fresh "checks" in
      let Hchecks := fresh "Hchecks" in
      destruct (check_compliance p) as [checks|] eqn:Hchecks
  | context [estimate_materials ?p] =>
      let materials := fresh "materials" in
      let Hmaterials := fresh "Hmaterials" in
      destruct (estimate_materials p) as [materials|] eqn:Hmaterials
  | context [store_update_one ?S ?id ?set] =>
      let Hupdate := fresh "Hupdate" in
      destruct (store_update_one S id set) as [[]|] eqn:Hupdate
  end.

(** X20.  The route [generate_floor_plans] writes nothing when it fails:
    if it raises, the events it leaves are the look-up of the project and
    the outbound calls made until then, and no write, unless the
    exception is that of the write itself, which is then the last
    event. *)
Theorem generate_route_failure_writes_nothing :
  forall (S : Store) (P : Providers) (now project_id : string)
         (log log' : list event) (e : exn),
    generate_floor_plans S P now project_id log = (Raise e, log') ->
    exists calls : list call,
      log' = (log ++ FindOne project_id :: map Outbound calls)%list \/
      exists set : dict,
        log' = (log ++ FindOne project_id :: map Outbound calls
                    ++ [UpdateOne project_id set])%list /\
        store_update_one S project_id set = Raise e.
Proof.
  intros S P now project_id log log' e H.
  unfold generate_floor_plans, route_bind, find_one, route_raise, route_lift,
    outbound, update_one, route_ret in H.
  run_route H; [destruct doc as [|item doc]| |];
    try (injection H as _ <-; exists []; left; reflexivity).
  run_route H; [|injection H as _ <-; exists []; left; reflexivity].
  run_route H;
    [|injection H as _ <-; exists calls; left; rewrite <- app_assoc; reflexivity].
  run_route H;
    [|injection H as _ <-; exists calls; left; rewrite <- app_assoc; reflexivity].
  run_route H;
    [|injection H as _ <-; exists calls; left; rewrite <- app_assoc; reflexivity].
  run_route H; [discriminate H|].
  injection H as <- <-. exists calls. right.
  eexists. split; [|exact Hupdate].
  rewrite <- !app_assoc. reflexivity.
Qed.

(** Both providers down: the route raises after its two outbound calls,
    and has written nothing. *)
Lemma generate_route_failure_writes_nothing_witness :
  exists calls : list call,
    snd (generate_floor_plans (store_of two_rooms_project) provider_down
           "2025-02-01T00:00:00+00:00" "p-1" []) =
      ([] ++ FindOne "p-1" :: map Outbound calls)%list \/
    exists set : dict,
      snd (generate_floor_plans (store_of two_rooms_project) provider_down
             "2025-02-01T00:00:00+00:00" "p-1" []) =
        ([] ++ FindOne "p-1" :: map Outbound calls ++ [UpdateOne "p-1" set])%list /\
      store_update_one (store_of two_rooms_project) "p-1" set =
        Raise (HTTPException 500 "AI generation failed").
Proof.
  apply (generate_route_failure_writes_nothing (store_of two_rooms_project)
           provider_down "2025-02-01T00:00:00+00:00" "p-1" []
           (snd (generate_floor_plans (store_of two_rooms_project) provider_down
                   "2025-02-01T00:00:00+00:00" "p-1" []))
           (HTTPException 500 "AI generation failed")).
  vm_compute. reflexivity.
Defined.

(** X21.  When the route [generate_floor_plans] succeeds, what it
    returns and what it writes agree: the floor plans generated for the
    configuration of the project, the findings and the bill of materials
    of the project with these floor plans and the selection set back to
    the first of them, whatever was selected before, and, in the one
    write, which is the last event, the selected index 0 and the time of
    the update.  The bill is that of the first floor plan, and with no
    floor plan generated the findings and the bill are empty. *)
Theorem generate_route_stores_first_layout :
  forall (S : Store) (P : Providers) (now project_id : string)
         (log log' : list event) (response : dict),
    generate_floor_plans S P now project_id log = (Ok response, log') ->
    exists (doc : dict) (project : Project.t) (plans : list FloorPlanData.t)
           (calls : list call) (checks : list ComplianceCheck.t)
           (materials : list MaterialItem.t),
      store_find_one S project_id = Ok (Some doc) /\
      project_of_document S doc = Ok project /\
      generate_floor_plan_ai P (Project.config project) [] = (Ok plans, calls) /\
      check_compliance (set_selectedPlanIndex (set_floorPlans project plans) 0)
        = Ok checks /\
      materials =
        match plans with
        | [] => []
        | plan :: _ =>
            material_lines (FloorPlanData.totalArea plan)
              (Z.of_nat (List.length (FloorPlanData.rooms plan)))
        end /\
      (plans = [] -> checks = []) /\
      response = generated_response plans checks materials /\
      log' = (log ++ FindOne project_id :: map Outbound calls
                  ++ [UpdateOne project_id
                        (generated_update plans checks materials now)])%list.
Proof.
  intros S P now project_id log log' response H.
  unfold generate_floor_plans, route_bind, find_one, route_raise, route_lift,
    outbound, update_one, route_ret in H.
  run_route H; [destruct doc as [|item doc]| |]; try discriminate H.
  run_route H; [|discriminate H].
  run_route H; [|discriminate H].
  run_route H; [|discriminate H].
  run_route H; [|discriminate H].
  run_route H; [|discriminate H].
  injection H as <- <-.
  exists (item :: doc), project, plans, calls, checks, materials.
  repeat split; try assumption; try reflexivity.
  - destruct plans as [|plan rest]; cbn in Hmaterials;
      injection Hmaterials as <-; reflexivity.
  - intros ->. cbn in Hchecks. injection Hchecks as <-. reflexivity.
  - rewrite <- !app_assoc. reflexivity.
Qed.

(** The provider that is up, on the project of the store: the route
    returns and writes the one floor plan generated. *)
Lemma generate_route_stores_first_layout_witness :
  exists (response : dict) (log' : list event),
    generate_floor_plans (store_of two_rooms_project) provider_up
      "2025-02-01T00:00:00+00:00" "p-1" [] = (Ok response, log') /\
    exists (doc : dict) (project : Project.t) (plans : list FloorPlanData.t)
           (calls : list call) (checks : list ComplianceCheck.t)
           (materials : list MaterialItem.t),
      store_find_one (store_of two_rooms_project) "p-1" = Ok (Some doc) /\
      project_of_document (store_of two_rooms_project) doc = Ok project /\
      generate_floor_plan_ai provider_up (Project.config project) [] = (Ok plans, calls) /\
      check_compliance (set_selectedPlanIndex (set_floorPlans project plans) 0)
        = Ok checks /\
      materials =
        match plans with
        | [] => []
        | plan :: _ =>
            material_lines (FloorPlanData.totalArea plan)
              (Z.of_nat (List.length (FloorPlanData.rooms plan)))
        end /\
      (plans = [] -> checks = []) /\
      response = generated_response plans checks materials /\
      log' = ([] ++ FindOne "p-1" :: map Outbound calls
                 ++ [UpdateOne "p-1"
                       (generated_update plans checks materials
                          "2025-02-01T00:00:00+00:00")])%list.
Proof.
  do 2 eexists. split.
  - vm_compute. reflexivity.
  - apply (generate_route_stores_first_layout (store_of two_rooms_project) provider_up
             "2025-02-01T00:00:00+00:00" "p-1" []).
    vm_compute. reflexivity.
Defined.

(** X22.  The route [select_plan] writes the index before it looks at
    the project: with an index outside the layouts of a project that has
    some, it raises [IndexError] after the index has been written, and
    the findings and the materials on record are not written again. *)
Theorem select_plan_out_of_range_keeps_index :
  forall (S : Store) (project_id : string) (plan_index : Z) (log : list event)
         (doc : dict) (project : Project.t),
    store_update_one S project_id [("selectedPlanIndex", VInt plan_index)] = Ok tt ->
    store_find_one S project_id = Ok (Some doc) ->
    project_of_document S doc = Ok project ->
    Project.floorPlans project <> [] ->
    plan_index < - Z.of_nat (List.length (Project.floorPlans project)) \/
    Z.of_nat (List.length (Project.floorPlans project)) <= plan_index ->
    select_plan S project_id plan_index log =
      (Raise IndexError,
       (log ++ [ UpdateOne project_id [("selectedPlanIndex", VInt plan_index)];
                 FindOne project_id ])%list).
Proof.
  intros S project_id plan_index log doc project Hupdate Hfind Hproject Hne Hi.
  unfold select_plan, route_bind, find_one, route_raise, route_lift, update_one.
  rewrite Hupdate, Hfind, Hproject.
  assert (Hcheck : check_compliance (set_selectedPlanIndex project plan_index)
                   = Raise IndexError).
  { unfold check_compliance, selected_plan, set_selectedPlanIndex.
    cbn [Project.floorPlans Project.selectedPlanIndex Project.config].
    destruct (Project.floorPlans project) as [|p ps]; [contradiction|].
    rewrite (list_getitem_out_of_range _ _ _ Hi). reflexivity. }
  rewrite Hcheck, <- app_assoc. reflexivity.
Qed.

(** The index 7 on the project of the store, which has one layout. *)
Lemma select_plan_out_of_range_keeps_index_witness :
  select_plan (store_of two_rooms_project) "p-1" 7 [] =
    (Raise IndexError,
     ([] ++ [ UpdateOne "p-1" [("selectedPlanIndex", VInt 7)]; FindOne "p-1" ])%list).
Proof.
  apply (select_plan_out_of_range_keeps_index (store_of two_rooms_project) "p-1" 7 []
           [("id", VStr "p-1")] two_rooms_project).
  - reflexivity.
  - reflexivity.
  - reflexivity.
  - discriminate.
  - right. simpl. lia.
Defined.

(** X23.  An id the store knows no project for: the route
    [generate_floor_plans] answers with the status 404 before any
    outbound call and any write; the route [select_plan] issues its write
    all the same and then, the subscript on the document that is not
    there failing, raises [TypeError] and no status 404. *)
Theorem unknown_project_in_the_routes :
  forall (S : Store) (P : Providers) (now project_id : string) (plan_index : Z)
         (log : list event),
    store_find_one S project_id = Ok None ->
    generate_floor_plans S P now project_id log =
      (Raise (HTTPException 404 "Project not found"),
       (log ++ [FindOne project_id])%list) /\
    (store_update_one S project_id [("selectedPlanIndex", VInt plan_index)] = Ok tt ->
     select_plan S project_id plan_index log =
       (Raise TypeError,
        (log ++ [ UpdateOne project_id [("selectedPlanIndex", VInt plan_index)];
                  FindOne project_id ])%list)).
Proof.
  intros S P now project_id plan_index log Hfind. split.
  - unfold generate_floor_plans, route_bind, find_one, route_raise, route_lift.
    rewrite Hfind. reflexivity.
  - intros Hupdate.
    unfold select_plan, route_bind, find_one, route_raise, route_lift, update_one.
    rewrite Hupdate, Hfind, <- app_assoc. reflexivity.
Qed.

(** The id [p-2], which the store does not know. *)
Lemma unknown_project_in_the_routes_witness :
  generate_floor_plans (store_of two_rooms_project) provider_up
    "2025-02-01T00:00:00+00:00" "p-2" [] =
    (Raise (HTTPException 404 "Project not found"), ([] ++ [FindOne "p-2"])%list) /\
  select_plan (store_of two_rooms_project) "p-2" 0 [] =
    (Raise TypeError,
     ([] ++ [ UpdateOne "p-2" [("selectedPlanIndex", VInt 0)]; FindOne "p-2" ])%list).
Proof.
  destruct (unknown_project_in_the_routes (store_of two_rooms_project) provider_up
              "2025-02-01T00:00:00+00:00" "p-2" 0 [] eq_refl) as [Hgenerate Hselect].
  split; [exact Hgenerate | exact (Hselect eq_refl)].
Defined.

(** X24.  When the route [select_plan] succeeds, its second write, the
    last event, holds the findings and the bill of materials of the
    project with the index just selected; and a project with no layouts
    takes any index: the route succeeds, the index is written, and the
    findings and the bill written are empty. *)
Theorem select_plan_rewrites_findings_and_materials :
  forall (S : Store) (project_id : string) (plan_index : Z)
         (log log' : list event) (response : dict),
    select_plan S project_id plan_index log = (Ok response, log') ->
    exists (doc : dict) (project : Project.t) (checks : list ComplianceCheck.t)
           (materials : list MaterialItem.t),
      store_find_one S project_id = Ok (Some doc) /\
      project_of_document S doc = Ok project /\
      check_compliance (set_selectedPlanIndex project plan_index) = Ok checks /\
      estimate_materials (set_selectedPlanIndex project plan_index) = Ok materials /\
      (Project.floorPlans project = [] -> checks = [] /\ materials = []) /\
      response = [("success", VBool true)] /\
      log' = (log ++ [ UpdateOne project_id [("selectedPlanIndex", VInt plan_index)];
                       FindOne project_id;
                       UpdateOne project_id
                         [ ("complianceChecks", VList (map dump_check checks));
                           ("materials", VList (map dump_material materials)) ] ])%list.
Proof.
  intros S project_id plan_index log log' response H.
  unfold select_plan, route_bind, find_one, route_raise, route_lift, update_one,
    route_ret in H.
  destruct (store_update_one S project_id [("selectedPlanIndex", VInt plan_index)])
    as [[]|]; [|discriminate H].
  run_route H; try discriminate H.
  run_route H; [|discriminate H].
  run_route H; [|discriminate H].
  run_route H; [|discriminate H].
  run_route H; [|discriminate H].
  injection H as <- <-.
  exists doc, project, checks, materials.
  repeat split; try assumption; try reflexivity.
  - unfold check_compliance, selected_plan, set_selectedPlanIndex in Hchecks.
    cbn [Project.floorPlans] in Hchecks. rewrite H in Hchecks.
    injection Hchecks as <-. reflexivity.
  - unfold estimate_materials, set_selectedPlanIndex in Hmaterials.
    cbn [Project.floorPlans] in Hmaterials. rewrite H in Hmaterials.
    injection Hmaterials as <-. reflexivity.
  - rewrite <- !app_assoc. reflexivity.
Qed.

(** The second layout of a project of three layouts, selected. *)
Lemma select_plan_rewrites_findings_and_materials_witness :
  exists (response : dict) (log' : list event),
    select_plan (store_of (three_plans_project 0)) "p-1" 1 [] = (Ok response, log') /\
    exists (doc : dict) (project : Project.t) (checks : list ComplianceCheck.t)
           (materials : list MaterialItem.t),
      store_find_one (store_of (three_plans_project 0)) "p-1" = Ok (Some doc) /\
      project_of_document (store_of (three_plans_project 0)) doc = Ok project /\
      check_compliance (set_selectedPlanIndex project 1) = Ok checks /\
      estimate_materials (set_selectedPlanIndex project 1) = Ok materials /\
      (Project.floorPlans project = [] -> checks = [] /\ materials = []) /\
      response = [("success", VBool true)] /\
      log' = ([] ++ [ UpdateOne "p-1" [("selectedPlanIndex", VInt 1)];
                      FindOne "p-1";
                      UpdateOne "p-1"
                        [ ("complianceChecks", VList (map dump_check checks));
                          ("materials", VList (map dump_material materials)) ] ])%list.
Proof.
  do 2 eexists. split.
  - vm_compute. reflexivity.
  - apply (select_plan_rewrites_findings_and_materials
             (store_of (three_plans_project 0)) "p-1" 1 []).
    vm_compute. reflexivity.
Defined.

(* ================================================================== *)
(** * Properties of the boundary import *)
(* ================================================================== *)






(** The suffix is compared as it is written: an upper-case extension is
    refused. *)
Example upload_dxf_upper_case :
  upload_dxf (store_of two_rooms_project) reader "p-1" (Some "SITE.DXF")
    "circle and text" [] =
    (Raise (HTTPException 400 "Only DXF files are supported"), []).
Proof. reflexivity. Qed.

(** A drawing of two lines and a circle: the bounds are those of the
    lines. *)
Example parse_dxf_two_lines :
  parse_dxf_file
    {| readfile_modelspace :=
         fun _ =>
           Ok [ {| Entity.dxftype := "LINE"; Entity.start := origin;
                   Entity.end_ := {| Vec3.x := 4%float; Vec3.y := 0%float |} |};
                {| Entity.dxftype := "CIRCLE";
                   Entity.start := {| Vec3.x := 9%float; Vec3.y := 9%float |};
                   Entity.end_ := {| Vec3.x := 9%float; Vec3.y := 9%float |} |};
                {| Entity.dxftype := "LINE";
                   Entity.start := {| Vec3.x := 4%float; Vec3.y := 0%float |};
                   Entity.end_ := {| Vec3.x := 4%float; Vec3.y := 3%float |} |} ];
       str_of_exception := fun _ => EmptyString |}
    "two lines and a circle" =
    [ ("width", VFloat 4%float); ("length", VFloat 3%float);
      ("area", VFloat 12%float); ("parsed", VBool true) ].
Proof. vm_compute. reflexivity. Qed.

(* ================================================================== *)
(** * Worked examples *)
(* ================================================================== *)

(** The drawing of a layout with no room. *)
Example render_empty_layout :
  generate_svg_from_layout empty_layout =
    Ok (q "<svg width='900' height='700' xmlns='http://www.w3.org/2000/svg'>"
        ++ "<defs>"
        ++ q "<pattern id='grid' width='40' height='40' patternUnits='userSpaceOnUse'>"
        ++ q "<path d='M 40 0 L 0 0 0 40' fill='none' stroke='#e0e0e0' stroke-width='0.5'/>"
        ++ "</pattern>"
        ++ "</defs>"
        ++ q "<rect width='900' height='700' fill='url(#grid)'/>"
        ++ "</svg>").
Proof. vm_compute. reflexivity. Qed.

(** The parts the second room of [sample_layout] contributes: integer
    coordinates stay integers, the centre of the labels is a float. *)
Example render_second_room :
  firstn 3 (skipn 10 sample_parts) =
    [ q "<rect x='250' y='50' width='160' height='120' fill='#f3e5f5' stroke='#424242' stroke-width='2' rx='2'/>";
      q "<text x='330.0' y='110.0' text-anchor='middle' font-family='Arial' font-size='12' font-weight='bold' fill='#212121'>Bedroom 1</text>";
      q "<text x='330.0' y='125.0' text-anchor='middle' font-family='Arial' font-size='10' fill='#616161'>12.0 m²</text>" ].
Proof. vm_compute. reflexivity. Qed.

(** A run of the whole client: the primary provider answers with prose
    around a fenced object, no fallback is made, and the one layout comes
    back with its drawing. *)
Example generate_one_layout :
  exists svg : string,
    generate_floor_plan_ai provider_up plain_config [] =
      (Ok [ {| FloorPlanData.svgContent := svg;
               FloorPlanData.rooms := [room_dict "Living Room" 0 0 5 6 30];
               FloorPlanData.totalArea := 30%float;
               FloorPlanData.dimensions := [("width", 20%float); ("length", 15%float)] |} ],
       [GeminiCall "gemini-2.5-pro" (build_prompt plain_config)]) /\
    generate_svg_from_layout
      (VDict [ ("name", VStr "Studio"); ("description", VStr "One room");
               ("totalArea", VInt 30);
               ("rooms", VList [VDict (room_dict "Living Room" 0 0 5 6 30)]) ]) = Ok svg.
Proof. eexists. vm_compute. split; reflexivity. Qed.

(** A vastu configuration adds the two cultural findings between the
    regulatory findings and the accessibility finding. *)
Example check_compliance_vastu :
  option_map (map ComplianceCheck.rule)
    (match
       check_compliance
         (project_with
            {| ProjectConfig.projectType := "residential";
               ProjectConfig.siteConstraints := site_unset;
               ProjectConfig.requiredSpaces := [];
               ProjectConfig.adjacencyRules := None;
               ProjectConfig.orientation := None;
               ProjectConfig.culturalParams :=
                 Some {| CulturalParameters.type := Some "vastu_north";
                         CulturalParameters.preferences := None |};
               ProjectConfig.municipalCode := Some "BBMP" |}
            [plan_with [[("name", VStr "Kitchen"); ("area", VFloat 9.5%float)]] 9.5%float]
            0)
     with
     | Ok findings => Some findings
     | Raise _ => None
     end) =
    Some [ "Minimum Room Size"; "Building Setbacks"; "Kitchen Placement (Vastu)";
           "Main Entrance (Vastu)"; "Doorway Width (ADA)" ].
Proof. vm_compute. reflexivity. Qed.

(** Numbers as Python prints them: [repr] picks the shortest digits that
    read back as the same float, [.1f] rounds the exact value, ties to
    even. *)
Example float_repr_samples :
  map float_repr
    [0.9; 0.15; 150; 330.5; 0.1 + 0.2; 1e16; 1e15; 0.0001; 0.00001; 1.5e-7; 5e-324]%float =
    [ "0.9"; "0.15"; "150.0"; "330.5"; "0.30000000000000004"; "1e+16";
      "1000000000000000.0"; "0.0001"; "1e-05"; "1.5e-07"; "5e-324" ].
Proof. vm_compute. reflexivity. Qed.

Example float_format_1f_samples :
  map float_format_1f [8; 8.25; 8.35; 0.05; 20; 1e22; -0.04]%float =
    [ "8.0"; "8.2"; "8.3"; "0.1"; "20.0"; "10000000000000000000000.0"; "-0.0" ].
Proof. vm_compute. reflexivity. Qed.

(** The decoder on a text with every kind of value. *)
Example loads_sample :
  Json.loads (q "{'a': [1, -2.5, 1e2, true, null], 'b': {'c': 'xé\n'}, 'a': 'again'}") =
    Ok (VDict [ ("a", VStr "again");
                ("b", VDict [("c", VStr ("xé" ++ newline))]) ]).
Proof. vm_compute. reflexivity. Qed.

Example decimal_samples :
  map decimal [0; 7; -5; 900; 12345678901234567890123] =
    ["0"; "7"; "-5"; "900"; "12345678901234567890123"].
Proof. vm_compute. reflexivity. Qed.

(** An answer that is JSON but no object is not a failed attempt: it is
    decoded inside the [try], and the conversion that follows raises
    outside of it, with no fallback. *)
Example generate_on_a_list :
  generate_floor_plan_ai
    {| gemini_generate_content := fun _ _ => Ok "[1, 2]";
       openai_chat_completions_create := fun _ _ _ => Ok (Some "{}") |}
    plain_config [] =
    (Raise AttributeError, [GeminiCall "gemini-2.5-pro" (build_prompt plain_config)]).
Proof. vm_compute. reflexivity. Qed.
